(** * Excalidraw to PNG converter: the SVG synthesizer and the fallback chain

    A shallow embedding of [src/docs/convert.py].  The document handed to
    [excalidraw_to_svg] is whatever [json.load] returned, so the embedding
    works on JSON values and follows CPython's dynamic behaviour on them:
    [dict.get], truthiness, mixed [int]/[float] arithmetic, [min]/[max],
    f-string formatting.  Exceptions are kept up to what the handlers of the
    program can tell apart ([except ImportError], [except Exception], a bare
    [except]).

    A Python [str] is represented by the Rocq [string] of its UTF-8
    encoding; a Python [int] by [Z]; a Python [float] by the kernel's
    binary64 [float]. *)

From Stdlib Require Import ZArith String Ascii List Bool Floats DecimalString Lia
  Permutation.
Import ListNotations.
Set Warnings "-register-all".
Open Scope string_scope.
Open Scope Z_scope.

(** ** Text helpers *)

(** The double quote and the line feed, which the markup is full of. *)
Definition dq : string := String (ascii_of_nat 34) "".
Definition nl : string := String (ascii_of_nat 10) "".
Definition nl_char : ascii := ascii_of_nat 10.

(** [ name="value"], one attribute with its leading blank. *)
Definition attr (name val : string) : string :=
  " " ++ name ++ "=" ++ dq ++ val ++ dq.

(** [str.replace(old, new)] for a non-empty [old]: occurrences are taken from
    left to right and do not overlap.  [skip] counts the characters of a
    match that are still to be dropped. *)
Fixpoint replace_from (old new : string) (skip : nat) (s : string) : string :=
  match s with
  | EmptyString => EmptyString
  | String c rest =>
      match skip with
      | S k => replace_from old new k rest
      | O =>
          if prefix old s
          then new ++ replace_from old new (String.length old - 1) rest
          else String c (replace_from old new O rest)
      end
  end.

(** The code points of a UTF-8 string: a byte [10xxxxxx] continues the
    character before it. *)
Definition is_continuation (c : ascii) : bool :=
  (128 <=? nat_of_ascii c)%nat && (nat_of_ascii c <? 192)%nat.

Fixpoint utf8_chars (s : string) : list string :=
  match s with
  | EmptyString => []
  | String c rest =>
      let chars := utf8_chars rest in
      match rest with
      | String c' _ =>
          if is_continuation c'
          then match chars with
               | h :: t => String c h :: t
               | [] => [String c ""]
               end
          else String c "" :: chars
      | EmptyString => [String c ""]
      end
  end.

(** With an empty [old], [str.replace] puts [new] before every character and
    at the end. *)
Definition str_replace (old new s : string) : string :=
  match old with
  | EmptyString => new ++ String.concat "" (map (fun c => c ++ new) (utf8_chars s))
  | _ => replace_from old new O s
  end.

(** [str.split('\n')] and [sep.join(parts)], used to say what replacing the
    line feeds does. *)
Fixpoint split_lines (s : string) : list string :=
  match s with
  | EmptyString => [EmptyString]
  | String c rest =>
      if Ascii.eqb c nl_char then EmptyString :: split_lines rest
      else match split_lines rest with
           | l :: ls => String c l :: ls
           | [] => [String c EmptyString]
           end
  end.

Definition join (sep : string) (parts : list string) : string :=
  String.concat sep parts.

(** ** Python values *)

Inductive value : Type :=
| VNone
| VBool (b : bool)
| VInt (z : Z)
| VFloat (f : float)
| VStr (s : string)
| VList (items : list value)
| VDict (entries : list (string * value)).

(** Exceptions, up to what the handlers of the program distinguish. *)
Inductive exn : Type :=
| ImportError        (* ImportError and ModuleNotFoundError *)
| RuntimeFailure     (* any other subclass of Exception: TypeError,
                        AttributeError, ValueError, OverflowError, KeyError,
                        OSError, CalledProcessError, ... *)
| KeyboardInterrupt. (* raised outside the Exception hierarchy *)

Inductive result (A : Type) : Type :=
| Returns (a : A)
| Raises (e : exn).
Arguments Returns {A} a.
Arguments Raises {A} e.

Definition bind {A B : Type} (r : result A) (k : A -> result B) : result B :=
  match r with
  | Returns a => k a
  | Raises e => Raises e
  end.

Notation "x <- e ;; k" := (bind e (fun x => k))
  (at level 61, e at next level, right associativity).
Notation "' pat <- e ;; k" := (bind e (fun x => match x with pat => k end))
  (at level 61, pat pattern, e at next level, right associativity).

(** A comprehension [[f(e) for e in l]]: the first failure ends it. *)
Fixpoint comprehension {A B : Type} (f : A -> result B) (l : list A) : result (list B) :=
  match l with
  | [] => Returns []
  | a :: rest =>
      b <- f a ;;
      bs <- comprehension f rest ;;
      Returns (b :: bs)
  end.

(** ** Numbers *)

Inductive number : Type :=
| NInt (z : Z)
| NFloat (f : float).

(** [bool] is a subclass of [int]. *)
Definition as_number (v : value) : option number :=
  match v with
  | VInt z => Some (NInt z)
  | VBool b => Some (NInt (Z.b2z b))
  | VFloat f => Some (NFloat f)
  | _ => None
  end.

(** [m * 2^e] rounded to the nearest binary64, ties to even. *)
Definition round_to_float (m e : Z) : float :=
  SF2Prim (binary_normalize prec emax m e false).

(** [float(z)], as the mixed operators convert their [int] operand:
    OverflowError when [z] is beyond the range of a double. *)
Definition float_of_int (z : Z) : result float :=
  let f := round_to_float z 0 in
  if is_infinity f then Raises RuntimeFailure else Returns f.

Definition float_op (op : float -> float -> float) (a b : number) : result float :=
  match a, b with
  | NInt x, NInt y => fx <- float_of_int x ;; fy <- float_of_int y ;; Returns (op fx fy)
  | NInt x, NFloat g => fx <- float_of_int x ;; Returns (op fx g)
  | NFloat f, NInt y => fy <- float_of_int y ;; Returns (op f fy)
  | NFloat f, NFloat g => Returns (op f g)
  end.

(** [a + b]: exact on two ints, binary64 otherwise; [str] and [list]
    operands concatenate. *)
Definition py_add (a b : value) : result value :=
  match a, b with
  | VStr s, VStr t => Returns (VStr (s ++ t))
  | VList l, VList m => Returns (VList (l ++ m)%list)
  | _, _ =>
      match as_number a, as_number b with
      | Some (NInt x), Some (NInt y) => Returns (VInt (x + y))
      | Some x, Some y => f <- float_op PrimFloat.add x y ;; Returns (VFloat f)
      | _, _ => Raises RuntimeFailure
      end
  end.

(** [a - b]: numbers only (TypeError otherwise). *)
Definition py_sub (a b : value) : result value :=
  match as_number a, as_number b with
  | Some (NInt x), Some (NInt y) => Returns (VInt (x - y))
  | Some x, Some y => f <- float_op PrimFloat.sub x y ;; Returns (VFloat f)
  | _, _ => Raises RuntimeFailure
  end.

(** [a / 2]: true division always yields a float.  On an int it is the
    correctly rounded quotient, OverflowError when that is too large. *)
Definition py_halve (a : value) : result value :=
  match as_number a with
  | Some (NInt x) =>
      let f := round_to_float x (-1) in
      if is_infinity f then Raises RuntimeFailure else Returns (VFloat f)
  | Some (NFloat f) => Returns (VFloat (f / 2)%float)
  | None => Raises RuntimeFailure
  end.

(** The sign of [z - f], for a float [f] that is not a NaN: CPython compares
    an int with a float exactly, without converting the int. *)
Definition compare_int_float (z : Z) (f : float) : comparison :=
  match Prim2SF f with
  | S754_nan => Eq
  | S754_infinity s => if s then Gt else Lt
  | S754_zero _ => z ?= 0
  | S754_finite s m e =>
      let v := if s then Zneg m else Zpos m in
      if 0 <=? e then z ?= v * 2 ^ e else z * 2 ^ (- e) ?= v
  end.

Definition num_lt (a b : number) : bool :=
  match a, b with
  | NInt x, NInt y => x <? y
  | NFloat f, NFloat g => (f <? g)%float
  | NInt x, NFloat g =>
      negb (is_nan g) && match compare_int_float x g with Lt => true | _ => false end
  | NFloat f, NInt y =>
      negb (is_nan f) && match compare_int_float y f with Gt => true | _ => false end
  end.

(** [a < b].  Two numbers and two strings are compared as CPython does
    (UTF-8 preserves the order of code points).  Operands of any other kind
    raise here: CPython raises TypeError for them too, at this comparison or,
    for two lists it manages to compare, at the subtraction of the bounds
    that follows (line 82), and nothing observable happens in between. *)
Definition py_lt (a b : value) : result bool :=
  match a, b with
  | VStr s, VStr t => Returns (s <? t)%string
  | _, _ =>
      match as_number a, as_number b with
      | Some x, Some y => Returns (num_lt x y)
      | _, _ => Raises RuntimeFailure
      end
  end.

(** [min(l)] keeps the first of the least items: an item replaces the current
    one only when it is strictly less.  ValueError on an empty list. *)
Fixpoint min_from (cur : value) (rest : list value) : result value :=
  match rest with
  | [] => Returns cur
  | item :: r =>
      less <- py_lt item cur ;;
      min_from (if less then item else cur) r
  end.

Definition py_min (l : list value) : result value :=
  match l with
  | [] => Raises RuntimeFailure
  | first :: rest => min_from first rest
  end.

(** [max(l)], with [item > cur], which on numbers and strings is [cur < item]. *)
Fixpoint max_from (cur : value) (rest : list value) : result value :=
  match rest with
  | [] => Returns cur
  | item :: r =>
      greater <- py_lt cur item ;;
      max_from (if greater then item else cur) r
  end.

Definition py_max (l : list value) : result value :=
  match l with
  | [] => Raises RuntimeFailure
  | first :: rest => max_from first rest
  end.

(** *** The values numbers are compared by

    The exact value of a number: a multiple [v * 2^e] of a power of two, an
    infinity, or none (a NaN).  [<] on numbers, ints and floats mixed, is
    the order of these values. *)
Inductive exact : Type :=
| Finite (v e : Z)
| MinusInfinity
| PlusInfinity
| NotANumber.

Definition exact_of_spec (x : spec_float) : exact :=
  match x with
  | S754_nan => NotANumber
  | S754_infinity s => if s then MinusInfinity else PlusInfinity
  | S754_zero _ => Finite 0 0
  | S754_finite s m e => Finite (if s then Zneg m else Zpos m) e
  end.

Definition exact_of_float (f : float) : exact := exact_of_spec (Prim2SF f).

Definition exact_of (a : number) : exact :=
  match a with
  | NInt z => Finite z 0
  | NFloat f => exact_of_float f
  end.

(** [v1 * 2^e1 < v2 * 2^e2], computed on integers. *)
Definition finite_lt (v1 e1 v2 e2 : Z) : bool :=
  let k := Z.min e1 e2 in
  v1 * 2 ^ (e1 - k) <? v2 * 2 ^ (e2 - k).

Definition exact_lt (a b : exact) : bool :=
  match a, b with
  | NotANumber, _ | _, NotANumber => false
  | MinusInfinity, MinusInfinity => false
  | MinusInfinity, _ => true
  | _, MinusInfinity => false
  | PlusInfinity, _ => false
  | _, PlusInfinity => true
  | Finite v1 e1, Finite v2 e2 => finite_lt v1 e1 v2 e2
  end.

(** ** Formatting numbers *)

(** The decimal digits of an int, of any length.  This is [str(z)] as long
    as CPython prints [z]: from version 3.11 on it raises ValueError for an
    int of more than 4300 digits (the default limit).  [json.load] refuses
    such an int too, so the ints of a document print; the sums and
    differences the synthesizer makes of them can be one digit longer, and
    the statements that print such an int ask it to be [printable]. *)
Definition int_str (z : Z) : string := NilZero.string_of_int (Z.to_int z).

Definition digit_limit : Z := 10 ^ 4300.

(** Whether CPython, with its default limit, formats the value: an int must
    have at most 4300 digits. *)
Fixpoint printable (v : value) : bool :=
  match v with
  | VInt z => Z.abs z <? digit_limit
  | VList l => forallb printable l
  | VDict d => forallb (fun kv => printable (snd kv)) d
  | _ => true
  end.

(** [repr] of a finite positive double [m * 2^e]: the shortest decimal that
    reads back as the same double, the one nearest to it when several do.
    All values are fractions over one denominator [d]; [cmp_scaled c q n d]
    compares [c * 10^q] with [n / d]. *)
Definition cmp_scaled (c q n d : Z) : comparison :=
  if 0 <=? q then (c * 10 ^ q * d) ?= n else (c * d) ?= (n * 10 ^ (- q)).

Fixpoint log10_up (fuel : nat) (p n d : Z) : Z :=
  match fuel with
  | O => p
  | S k =>
      match cmp_scaled 1 (p + 1) n d with
      | Gt => p
      | _ => log10_up k (p + 1) n d
      end
  end.

(** The largest [p] with [10^p <= n / d], from an estimate below it. *)
Definition floor_log10 (n d : Z) : Z :=
  log10_up 8 ((Z.log2 n - Z.log2 d) * 30103 / 100000 - 2) n d.

Definition floor_scaled (q n d : Z) : Z :=
  if 0 <=? q then n / (d * 10 ^ q) else (n * 10 ^ (- q)) / d.

(** Whether [c * 10^q] lies between the neighbours' midpoints [ln / d] and
    [hn / d], which belong to the interval when the mantissa is even. *)
Definition inside (incl : bool) (c q ln hn d : Z) : bool :=
  match cmp_scaled c q ln d with
  | Gt => true
  | Eq => incl
  | Lt => false
  end &&
  match cmp_scaled c q hn d with
  | Lt => true
  | Eq => incl
  | Gt => false
  end.

(** Tries 1, 2, ... up to 17 significant digits ([q] goes down from 16). *)
Fixpoint shortest_from (fuel : nat) (q : Z) (incl : bool) (vn ln hn d : Z) : Z * Z :=
  let c := floor_scaled q vn d in
  let lo_ok := inside incl c q ln hn d in
  let hi_ok := inside incl (c + 1) q ln hn d in
  let pick :=
    if lo_ok && hi_ok then
      match cmp_scaled (2 * c + 1) q (2 * vn) d with
      | Gt => Some c
      | Lt => Some (c + 1)
      | Eq => Some (if Z.even c then c else c + 1)
      end
    else if lo_ok then Some c
    else if hi_ok then Some (c + 1)
    else None in
  match pick, fuel with
  | Some r, _ => (r, q)
  | None, O => (c, q)
  | None, S k => shortest_from k (q - 1) incl vn ln hn d
  end.

Definition shortest_decimal (m : positive) (e : Z) : Z * Z :=
  let s := e - 2 in
  let lo := if (Zpos m =? 2 ^ 52) && (-1074 <? e) then 1 else 2 in
  let u := if 0 <=? s then Z.shiftl 1 s else 1 in
  let d := if 0 <=? s then 1 else Z.shiftl 1 (- s) in
  let q0 := floor_log10 (4 * Zpos m * u) d - 16 in
  let un := if 0 <=? q0 then u else u * 10 ^ (- q0) in
  let d' := if 0 <=? q0 then d * 10 ^ q0 else d in
  let '(c, j) := shortest_from 17 16 (Z.even (Zpos m))
                   (4 * Zpos m * un) ((4 * Zpos m - lo) * un)
                   ((4 * Zpos m + 2) * un) d' in
  (c, j + q0).

Fixpoint strip_zeros (fuel : nat) (c q : Z) : Z * Z :=
  match fuel with
  | O => (c, q)
  | S k =>
      if (c mod 10 =? 0) && negb (c =? 0)
      then strip_zeros k (c / 10) (q + 1)
      else (c, q)
  end.

Fixpoint zeros (n : nat) : string :=
  match n with
  | O => ""
  | S k => String "0" (zeros k)
  end.

Definition str_take (n : nat) (s : string) : string := substring 0 n s.
Definition str_drop (n : nat) (s : string) : string :=
  substring n (String.length s - n) s.

(** The exponent of the scientific form: a sign and at least two digits. *)
Definition exp_str (x : Z) : string :=
  (if x <? 0 then "-" else "+") ++
  (if Z.abs x <? 10 then "0" else "") ++ int_str (Z.abs x).

(** [repr] switches to the scientific form when the decimal point would
    stand more than 16 digits to the right or 4 or more zeros to the left. *)
Definition float_digits (m : positive) (e : Z) : string :=
  let '(c0, q0) := shortest_decimal m e in
  let '(c, q) := strip_zeros 400 c0 q0 in
  let ds := int_str c in
  let n := Z.of_nat (String.length ds) in
  let decpt := n + q in
  if (decpt <=? -4) || (16 <? decpt) then
    str_take 1 ds ++ (if n =? 1 then "" else "." ++ str_drop 1 ds)
      ++ "e" ++ exp_str (decpt - 1)
  else if decpt <=? 0 then "0." ++ zeros (Z.to_nat (- decpt)) ++ ds
  else if decpt <? n then
    str_take (Z.to_nat decpt) ds ++ "." ++ str_drop (Z.to_nat decpt) ds
  else ds ++ zeros (Z.to_nat (decpt - n)) ++ ".0".

(** [repr(f)], which is also [str(f)] and what an f-string field prints. *)
Definition float_repr (f : float) : string :=
  match Prim2SF f with
  | S754_nan => "nan"
  | S754_infinity s => if s then "-inf" else "inf"
  | S754_zero s => if s then "-0.0" else "0.0"
  | S754_finite s m e => (if s then "-" else "") ++ float_digits m e
  end.

(** ** Operations on JSON values *)

Fixpoint lookup (k : string) (d : list (string * value)) : option value :=
  match d with
  | [] => None
  | (k', v) :: rest => if (k' =? k)%string then Some v else lookup k rest
  end.

(** [obj.get(k, default)]: only a dict has the method (AttributeError). *)
Definition py_get (obj : value) (k : string) (default : value) : result value :=
  match obj with
  | VDict d =>
      Returns (match lookup k d with
               | Some v => v
               | None => default
               end)
  | _ => Raises RuntimeFailure
  end.

Definition truthy (v : value) : bool :=
  match v with
  | VNone => false
  | VBool b => b
  | VInt z => negb (z =? 0)
  | VFloat f => negb (is_zero f)
  | VStr s => negb (s =? "")%string
  | VList l => match l with [] => false | _ => true end
  | VDict d => match d with [] => false | _ => true end
  end.

(** [t == 'literal']: a value that is not a str equals no str. *)
Definition is_str (t : value) (lit : string) : bool :=
  match t with
  | VStr s => (s =? lit)%string
  | _ => false
  end.

(** Iterating: a list yields its items, a str its characters, a dict its
    keys; anything else is not iterable (TypeError). *)
Definition py_iter (v : value) : result (list value) :=
  match v with
  | VList l => Returns l
  | VStr s => Returns (map VStr (utf8_chars s))
  | VDict d => Returns (map (fun kv => VStr (fst kv)) d)
  | _ => Raises RuntimeFailure
  end.

Definition py_len (v : value) : result Z :=
  match v with
  | VList l => Returns (Z.of_nat (List.length l))
  | VStr s => Returns (Z.of_nat (List.length (utf8_chars s)))
  | VDict d => Returns (Z.of_nat (List.length d))
  | _ => Raises RuntimeFailure
  end.

Definition index_list {A : Type} (l : list A) (i : Z) : result A :=
  let n := Z.of_nat (List.length l) in
  let j := if i <? 0 then n + i else i in
  if (0 <=? j) && (j <? n) then
    match nth_error l (Z.to_nat j) with
    | Some a => Returns a
    | None => Raises RuntimeFailure
    end
  else Raises RuntimeFailure.

(** [v[i]] for an int [i]: negative indices count from the end (IndexError
    out of range); a JSON dict has no int key (KeyError). *)
Definition py_item (v : value) (i : Z) : result value :=
  match v with
  | VList l => index_list l i
  | VStr s => index_list (map VStr (utf8_chars s)) i
  | _ => Raises RuntimeFailure
  end.

(** [a, b = v]: [v] must be iterable (TypeError) and yield exactly two items
    (ValueError). *)
Definition py_unpack2 (v : value) : result (value * value) :=
  items <- py_iter v ;;
  match items with
  | [a; b] => Returns (a, b)
  | _ => Raises RuntimeFailure
  end.

(** [svgs.append(s)]. *)
Definition append_svg (svgs : list string) (s : string) : list string :=
  (svgs ++ [s])%list.

(** A [for] loop that threads the list [svgs] it appends to. *)
Fixpoint for_each (body : list string -> value -> result (list string))
    (elements : list value) (svgs : list string) : result (list string) :=
  match elements with
  | [] => Returns svgs
  | e :: rest =>
      svgs' <- body svgs e ;;
      for_each body rest svgs'
  end.

(** ** The SVG synthesizer *)

Section Synthesizer.

(** [str] of a list or a dict, which an f-string field prints when a colour
    or a stroke width is one.  It needs [repr] of every str inside, hence
    the Unicode tables, and is left to the runtime. *)
Variable container_str : value -> string.

(** What an f-string field [{v}] and ['{}'.format(v)] print. *)
Definition py_format (v : value) : string :=
  match v with
  | VNone => "None"
  | VBool b => if b then "True" else "False"
  | VInt z => int_str z
  | VFloat f => float_repr f
  | VStr s => s
  | VList _ | VDict _ => container_str v
  end.

Definition svg_ns : string := "http://www.w3.org/2000/svg".

Definition white_background : string :=
  "<rect" ++ attr "fill" "white" ++ attr "width" "100%" ++ attr "height" "100%" ++ "/>".

(** Line 71: what an empty scene becomes. *)
Definition blank_svg : string :=
  "<svg" ++ attr "xmlns" svg_ns ++ attr "width" "400" ++ attr "height" "300" ++ ">"
    ++ white_background ++ "</svg>".

Definition arrow_marker : string :=
  "<defs><marker" ++ attr "id" "arr" ++ attr "markerWidth" "10"
    ++ attr "markerHeight" "10" ++ attr "refX" "9" ++ attr "refY" "3"
    ++ attr "orient" "auto" ++ "><path" ++ attr "d" "M0,0 L0,6 L9,3 z"
    ++ attr "fill" "#000" ++ "/></marker></defs>".

(** Lines 110-114: the root element around the primitives. *)
Definition svg_document (width height body : string) : string :=
  "<svg" ++ attr "xmlns" svg_ns ++ attr "width" width ++ attr "height" height ++ ">" ++ nl
    ++ arrow_marker ++ nl
    ++ white_background ++ nl
    ++ body ++ nl
    ++ "</svg>".

Definition pad : value := VInt 40.

Definition get_x (e : value) : result value := py_get e "x" (VInt 0).
Definition get_y (e : value) : result value := py_get e "y" (VInt 0).
Definition get_width (e : value) : result value := py_get e "width" (VInt 100).
Definition get_height (e : value) : result value := py_get e "height" (VInt 50).

(** Lines 74-82: the bounds over all elements and the canvas size.  Returns
    [(min_x, min_y, width, height)]. *)
Definition calculate_bounds (elements : list value)
  : result (value * value * value * value) :=
  xs <- comprehension get_x elements ;;
  ys <- comprehension get_y elements ;;
  ws <- comprehension (fun e => x <- get_x e ;; w <- get_width e ;; py_add x w) elements ;;
  hs <- comprehension (fun e => y <- get_y e ;; h <- get_height e ;; py_add y h) elements ;;
  min_x <- py_min xs ;;
  min_y <- py_min ys ;;
  max_x <- py_max ws ;;
  max_y <- py_max hs ;;
  width <- (d <- py_sub max_x min_x ;; py_add d (VInt (2 * 40))) ;;
  height <- (d <- py_sub max_y min_y ;; py_add d (VInt (2 * 40))) ;;
  Returns (min_x, min_y, width, height).

(** Line 88: the position of an element on the canvas. *)
Definition local_position (min_x min_y e : value) : result (value * value) :=
  x <- (a <- get_x e ;; b <- py_sub a min_x ;; py_add b pad) ;;
  y <- (a <- get_y e ;; b <- py_sub a min_y ;; py_add b pad) ;;
  Returns (x, y).

Definition default_points : value :=
  VList [VList [VInt 0; VInt 0]; VList [VInt 100; VInt 0]].

Definition marker_end : string := "marker-end=" ++ dq ++ "url(#arr)" ++ dq.

(** Lines 95-108: the primitive of one visible element at [(x, y)], appended
    to [svgs]; an element of another kind appends nothing. *)
Definition render_primitive (x y e : value) (svgs : list string) : result (list string) :=
  w <- get_width e ;;
  h <- get_height e ;;
  stroke <- py_get e "strokeColor" (VStr "#000") ;;
  fill <- py_get e "backgroundColor" (VStr "transparent") ;;
  sw <- py_get e "strokeWidth" (VInt 1) ;;
  t <- py_get e "type" (VStr "") ;;
  if is_str t "rectangle" then
    Returns (append_svg svgs (
      "<rect" ++ attr "x" (py_format x) ++ attr "y" (py_format y)
        ++ attr "width" (py_format w) ++ attr "height" (py_format h)
        ++ attr "fill" (py_format fill) ++ attr "stroke" (py_format stroke)
        ++ attr "stroke-width" (py_format sw) ++ attr "rx" "4" ++ "/>"))
  else if is_str t "ellipse" then
    cx <- (half <- py_halve w ;; py_add x half) ;;
    cy <- (half <- py_halve h ;; py_add y half) ;;
    rx <- py_halve w ;;
    ry <- py_halve h ;;
    Returns (append_svg svgs (
      "<ellipse" ++ attr "cx" (py_format cx) ++ attr "cy" (py_format cy)
        ++ attr "rx" (py_format rx) ++ attr "ry" (py_format ry)
        ++ attr "fill" (py_format fill) ++ attr "stroke" (py_format stroke)
        ++ attr "stroke-width" (py_format sw) ++ "/>"))
  else if is_str t "arrow" || is_str t "line" then
    pts <- py_get e "points" default_points ;;
    n <- py_len pts ;;
    if 2 <=? n then
      first <- py_item pts 0 ;;
      '(x1, y1) <- py_unpack2 first ;;
      last <- py_item pts (-1) ;;
      '(x2, y2) <- py_unpack2 last ;;
      let marker := if is_str t "arrow" then marker_end else "" in
      ax <- py_add x x1 ;;
      ay <- py_add y y1 ;;
      bx <- py_add x x2 ;;
      by_ <- py_add y y2 ;;
      Returns (append_svg svgs (
        "<line" ++ attr "x1" (py_format ax) ++ attr "y1" (py_format ay)
          ++ attr "x2" (py_format bx) ++ attr "y2" (py_format by_)
          ++ attr "stroke" (py_format stroke) ++ attr "stroke-width" (py_format sw)
          ++ " " ++ marker ++ "/>"))
    else Returns svgs
  else if is_str t "text" then
    raw <- py_get e "text" (VStr "") ;;
    match raw with
    | VStr s =>
        let txt :=
          str_replace nl
            ("</tspan><tspan" ++ attr "x" (py_format x) ++ attr "dy" "1.2em" ++ ">") s in
        fs <- py_get e "fontSize" (VInt 16) ;;
        baseline <- py_add y fs ;;
        Returns (append_svg svgs (
          "<text" ++ attr "x" (py_format x) ++ attr "y" (py_format baseline)
            ++ attr "font-size" (py_format fs) ++ attr "fill" (py_format stroke)
            ++ attr "font-family" "sans-serif" ++ "><tspan>" ++ txt
            ++ "</tspan></text>"))
    | _ => Raises RuntimeFailure (* no [replace] method: AttributeError *)
    end
  else Returns svgs.

(** Lines 85-108: the body of the loop. *)
Definition render_element (min_x min_y : value) (svgs : list string) (e : value)
  : result (list string) :=
  deleted <- py_get e "isDeleted" VNone ;;
  if truthy deleted then Returns svgs
  else
    '(x, y) <- local_position min_x min_y e ;;
    render_primitive x y e svgs.

(** Lines 67-114. *)
Definition excalidraw_to_svg (data : value) : result string :=
  elements <- py_get data "elements" (VList []) ;;
  if negb (truthy elements) then Returns blank_svg
  else
    els <- py_iter elements ;;
    '(min_x, min_y, width, height) <- calculate_bounds els ;;
    svgs <- for_each (render_element min_x min_y) els [] ;;
    Returns (svg_document (py_format width) (py_format height) (String.concat "" svgs)).

End Synthesizer.

(** ** The conversion orchestrator *)

(** What a run leaves behind: the files it wrote, and in [trace] (oldest
    first) the lines it printed and the collaborators it called.  The calls
    are a ghost record: the program keeps none. *)
Inductive stream : Type := Stdout | Stderr.

Inductive stage : Type :=
| PrimaryRenderer   (* playwright and the diagram library *)
| Synthesizer       (* excalidraw_to_svg *)
| RasterLibrary     (* cairosvg *)
| VectorEditor.     (* the inkscape command *)

Inductive event : Type :=
| Printed (to : stream) (line : string)
| Attempt (s : stage).

Record world : Type := {
  files : string -> option string;
  trace : list event
}.

Definition write (path content : string) (w : world) : world :=
  {| files := fun p => if (p =? path)%string then Some content else files w p;
     trace := trace w |}.

Definition log (ev : event) (w : world) : world :=
  {| files := files w; trace := (trace w ++ [ev])%list |}.

(** *** The primary renderer *)

Definition comma : ascii := ascii_of_nat 44.

(** [s.split(',', 1)] when it has two parts: what stands before the first
    comma and what stands after it.  [None] when there is no comma, and the
    list has one part. *)
Fixpoint split_once (s : string) : option (string * string) :=
  match s with
  | EmptyString => None
  | String c rest =>
      if Ascii.eqb c comma then Some (EmptyString, rest)
      else match split_once rest with
           | Some (before, after) => Some (String c before, after)
           | None => None
           end
  end.

(** What the browser session of lines 51-57 ends with. *)
Inductive page_outcome : Type :=
| PageResult (data_url : value)   (* what [window.result] holds after three seconds *)
| PageRaises (e : exn).

(** The collaborators of the primary renderer. *)
Record browser : Type := {
  (** [from playwright.sync_api import sync_playwright] succeeds *)
  playwright_installed : bool;
  (** the session on the page built around [json.dumps(data)] *)
  window_result : value -> page_outcome;
  (** whether [open(path, 'wb')] succeeds (OSError otherwise) *)
  opens : string -> bool;
  (** [base64.b64decode(encoded)]: [None] for binascii.Error and ValueError *)
  b64decode : string -> option string
}.

(** Lines 26-64.  The file is opened, hence emptied, before the payload is
    decoded; [width] is not used. *)
Definition excalidraw_to_png_playwright (br : browser) (data : value)
    (output_path : string) (width : Z) (w : world) : result bool * world :=
  if negb (playwright_installed br) then (Raises ImportError, w)
  else
    match window_result br data with
    | PageRaises e => (Raises e, w)
    | PageResult data_url =>
        if truthy data_url then
          match data_url with
          | VStr s =>
              match split_once s with
              | Some (_, encoded) =>
                  if opens br output_path then
                    let w := write output_path "" w in
                    match b64decode br encoded with
                    | Some png => (Returns true, write output_path png w)
                    | None => (Raises RuntimeFailure, w)
                    end
                  else (Raises RuntimeFailure, w)
              | None => (Raises RuntimeFailure, w) (* one part to unpack: ValueError *)
              end
          | _ => (Raises RuntimeFailure, w) (* no [split] method: AttributeError *)
          end
        else (Returns false, w)
    end.

(** *** The fallback chain *)

Inductive raster_outcome : Type :=
| PngWritten (png : string)
| RasterRaises (e : exn).

(** The collaborators, as the program meets them. *)
Record runtime : Type := {
  (** [os.path.exists(path)] *)
  path_exists : string -> bool;
  (** [open(path)] and [json.load] *)
  load_json : string -> result value;
  (** the collaborators of [excalidraw_to_png_playwright] *)
  renderer : browser;
  (** [str(e)] of the exception caught at line 145, for a document and an
      output path *)
  caught_text : value -> string -> string;
  (** whether [sys.stdout] can encode a line; [print] raises
      UnicodeEncodeError when it cannot.  [sys.stderr] replaces what it
      cannot encode (backslashreplace) and does not raise. *)
  stdout_encodes : string -> bool;
  (** [import cairosvg; cairosvg.svg2png(...)]: [RasterRaises ImportError]
      when the library is not installed *)
  cairosvg : string -> string -> Z -> raster_outcome;
  (** whether [open(path, 'w')] succeeds (OSError otherwise) *)
  writable : string -> bool;
  (** whether the encoding of a text file can encode a text; [f.write]
      raises UnicodeEncodeError when it cannot, and the file opened for it
      stays empty *)
  file_encodes : string -> bool;
  (** [subprocess.run(['inkscape', svg_path, ...], check=True)] *)
  inkscape : string -> string -> Z -> raster_outcome;
  (** [str] of a list or dict *)
  container_repr : value -> string
}.

(** [isinstance(e, Exception)], what [except Exception] catches. *)
Definition is_Exception (e : exn) : bool :=
  match e with
  | KeyboardInterrupt => false
  | _ => true
  end.

Definition is_ImportError (e : exn) : bool :=
  match e with
  | ImportError => true
  | _ => false
  end.

Definition check_mark : string :=
  String (ascii_of_nat 226) (String (ascii_of_nat 156) (String (ascii_of_nat 147) "")).
Definition right_arrow : string :=
  String (ascii_of_nat 226) (String (ascii_of_nat 134) (String (ascii_of_nat 146) "")).

(** Lines 117-132. *)
Definition svg_to_png (rt : runtime) (svg output : string) (width : Z) (w : world)
  : result bool * world :=
  let w := log (Attempt RasterLibrary) w in
  match cairosvg rt svg output width with
  | PngWritten png => (Returns true, write output png w)
  | RasterRaises e =>
      if is_ImportError e then
        let svg_path := str_replace ".png" ".svg" output in
        if writable rt svg_path then
          if file_encodes rt svg then
            let w := write svg_path svg w in
            let w := log (Attempt VectorEditor) w in
            match inkscape rt svg_path output width with
            | PngWritten png => (Returns true, write output png w)
            | RasterRaises _ =>
                (Returns false, log (Printed Stderr ("Saved SVG: " ++ svg_path)) w)
            end
          else (Raises RuntimeFailure, write svg_path "" w)
        else (Raises RuntimeFailure, w)
      else (Raises e, w)
  end.

Definition success_line (input_path output_path : string) : string :=
  check_mark ++ " " ++ input_path ++ " " ++ right_arrow ++ " " ++ output_path.

(** Lines 148-154: the SVG fallback of [convert].  The success line is
    printed outside any [try]. *)
Definition svg_fallback (rt : runtime) (data : value) (input_path output_path : string)
    (width : Z) (w : world) : result bool * world :=
  let w := log (Attempt Synthesizer) w in
  match excalidraw_to_svg (container_repr rt) data with
  | Raises e => (Raises e, w)
  | Returns svg =>
      match svg_to_png rt svg output_path width w with
      | (Returns true, w) =>
          let line := success_line input_path output_path ++ " (SVG fallback)" in
          if stdout_encodes rt line then (Returns true, log (Printed Stdout line) w)
          else (Raises RuntimeFailure, w)
      | other => other
      end
  end.

(** Lines 135-154.  The success line of the primary renderer is printed
    inside the [try]: when it cannot be printed, the handler takes over as
    for a failure of the renderer. *)
Definition convert (rt : runtime) (input_path output_path : string) (width : Z) (w : world)
  : result bool * world :=
  match load_json rt input_path with
  | Raises e => (Raises e, w)
  | Returns data =>
      let w := log (Attempt PrimaryRenderer) w in
      let failed :=
        Printed Stderr ("Playwright failed: " ++ caught_text rt data output_path) in
      match excalidraw_to_png_playwright (renderer rt) data output_path width w with
      | (Returns true, w) =>
          if stdout_encodes rt (success_line input_path output_path) then
            (Returns true, log (Printed Stdout (success_line input_path output_path)) w)
          else svg_fallback rt data input_path output_path width (log failed w)
      | (Returns false, w) => svg_fallback rt data input_path output_path width w
      | (Raises e, w) =>
          if is_Exception e then
            svg_fallback rt data input_path output_path width (log failed w)
          else (Raises e, w)
      end
  end.

(** How the process ends: [sys.exit(code)], or an exception nobody caught. *)
Inductive termination : Type :=
| Exit (code : Z)
| Uncaught (e : exn).

(** Lines 157-172, after the arguments are parsed.  [--install-deps] runs the
    package installer first; the runtime [rt] stands for the tools as they
    are once it has run. *)
Definition main (rt : runtime) (input output : string) (width : Z) (w : world)
  : termination * world :=
  if negb (path_exists rt input) then
    (Exit 1, log (Printed Stderr ("Error: " ++ input ++ " not found")) w)
  else
    match convert rt input output width w with
    | (Returns ok, w) => (Exit (if ok then 0 else 1), w)
    | (Raises e, w) => (Uncaught e, w)
    end.

(** ** Well-formed markup

    The part of XML 1.0 that SVG text without a prolog, comments, CDATA
    sections, processing instructions and references is made of: elements
    [39], start and end tags [40-42], empty-element tags [44], attributes
    [41] with their values [10], character data [14] and white space [3].
    The text is UTF-8: attribute values and character data must be the
    encoding of characters XML allows [2], and names are made of ASCII
    characters, as all the names of the synthesizer are. *)

Fixpoint all_chars (p : ascii -> bool) (s : string) : bool :=
  match s with
  | EmptyString => true
  | String c rest => p c && all_chars p rest
  end.

Definition code (c : ascii) : nat := nat_of_ascii c.

Definition is_letter (c : ascii) : bool :=
  ((65 <=? code c) && (code c <=? 90) || (97 <=? code c) && (code c <=? 122))%nat.

Definition is_digit (c : ascii) : bool :=
  ((48 <=? code c) && (code c <=? 57))%nat.

(** NameStartChar [4] and NameChar [4a], the ASCII ones. *)
Definition is_name_start (c : ascii) : bool :=
  is_letter c || Ascii.eqb c "_" || Ascii.eqb c ":".

Definition is_name_char (c : ascii) : bool :=
  is_name_start c || is_digit c || Ascii.eqb c "-" || Ascii.eqb c ".".

Definition is_name (s : string) : bool :=
  match s with
  | EmptyString => false
  | String c rest => is_name_start c && all_chars is_name_char rest
  end.

(** Char [2], byte by byte: no control character but tab, line feed and
    carriage return. *)
Definition is_xml_char (c : ascii) : bool :=
  ((32 <=? code c) || (code c =? 9) || (code c =? 10) || (code c =? 13))%nat.

(** Char [2], for the characters of more than one byte: the text must be
    well-formed UTF-8 (no stray continuation byte, no overlong form, nothing
    beyond U+10FFFF) of characters other than the surrogates U+D800 to
    U+DFFF and the two non-characters U+FFFE and U+FFFF.  The scanner
    remembers what the bytes read so far ask of the next one. *)
Inductive utf8_state : Type :=
| Boundary      (* between two characters *)
| Tail1         (* one continuation byte to come *)
| Tail2         (* two *)
| Tail3         (* three *)
| AfterE0       (* E0: the next byte is A0 to BF, or the form is overlong *)
| AfterED       (* ED: the next byte is 80 to 9F, or it is a surrogate *)
| AfterEF       (* EF: EF BF BE and EF BF BF are U+FFFE and U+FFFF *)
| AfterEFBF
| AfterF0       (* F0: the next byte is 90 to BF, or the form is overlong *)
| AfterF4.      (* F4: the next byte is 80 to 8F, or it is beyond U+10FFFF *)

Definition between (lo hi : nat) (c : ascii) : bool :=
  ((lo <=? code c) && (code c <=? hi))%nat.

Definition utf8_step (q : utf8_state) (c : ascii) : option utf8_state :=
  match q with
  | Boundary =>
      if (code c <? 128)%nat then if is_xml_char c then Some Boundary else None
      else if between 194 223 c then Some Tail1
      else if between 224 224 c then Some AfterE0
      else if between 225 236 c || between 238 238 c then Some Tail2
      else if between 237 237 c then Some AfterED
      else if between 239 239 c then Some AfterEF
      else if between 240 240 c then Some AfterF0
      else if between 241 243 c then Some Tail3
      else if between 244 244 c then Some AfterF4
      else None
  | Tail1 => if between 128 191 c then Some Boundary else None
  | Tail2 => if between 128 191 c then Some Tail1 else None
  | Tail3 => if between 128 191 c then Some Tail2 else None
  | AfterE0 => if between 160 191 c then Some Tail1 else None
  | AfterED => if between 128 159 c then Some Tail1 else None
  | AfterEF =>
      if between 128 190 c then Some Tail1
      else if between 191 191 c then Some AfterEFBF
      else None
  | AfterEFBF => if between 128 189 c then Some Boundary else None
  | AfterF0 => if between 144 191 c then Some Tail2 else None
  | AfterF4 => if between 128 143 c then Some Tail2 else None
  end.

Fixpoint utf8_run (q : utf8_state) (s : string) : option utf8_state :=
  match s with
  | EmptyString => Some q
  | String c rest =>
      match utf8_step q c with
      | Some q' => utf8_run q' rest
      | None => None
      end
  end.

Definition xml_chars (s : string) : bool :=
  match utf8_run Boundary s with
  | Some Boundary => true
  | _ => false
  end.

Definition is_space_char (c : ascii) : bool :=
  ((code c =? 32) || (code c =? 9) || (code c =? 10) || (code c =? 13))%nat.

Definition is_space (s : string) : bool := all_chars is_space_char s.

(** AttValue [10], between double quotes: no [<], no [&], no double quote. *)
Definition is_att_value_char (c : ascii) : bool :=
  is_xml_char c && negb (Ascii.eqb c "<") && negb (Ascii.eqb c "&")
    && negb (code c =? 34)%nat.

Definition is_att_value (s : string) : bool :=
  all_chars is_att_value_char s && xml_chars s.

(** CharData [14]: no [<], no [&], and not the sequence that ends a CDATA
    section. *)
Definition is_text_char (c : ascii) : bool :=
  is_xml_char c && negb (Ascii.eqb c "<") && negb (Ascii.eqb c "&").

Fixpoint has_cdata_end (s : string) : bool :=
  match s with
  | EmptyString => false
  | String _ rest => prefix "]]>" s || has_cdata_end rest
  end.

Definition is_char_data (s : string) : bool :=
  all_chars is_text_char s && negb (has_cdata_end s) && xml_chars s.

(** [(S Attribute)*], with the names met: an attribute name appears once in
    a tag. *)
Inductive attributes : list string -> string -> Prop :=
| attributes_none : attributes [] ""
| attributes_more (sp n v rest : string) (names : list string) :
    is_space sp = true -> sp <> "" ->
    is_name n = true ->
    is_att_value v = true ->
    ~ In n names ->
    attributes names rest ->
    attributes (n :: names) (sp ++ n ++ "=" ++ dq ++ v ++ dq ++ rest).

(** [(element CharData?)*]: what stands between a start tag's first
    character data and its end tag. *)
Inductive nodes : string -> Prop :=
| nodes_end : nodes ""
| nodes_empty_element (n a sp text rest : string) (names : list string) :
    is_name n = true -> attributes names a -> is_space sp = true ->
    is_char_data text = true -> nodes rest ->
    nodes ("<" ++ n ++ a ++ sp ++ "/>" ++ text ++ rest)
| nodes_element (n a sp sp' text0 inner text rest : string) (names : list string) :
    is_name n = true -> attributes names a -> is_space sp = true ->
    is_char_data text0 = true -> nodes inner -> is_space sp' = true ->
    is_char_data text = true -> nodes rest ->
    nodes ("<" ++ n ++ a ++ sp ++ ">" ++ text0 ++ inner
             ++ "</" ++ n ++ sp' ++ ">" ++ text ++ rest).

(** element [39]. *)
Inductive element : string -> Prop :=
| element_empty (n a sp : string) (names : list string) :
    is_name n = true -> attributes names a -> is_space sp = true ->
    element ("<" ++ n ++ a ++ sp ++ "/>")
| element_tagged (n a sp sp' text0 inner : string) (names : list string) :
    is_name n = true -> attributes names a -> is_space sp = true ->
    is_char_data text0 = true -> nodes inner -> is_space sp' = true ->
    element ("<" ++ n ++ a ++ sp ++ ">" ++ text0 ++ inner ++ "</" ++ n ++ sp' ++ ">").

(** document [1] without a prolog: one root element, then white space. *)
Definition well_formed (s : string) : Prop :=
  exists root sp, element root /\ is_space sp = true /\ s = root ++ sp.

(** A necessary condition that can be computed: a [<] opens a tag, so a name
    or a [/] follows it. *)
Fixpoint tags_open_properly (s : string) : bool :=
  match s with
  | EmptyString => true
  | String c rest =>
      (if Ascii.eqb c "<" then
         match rest with
         | String d _ => is_name_start d || Ascii.eqb d "/"
         | EmptyString => false
         end
       else true) && tags_open_properly rest
  end.

(** ** Reading a document

    What the statements below say about documents: the value of a field, the
    markup spelled out character by character, the geometry of an element
    whose coordinates are ints and the bounding box of a list of
    geometries, and, for coordinates of any kind, the bounding box, the
    canvas and the place of an element in Python's order and arithmetic. *)

(** The value [e.get(k, default)] returns on a dict. *)
Definition field (d : list (string * value)) (k : string) (default : value) : value :=
  match lookup k d with
  | Some v => v
  | None => default
  end.

(** The markup the statements expect, spelled out character by
    character as lines 96-114 write it. *)
Definition rect_with (x y w h fill stroke sw : string) : string :=
  "<rect x=" ++ dq ++ x ++ dq ++ " y=" ++ dq ++ y ++ dq
    ++ " width=" ++ dq ++ w ++ dq ++ " height=" ++ dq ++ h ++ dq
    ++ " fill=" ++ dq ++ fill ++ dq ++ " stroke=" ++ dq ++ stroke ++ dq
    ++ " stroke-width=" ++ dq ++ sw ++ dq ++ " rx=" ++ dq ++ "4" ++ dq ++ "/>".

(** A rectangle with the default colours and stroke width. *)
Definition rect_markup (x y w h : string) : string :=
  rect_with x y w h "transparent" "#000" "1".

Definition ellipse_markup (cx cy rx ry fill stroke sw : string) : string :=
  "<ellipse cx=" ++ dq ++ cx ++ dq ++ " cy=" ++ dq ++ cy ++ dq
    ++ " rx=" ++ dq ++ rx ++ dq ++ " ry=" ++ dq ++ ry ++ dq
    ++ " fill=" ++ dq ++ fill ++ dq ++ " stroke=" ++ dq ++ stroke ++ dq
    ++ " stroke-width=" ++ dq ++ sw ++ dq ++ "/>".

(** The reference to the arrowhead an arrow carries. *)
Definition arrowhead : string := "marker-end=" ++ dq ++ "url(#arr)" ++ dq.

Definition line_markup (x1 y1 x2 y2 stroke sw marker : string) : string :=
  "<line x1=" ++ dq ++ x1 ++ dq ++ " y1=" ++ dq ++ y1 ++ dq
    ++ " x2=" ++ dq ++ x2 ++ dq ++ " y2=" ++ dq ++ y2 ++ dq
    ++ " stroke=" ++ dq ++ stroke ++ dq ++ " stroke-width=" ++ dq ++ sw ++ dq
    ++ " " ++ marker ++ "/>".

Definition text_markup (x y size fill tspans : string) : string :=
  "<text x=" ++ dq ++ x ++ dq ++ " y=" ++ dq ++ y ++ dq
    ++ " font-size=" ++ dq ++ size ++ dq ++ " fill=" ++ dq ++ fill ++ dq
    ++ " font-family=" ++ dq ++ "sans-serif" ++ dq ++ ">" ++ tspans ++ "</text>".

(** The document around the primitives: the root element with its size,
    the arrowhead marker, the white background, then the primitives. *)
Definition document_markup (width height body : string) : string :=
  "<svg xmlns=" ++ dq ++ "http://www.w3.org/2000/svg" ++ dq
    ++ " width=" ++ dq ++ width ++ dq ++ " height=" ++ dq ++ height ++ dq ++ ">" ++ nl
    ++ "<defs><marker id=" ++ dq ++ "arr" ++ dq ++ " markerWidth=" ++ dq ++ "10" ++ dq
    ++ " markerHeight=" ++ dq ++ "10" ++ dq ++ " refX=" ++ dq ++ "9" ++ dq
    ++ " refY=" ++ dq ++ "3" ++ dq ++ " orient=" ++ dq ++ "auto" ++ dq
    ++ "><path d=" ++ dq ++ "M0,0 L0,6 L9,3 z" ++ dq ++ " fill=" ++ dq ++ "#000" ++ dq
    ++ "/></marker></defs>" ++ nl
    ++ "<rect fill=" ++ dq ++ "white" ++ dq ++ " width=" ++ dq ++ "100%" ++ dq
    ++ " height=" ++ dq ++ "100%" ++ dq ++ "/>" ++ nl
    ++ body ++ nl
    ++ "</svg>".

(** Whether the loop skips the element. *)
Definition is_deleted (e : value) : bool :=
  match py_get e "isDeleted" VNone with
  | Returns flag => truthy flag
  | Raises _ => false
  end.

(** Position and size of an element, with the defaults of the code. *)
Record geometry : Type := {
  gx : Z;
  gy : Z;
  gwidth : Z;
  gheight : Z
}.

Definition has_geometry (e : value) (g : geometry) : Prop :=
  get_x e = Returns (VInt (gx g)) /\
  get_y e = Returns (VInt (gy g)) /\
  get_width e = Returns (VInt (gwidth g)) /\
  get_height e = Returns (VInt (gheight g)).

Definition least (first : Z) (rest : list Z) : Z := fold_left Z.min rest first.
Definition greatest (first : Z) (rest : list Z) : Z := fold_left Z.max rest first.

(** The bounding box of a non-empty list of geometries. *)
Definition min_x_of (g : geometry) (gs : list geometry) : Z := least (gx g) (map gx gs).
Definition min_y_of (g : geometry) (gs : list geometry) : Z := least (gy g) (map gy gs).
Definition max_x_of (g : geometry) (gs : list geometry) : Z :=
  greatest (gx g + gwidth g) (map (fun g => gx g + gwidth g) gs).
Definition max_y_of (g : geometry) (gs : list geometry) : Z :=
  greatest (gy g + gheight g) (map (fun g => gy g + gheight g) gs).

Definition canvas_width (g : geometry) (gs : list geometry) : Z :=
  max_x_of g gs - min_x_of g gs + 80.
Definition canvas_height (g : geometry) (gs : list geometry) : Z :=
  max_y_of g gs - min_y_of g gs + 80.

(** The fields the bounds are computed from, with the defaults of the
    code. *)
Definition x_of (d : list (string * value)) : value := field d "x" (VInt 0).
Definition y_of (d : list (string * value)) : value := field d "y" (VInt 0).
Definition width_of (d : list (string * value)) : value := field d "width" (VInt 100).
Definition height_of (d : list (string * value)) : value := field d "height" (VInt 50).

(** [m] is a least item of [vs] in Python's order: it is one of the items
    and none of them is less.  Likewise a greatest item. *)
Definition least_of (m : value) (vs : list value) : Prop :=
  In m vs /\ forall v : value, In v vs -> py_lt v m = Returns false.

Definition greatest_of (m : value) (vs : list value) : Prop :=
  In m vs /\ forall v : value, In v vs -> py_lt m v = Returns false.

(** The far edges of an object, [x + width] and [y + height], in Python's
    arithmetic. *)
Definition right_of (d : list (string * value)) (r : value) : Prop :=
  py_add (x_of d) (width_of d) = Returns r.

Definition bottom_of (d : list (string * value)) (b : value) : Prop :=
  py_add (y_of d) (height_of d) = Returns b.

(** The bounding box of a list of objects: a least [x], a least [y], a
    greatest [x + width] and a greatest [y + height]. *)
Definition bounding_box (ds : list (list (string * value)))
    (min_x min_y max_x max_y : value) : Prop :=
  exists rights bottoms : list value,
    Forall2 right_of ds rights /\ Forall2 bottom_of ds bottoms /\
    least_of min_x (map x_of ds) /\ least_of min_y (map y_of ds) /\
    greatest_of max_x rights /\ greatest_of max_y bottoms.

(** [size = hi - lo + 80]: the extent and the pad of 40 on both sides. *)
Definition padded (lo hi size : value) : Prop :=
  exists extent : value,
    py_sub hi lo = Returns extent /\ py_add extent (VInt 80) = Returns size.

(** [p = v - lo + 40]: a coordinate on the canvas. *)
Definition placed (lo v p : value) : Prop :=
  exists offset : value,
    py_sub v lo = Returns offset /\ py_add offset (VInt 40) = Returns p.

(** What an object of the document adds to the picture when the least
    corner of the bounds is [(min_x, min_y)]: nothing when it is marked
    deleted, else what its kind draws at its place on the canvas. *)
Definition drawn (container_str : value -> string) (min_x min_y : value)
    (d : list (string * value)) (part : list string) : Prop :=
  if is_deleted (VDict d) then part = []
  else
    exists x y : value,
      placed min_x (x_of d) x /\ placed min_y (y_of d) y /\
      render_primitive container_str x y (VDict d) [] = Returns part.

(** An object lies inside a box: its [x] and [y] are not less than the
    least corner, and its far edges are not greater than the greatest. *)
Definition within_box (d : list (string * value)) (min_x min_y max_x max_y : value) : Prop :=
  py_lt (x_of d) min_x = Returns false /\ py_lt (y_of d) min_y = Returns false /\
  exists r b : value,
    right_of d r /\ bottom_of d b /\
    py_lt max_x r = Returns false /\ py_lt max_y b = Returns false.

(** The document of a list of objects with a given box: the canvas is the
    box and the pad, and the body is what the objects add, one after the
    other. *)
Definition laid_out (container_str : value -> string) (ds : list (list (string * value)))
    (min_x min_y max_x max_y : value) (svg : string) : Prop :=
  exists (width height : value) (parts : list (list string)),
    bounding_box ds min_x min_y max_x max_y /\
    padded min_x max_x width /\ padded min_y max_y height /\
    Forall2 (drawn container_str min_x min_y) ds parts /\
    svg = document_markup (py_format container_str width)
            (py_format container_str height) (String.concat "" (List.concat parts)).

(** One [tspan] per line of a text: the first bare, the others placed under
    it at the same [x]. *)
Definition first_tspan (line : string) : string :=
  "<tspan>" ++ line ++ "</tspan>".
Definition next_tspan (x line : string) : string :=
  "<tspan x=" ++ dq ++ x ++ dq ++ " dy=" ++ dq ++ "1.2em" ++ dq ++ ">" ++ line ++ "</tspan>".
Definition stacked_lines (x : string) (lines : list string) : string :=
  match lines with
  | [] => first_tspan ""
  | l :: ls => first_tspan l ++ String.concat "" (map (next_tspan x) ls)
  end.

(** Whether the strings a visible element puts into the markup can stand
    where they are put: colours and stroke width as attribute values, the
    text as character data.  Only the fields the element's kind prints are
    looked at. *)
Definition markup_safe_element (container_str : value -> string) (e : value) : bool :=
  match e with
  | VDict d =>
      let safe k default := is_att_value (py_format container_str (field d k default)) in
      let stroke := safe "strokeColor" (VStr "#000") in
      let fill := safe "backgroundColor" (VStr "transparent") in
      let sw := safe "strokeWidth" (VInt 1) in
      let t := field d "type" (VStr "") in
      if is_deleted e then true
      else if is_str t "rectangle" || is_str t "ellipse" then fill && stroke && sw
      else if is_str t "arrow" || is_str t "line" then stroke && sw
      else if is_str t "text" then
        stroke && match field d "text" (VStr "") with
                  | VStr s => is_char_data s
                  | _ => true
                  end
      else true
  | _ => true
  end.

Definition markup_safe (container_str : value -> string) (data : value) : bool :=
  match data with
  | VDict d =>
      match field d "elements" (VList []) with
      | VList els => forallb (markup_safe_element container_str) els
      | _ => true
      end
  | _ => true
  end.

(** Attributes written one after the other, alone and before a tail. *)
Definition attr_string (l : list (string * string)) : string :=
  fold_right (fun p acc => attr (fst p) (snd p) ++ acc) "" l.

Definition attrs_then (l : list (string * string)) (tail : string) : string :=
  fold_right (fun p acc => attr (fst p) (snd p) ++ acc) tail l.

Fixpoint names_distinct (l : list string) : bool :=
  match l with
  | [] => true
  | n :: rest => negb (existsb (String.eqb n) rest) && names_distinct rest
  end.

Definition good_names (l : list (string * string)) : bool :=
  names_distinct (map fst l) && forallb (fun p => is_name (fst p)) l.

(** content [43]: character data, then elements each followed by character
    data. *)
Definition content (s : string) : Prop :=
  exists text ns, is_char_data text = true /\ nodes ns /\ s = text ++ ns.

Definition safe_values (l : list (string * string)) : Prop :=
  Forall (fun p => is_att_value (snd p) = true) l.

(** What the bounds computation has established about an element once it
    has returned: the sums it made of the element's fields exist. *)
Definition measured (e : value) : Prop :=
  (exists r, (x <- get_x e ;; w <- get_width e ;; py_add x w) = Returns r) /\
  (exists r, (y <- get_y e ;; h <- get_height e ;; py_add y h) = Returns r).

Definition numeric (v : value) : bool :=
  match as_number v with
  | Some _ => true
  | None => false
  end.

(** The characters a formatted number is made of. *)
Definition is_number_char (c : ascii) : bool :=
  is_digit c || existsb (Ascii.eqb c) (list_ascii_of_string "-+.einfaTruFls").

(** ** Example scenes and machines *)

Definition a_rectangle (x y w h : Z) : value :=
  VDict [("type", VStr "rectangle"); ("x", VInt x); ("y", VInt y);
         ("width", VInt w); ("height", VInt h)].

Definition a_deleted_rectangle (x y w h : Z) : value :=
  VDict [("type", VStr "rectangle"); ("x", VInt x); ("y", VInt y);
         ("width", VInt w); ("height", VInt h); ("isDeleted", VBool true)].

Definition a_float_rectangle (x y : float) (w h : Z) : value :=
  VDict [("type", VStr "rectangle"); ("x", VFloat x); ("y", VFloat y);
         ("width", VInt w); ("height", VInt h)].

Definition int_pair (a b : Z) : value := VList [VInt a; VInt b].

Definition scene (els : list value) : value := VDict [("elements", VList els)].

Definition one_rectangle : value := scene [a_rectangle 10 10 50 20].

(** A second rectangle away from the least corner, with int and with float
    coordinates. *)
Definition two_rectangles : value :=
  scene [a_rectangle 10 10 50 20; a_rectangle 100 40 30 30].

Definition two_float_rectangles : value :=
  scene [a_float_rectangle 10.5 20.25 50 20; a_float_rectangle 100.75 50.5 30 30].

Definition an_arrow : value :=
  VDict [("type", VStr "arrow"); ("x", VInt 0); ("y", VInt 0);
         ("points", VList [int_pair 0 0; int_pair 10 0; int_pair 20 0])].

Definition an_ellipse (x y w h : Z) : value :=
  VDict [("type", VStr "ellipse"); ("x", VInt x); ("y", VInt y);
         ("width", VInt w); ("height", VInt h)].

(** An object of a kind at a position, with more entries. *)
Definition an_object (kind : string) (x y : value) (more : list (string * value)) : value :=
  VDict (("type", VStr kind) :: ("x", x) :: ("y", y) :: more).

Definition float_pair (a b : float) : value := VList [VFloat a; VFloat b].

Definition a_text (s : string) : value :=
  VDict [("type", VStr "text"); ("x", VInt 0); ("y", VInt 0); ("text", VStr s)].

Definition no_container_str (v : value) : string := "".

(** No attempt of a stage is recorded in a trace. *)
Definition no_attempt (t : list event) : Prop :=
  forall s : stage, ~ In (Attempt s) t.

Definition empty_world : world := {| files := fun _ => None; trace := [] |}.

(** A browser that is not installed. *)
Definition no_browser : browser :=
  {| playwright_installed := false;
     window_result := fun _ => PageResult VNone;
     opens := fun _ => true;
     b64decode := fun _ => None |}.

(** A machine whose browser exports the data URL of a PNG. *)
Definition exporting_browser : browser :=
  {| playwright_installed := true;
     window_result := fun _ => PageResult (VStr "data:image/png;base64,iVBORw0KGgo=");
     opens := fun _ => true;
     b64decode := fun s => if (s =? "iVBORw0KGgo=")%string then Some "PNG" else None |}.

(** The same with a payload that does not decode. *)
Definition garbled_browser : browser :=
  {| playwright_installed := true;
     window_result := fun _ => PageResult (VStr "data:image/png;base64,iVBORw0KGgo=");
     opens := fun _ => true;
     b64decode := fun _ => None |}.

(** A machine on which the browser renderer is not installed, the raster
    library is but fails on the markup, and there is no vector editor. *)
Definition failing_library : runtime :=
  {| path_exists := fun _ => true;
     load_json := fun _ => Returns one_rectangle;
     renderer := no_browser;
     caught_text := fun _ _ => "No module named 'playwright'";
     stdout_encodes := fun _ => true;
     cairosvg := fun _ _ _ => RasterRaises RuntimeFailure;
     writable := fun _ => true;
     file_encodes := fun _ => true;
     inkscape := fun _ _ _ => RasterRaises RuntimeFailure;
     container_repr := no_container_str |}.

(** The same machine without the raster library. *)
Definition nothing_installed : runtime :=
  {| path_exists := fun _ => true;
     load_json := fun _ => Returns one_rectangle;
     renderer := no_browser;
     caught_text := fun _ _ => "No module named 'playwright'";
     stdout_encodes := fun _ => true;
     cairosvg := fun _ _ _ => RasterRaises ImportError;
     writable := fun _ => true;
     file_encodes := fun _ => true;
     inkscape := fun _ _ _ => RasterRaises RuntimeFailure;
     container_repr := no_container_str |}.

(** A machine on which the browser renderer works. *)
Definition browser_works : runtime :=
  {| path_exists := fun _ => true;
     load_json := fun _ => Returns one_rectangle;
     renderer := exporting_browser;
     caught_text := fun _ _ => "";
     stdout_encodes := fun _ => true;
     cairosvg := fun _ _ _ => RasterRaises ImportError;
     writable := fun _ => true;
     file_encodes := fun _ => true;
     inkscape := fun _ _ _ => RasterRaises RuntimeFailure;
     container_repr := no_container_str |}.

(** The same machine with an output stream that is ASCII only, and the
    raster library installed. *)
Definition ascii_terminal : runtime :=
  {| path_exists := fun _ => true;
     load_json := fun _ => Returns one_rectangle;
     renderer := exporting_browser;
     caught_text := fun _ _ => "'ascii' codec can't encode character";
     stdout_encodes := fun _ => false;
     cairosvg := fun _ _ _ => PngWritten "PNG2";
     writable := fun _ => true;
     file_encodes := fun _ => true;
     inkscape := fun _ _ _ => RasterRaises RuntimeFailure;
     container_repr := no_container_str |}.

(** A machine without the raster library whose text files cannot encode the
    markup. *)
Definition narrow_files : runtime :=
  {| path_exists := fun _ => true;
     load_json := fun _ => Returns one_rectangle;
     renderer := no_browser;
     caught_text := fun _ _ => "No module named 'playwright'";
     stdout_encodes := fun _ => true;
     cairosvg := fun _ _ _ => RasterRaises ImportError;
     writable := fun _ => true;
     file_encodes := fun _ => false;
     inkscape := fun _ _ _ => RasterRaises RuntimeFailure;
     container_repr := no_container_str |}.

(** A machine on which no input file exists. *)
Definition no_input_file : runtime :=
  {| path_exists := fun _ => false;
     load_json := fun _ => Raises RuntimeFailure;
     renderer := no_browser;
     caught_text := fun _ _ => "";
     stdout_encodes := fun _ => true;
     cairosvg := fun _ _ _ => RasterRaises ImportError;
     writable := fun _ => true;
     file_encodes := fun _ => true;
     inkscape := fun _ _ _ => RasterRaises RuntimeFailure;
     container_repr := no_container_str |}.

(** ** Moving a scene *)

(** Two objects with the same entries under every key but [x] and [y]. *)
Definition same_but_position (e e' : value) : Prop :=
  exists d d' : list (string * value),
    e = VDict d /\ e' = VDict d' /\
    forall k : string, k <> "x" -> k <> "y" -> lookup k d' = lookup k d.

(** A geometry moved by [(dx, dy)]. *)
Definition shift (dx dy : Z) (g : geometry) : geometry :=
  {| gx := gx g + dx; gy := gy g + dy; gwidth := gwidth g; gheight := gheight g |}.

(** [e'] is [e] moved by [(dx, dy)]. *)
Definition moved (dx dy : Z) (e e' : value) : Prop :=
  same_but_position e e' /\
  exists x y : Z,
    get_x e = Returns (VInt x) /\ get_x e' = Returns (VInt (x + dx)) /\
    get_y e = Returns (VInt y) /\ get_y e' = Returns (VInt (y + dy)).

(** ** Plain elements *)

(** An int of the size a JSON number safely has: up to [2^53]. *)
Definition small (z : Z) : bool := Z.abs z <=? 2 ^ 53.

(** The entry under [k] is a small int or is absent. *)
Definition int_field (d : list (string * value)) (k : string) : bool :=
  match lookup k d with
  | None => true
  | Some (VInt z) => small z
  | Some _ => false
  end.

Definition is_int_pair (v : value) : bool :=
  match v with
  | VList [VInt a; VInt b] => small a && small b
  | _ => false
  end.

(** Points a line can be drawn through: none given, fewer than two, or a
    list whose first and last items are pairs of ints. *)
Definition plain_points (d : list (string * value)) : bool :=
  match lookup "points" d with
  | None => true
  | Some (VList pts) =>
      match pts with
      | [] | [_] => true
      | first :: _ => is_int_pair first && is_int_pair (List.last pts VNone)
      end
  | Some _ => false
  end.

Definition plain_text (d : list (string * value)) : bool :=
  match lookup "text" d with
  | None | Some (VStr _) => true
  | Some _ => false
  end && int_field d "fontSize".

(** An object with small int (or absent) position and size that is no ellipse,
    with plain points when it is a line or an arrow and a string for its text
    when it is a text. *)
Definition plain_element (e : value) : bool :=
  match e with
  | VDict d =>
      let t := field d "type" (VStr "") in
      int_field d "x" && int_field d "y" && int_field d "width" && int_field d "height"
      && negb (is_str t "ellipse")
      && (if is_str t "arrow" || is_str t "line" then plain_points d else true)
      && (if is_str t "text" then plain_text d else true)
  | _ => false
  end.

(** ** The fields the synthesizer reads *)

Definition read_keys : list string :=
  ["isDeleted"; "x"; "y"; "width"; "height"; "strokeColor"; "backgroundColor";
   "strokeWidth"; "type"; "points"; "text"; "fontSize"].

(** Two objects with the same entries under the keys the synthesizer reads. *)
Definition same_fields (e e' : value) : Prop :=
  exists d d' : list (string * value),
    e = VDict d /\ e' = VDict d' /\
    forall k : string, In k read_keys -> lookup k d' = lookup k d.

(** ** Reading a trace *)

(** The stages a trace records, oldest first. *)
Fixpoint attempts (t : list event) : list stage :=
  match t with
  | [] => []
  | Attempt s :: rest => s :: attempts rest
  | Printed _ _ :: rest => attempts rest
  end.

(** The lines a trace records on a stream, oldest first. *)
Fixpoint printed_on (to : stream) (t : list event) : list string :=
  match t with
  | [] => []
  | Printed Stdout line :: rest =>
      match to with
      | Stdout => line :: printed_on to rest
      | Stderr => printed_on to rest
      end
  | Printed Stderr line :: rest =>
      match to with
      | Stdout => printed_on to rest
      | Stderr => line :: printed_on to rest
      end
  | Attempt _ :: rest => printed_on to rest
  end.

(** The stages of the chain, in the order of the code. *)
Definition chain : list stage :=
  [PrimaryRenderer; Synthesizer; RasterLibrary; VectorEditor].

(** The primary renderer gives way to the SVG fallback: it returned
    [False], it raised an exception of class [Exception], or it returned
    [True] and the success line could not be printed. *)
Definition gives_way (rt : runtime) (input output : string) (r : result bool) : bool :=
  match r with
  | Returns true => negb (stdout_encodes rt (success_line input output))
  | Returns false => true
  | Raises e => is_Exception e
  end.

(** The world the fallback starts in: the handler of line 145 has reported
    unless the renderer returned [False]. *)
Definition fallback_start (rt : runtime) (data : value) (output : string)
    (r : result bool) (w : world) : world :=
  match r with
  | Returns false => w
  | _ => log (Printed Stderr ("Playwright failed: " ++ caught_text rt data output)) w
  end.

(** The raster library or, without it, the vector editor made a PNG of the
    SVG. *)
Definition rasterized (rt : runtime) (svg output : string) (width : Z) (png : string)
  : Prop :=
  cairosvg rt svg output width = PngWritten png
  \/ (cairosvg rt svg output width = RasterRaises ImportError
      /\ writable rt (str_replace ".png" ".svg" output) = true
      /\ file_encodes rt svg = true
      /\ inkscape rt (str_replace ".png" ".svg" output) output width = PngWritten png).

(** The status the process ends with.  An uncaught exception of class
    [Exception] ends it with status 1, after the traceback; what an
    uncaught KeyboardInterrupt ends it with depends on the version of the
    interpreter. *)
Definition exit_status (t : termination) : option Z :=
  match t with
  | Exit code => Some code
  | Uncaught e => if is_Exception e then Some 1 else None
  end.

(** [old in s]. *)
Definition occurs (old s : string) : Prop := exists a b : string, s = a ++ old ++ b.

(** [old in s], computed. *)
Fixpoint contains (old s : string) : bool :=
  prefix old s
  || match s with
     | EmptyString => false
     | String _ rest => contains old rest
     end.

(** ** More example worlds and scenes *)

(** A world with a picture at [out.png]. *)
Definition old_picture : world :=
  {| files := fun p => if (p =? "out.png")%string then Some "OLD" else None; trace := [] |}.

Definition a_line_without_points : value := VDict [("type", VStr "line")].

Definition a_long_arrow (p q : Z) : list (string * value) :=
  [("type", VStr "arrow"); ("x", VInt 5); ("y", VInt 7);
   ("points", VList [int_pair 0 0; int_pair p q])].

(** A text element whose text is a number. *)
Definition a_number_as_text : value :=
  VDict [("type", VStr "text"); ("x", VInt 0); ("y", VInt 0); ("text", VInt 5)].

(** The rectangle of the first example as an editor saves it, with an
    identifier and a version. *)
Definition a_saved_rectangle : value :=
  VDict [("id", VStr "r1"); ("version", VInt 7); ("type", VStr "rectangle");
         ("x", VInt 10); ("y", VInt 10); ("width", VInt 50); ("height", VInt 20)].

(** * Properties *)

(** ** The result monad and the comprehensions *)

Lemma bind_returns {A B : Type} (r : result A) (k : A -> result B) (b : B) :
  bind r k = Returns b -> exists a, r = Returns a /\ k a = Returns b.
Proof.
  destruct r as [a|e]; simpl; intros H.
  - exists a. split; [reflexivity | exact H].
  - discriminate H.
Qed.

Lemma Returns_inj {A : Type} (a b : A) : Returns a = Returns b -> a = b.
Proof. now intros [= ->]. Qed.

Lemma Raises_inj {A : Type} (e e' : exn) : @Raises A e = Raises e' -> e = e'.
Proof. now intros [= ->]. Qed.

Lemma comprehension_Forall2 {A B C : Type} (f : A -> result B) (h : C -> B)
    (l : list A) (cs : list C) :
  Forall2 (fun a c => f a = Returns (h c)) l cs ->
  comprehension f l = Returns (map h cs).
Proof.
  induction 1 as [|a c l cs Hac _ IH]; simpl.
  - reflexivity.
  - rewrite Hac, IH. reflexivity.
Qed.

Lemma comprehension_returns {A B : Type} (f : A -> result B) (l : list A) (bs : list B) :
  comprehension f l = Returns bs -> Forall2 (fun a b => f a = Returns b) l bs.
Proof.
  revert bs. induction l as [|a l IH]; simpl; intros bs H.
  - injection H as <-. constructor.
  - apply bind_returns in H as (b & Hb & H).
    apply bind_returns in H as (bs' & Hbs & H).
    injection H as <-. constructor; auto.
Qed.

(** ** Least and greatest of a list of ints *)

Lemma least_le_first (a : Z) (l : list Z) : least a l <= a.
Proof.
  unfold least. revert a. induction l as [|b l IH]; simpl; intros a.
  - lia.
  - specialize (IH (Z.min a b)). lia.
Qed.

Lemma least_le_each (a : Z) (l : list Z) (b : Z) : In b l -> least a l <= b.
Proof.
  unfold least. revert a. induction l as [|c l IH]; simpl; intros a H.
  - contradiction.
  - destruct H as [-> | H].
    + pose proof (least_le_first (Z.min a b) l) as L. unfold least in L. lia.
    + apply IH, H.
Qed.

Lemma least_attained (a : Z) (l : list Z) : least a l = a \/ In (least a l) l.
Proof.
  unfold least. revert a. induction l as [|b l IH]; simpl; intros a.
  - left. reflexivity.
  - destruct (IH (Z.min a b)) as [E | I].
    + rewrite E. destruct (Z.min_spec a b) as [[_ ->] | [_ ->]]; auto.
    + right. right. exact I.
Qed.

Lemma greatest_ge_first (a : Z) (l : list Z) : a <= greatest a l.
Proof.
  unfold greatest. revert a. induction l as [|b l IH]; simpl; intros a.
  - lia.
  - specialize (IH (Z.max a b)). lia.
Qed.

Lemma greatest_ge_each (a : Z) (l : list Z) (b : Z) : In b l -> b <= greatest a l.
Proof.
  unfold greatest. revert a. induction l as [|c l IH]; simpl; intros a H.
  - contradiction.
  - destruct H as [-> | H].
    + pose proof (greatest_ge_first (Z.max a b) l) as L. unfold greatest in L. lia.
    + apply IH, H.
Qed.

Lemma greatest_attained (a : Z) (l : list Z) : greatest a l = a \/ In (greatest a l) l.
Proof.
  unfold greatest. revert a. induction l as [|b l IH]; simpl; intros a.
  - left. reflexivity.
  - destruct (IH (Z.max a b)) as [E | I].
    + rewrite E. destruct (Z.max_spec a b) as [[_ ->] | [_ ->]]; auto.
    + right. right. exact I.
Qed.

(** [min] and [max] on ints are the least and the greatest. *)
Lemma min_from_ints (a : Z) (l : list Z) :
  min_from (VInt a) (map VInt l) = Returns (VInt (least a l)).
Proof.
  unfold least. revert a. induction l as [|b l IH]; simpl; intros a.
  - reflexivity.
  - destruct (Z.ltb_spec b a).
    + rewrite IH. do 3 f_equal. lia.
    + rewrite IH. do 3 f_equal. lia.
Qed.

Lemma max_from_ints (a : Z) (l : list Z) :
  max_from (VInt a) (map VInt l) = Returns (VInt (greatest a l)).
Proof.
  unfold greatest. revert a. induction l as [|b l IH]; simpl; intros a.
  - reflexivity.
  - destruct (Z.ltb_spec a b).
    + rewrite IH. do 3 f_equal. lia.
    + rewrite IH. do 3 f_equal. lia.
Qed.

(** ** The bounds of a document with int coordinates *)

Lemma geometry_sums (e : value) (g : geometry) :
  has_geometry e g ->
  (x <- get_x e ;; w <- get_width e ;; py_add x w) = Returns (VInt (gx g + gwidth g)) /\
  (y <- get_y e ;; h <- get_height e ;; py_add y h) = Returns (VInt (gy g + gheight g)).
Proof.
  intros (Hx & Hy & Hw & Hh). rewrite Hx, Hy, Hw, Hh. split; reflexivity.
Qed.

Lemma bounds_of_ints (e : value) (els : list value) (g : geometry) (gs : list geometry) :
  Forall2 has_geometry (e :: els) (g :: gs) ->
  calculate_bounds (e :: els)
  = Returns (VInt (min_x_of g gs), VInt (min_y_of g gs),
             VInt (canvas_width g gs), VInt (canvas_height g gs)).
Proof.
  intros H. unfold calculate_bounds.
  rewrite (comprehension_Forall2 get_x (fun g => VInt (gx g)) (e :: els) (g :: gs)).
  2:{ eapply Forall2_impl; [|exact H]. intros a c Hg. apply Hg. }
  rewrite (comprehension_Forall2 get_y (fun g => VInt (gy g)) (e :: els) (g :: gs)).
  2:{ eapply Forall2_impl; [|exact H]. intros a c Hg. apply Hg. }
  rewrite (comprehension_Forall2 _ (fun g => VInt (gx g + gwidth g)) (e :: els) (g :: gs)).
  2:{ eapply Forall2_impl; [|exact H]. intros a c Hg. apply (geometry_sums a c Hg). }
  rewrite (comprehension_Forall2 _ (fun g => VInt (gy g + gheight g)) (e :: els) (g :: gs)).
  2:{ eapply Forall2_impl; [|exact H]. intros a c Hg. apply (geometry_sums a c Hg). }
  cbn [bind map py_min py_max].
  rewrite <- (map_map gx VInt), <- (map_map gy VInt).
  rewrite <- (map_map (fun g => gx g + gwidth g) VInt).
  rewrite <- (map_map (fun g => gy g + gheight g) VInt).
  rewrite !min_from_ints, !max_from_ints.
  reflexivity.
Qed.

Lemma local_position_of_ints (min_x min_y : Z) (e : value) (g : geometry) :
  has_geometry e g ->
  local_position (VInt min_x) (VInt min_y) e
  = Returns (VInt (gx g - min_x + 40), VInt (gy g - min_y + 40)).
Proof.
  intros (Hx & Hy & _). unfold local_position. rewrite Hx, Hy. reflexivity.
Qed.

(** Every element, deleted or not, lies inside the bounding box. *)
Lemma bounds_cover (g : geometry) (gs : list geometry) (g' : geometry) :
  In g' (g :: gs) ->
  min_x_of g gs <= gx g' /\ min_y_of g gs <= gy g' /\
  gx g' + gwidth g' <= max_x_of g gs /\ gy g' + gheight g' <= max_y_of g gs.
Proof.
  unfold min_x_of, min_y_of, max_x_of, max_y_of.
  intros [<- | H].
  - repeat split; first [apply least_le_first | apply greatest_ge_first].
  - repeat split.
    + apply least_le_each, (in_map gx), H.
    + apply least_le_each, (in_map gy), H.
    + apply greatest_ge_each, (in_map (fun g => gx g + gwidth g)), H.
    + apply greatest_ge_each, (in_map (fun g => gy g + gheight g)), H.
Qed.

(** ** The order of numbers *)

Lemma finite_lt_at (k v1 e1 v2 e2 : Z) :
  k <= e1 -> k <= e2 ->
  finite_lt v1 e1 v2 e2 = (v1 * 2 ^ (e1 - k) <? v2 * 2 ^ (e2 - k)).
Proof.
  intros K1 K2. unfold finite_lt. set (m := Z.min e1 e2).
  assert (M : k <= m) by (unfold m; lia).
  assert (M1 : m <= e1) by (unfold m; lia).
  assert (M2 : m <= e2) by (unfold m; lia).
  replace (e1 - k) with ((e1 - m) + (m - k)) by lia.
  replace (e2 - k) with ((e2 - m) + (m - k)) by lia.
  rewrite !Z.pow_add_r by lia. rewrite !Z.mul_assoc.
  assert (P : 0 < 2 ^ (m - k)) by (apply Z.pow_pos_nonneg; lia).
  destruct (Z.ltb_spec (v1 * 2 ^ (e1 - m)) (v2 * 2 ^ (e2 - m))) as [L | L];
    symmetry; [apply Z.ltb_lt | apply Z.ltb_ge].
  - apply Z.mul_lt_mono_pos_r; assumption.
  - apply Z.mul_le_mono_nonneg_r; lia.
Qed.

Lemma finite_lt_trans (v1 e1 v2 e2 v3 e3 : Z) :
  finite_lt v1 e1 v2 e2 = true -> finite_lt v2 e2 v3 e3 = true ->
  finite_lt v1 e1 v3 e3 = true.
Proof.
  set (k := Z.min e1 (Z.min e2 e3)).
  rewrite (finite_lt_at k v1 e1 v2 e2), (finite_lt_at k v2 e2 v3 e3),
    (finite_lt_at k v1 e1 v3 e3) by (unfold k; lia).
  rewrite !Z.ltb_lt. apply Z.lt_trans.
Qed.

Lemma finite_lt_irrefl (v e : Z) : finite_lt v e v e = false.
Proof. unfold finite_lt. apply Z.ltb_irrefl. Qed.

Lemma exact_lt_trans (a b c : exact) :
  exact_lt a b = true -> exact_lt b c = true -> exact_lt a c = true.
Proof.
  destruct a, b, c; cbn [exact_lt]; try discriminate; try reflexivity.
  apply finite_lt_trans.
Qed.

Lemma exact_lt_irrefl (a : exact) : exact_lt a a = false.
Proof. destruct a; cbn [exact_lt]; try reflexivity. apply finite_lt_irrefl. Qed.

(** *** Floats are compared by their values *)

Lemma digits2_bounds (m : positive) :
  2 ^ (Z.pos (digits2_pos m) - 1) <= Z.pos m < 2 ^ Z.pos (digits2_pos m).
Proof.
  induction m as [m IH | m IH |]; cbn [digits2_pos].
  - rewrite Pos2Z.inj_succ, Z.pow_succ_r by lia.
    replace (Z.succ (Z.pos (digits2_pos m)) - 1) with (Z.succ (Z.pos (digits2_pos m) - 1)) by lia.
    rewrite Z.pow_succ_r by lia. lia.
  - rewrite Pos2Z.inj_succ, Z.pow_succ_r by lia.
    replace (Z.succ (Z.pos (digits2_pos m)) - 1) with (Z.succ (Z.pos (digits2_pos m) - 1)) by lia.
    rewrite Z.pow_succ_r by lia. lia.
  - cbn. lia.
Qed.

(** A binary64 mantissa has at most 53 digits, and exactly 53 above the
    least exponent. *)
Lemma valid_mantissa (s : bool) (m : positive) (e : Z) :
  valid_binary (S754_finite s m e) = true ->
  Z.pos m < 2 ^ 53 /\ -1074 <= e /\ (-1074 < e -> 2 ^ 52 <= Z.pos m).
Proof.
  cbn [valid_binary]. unfold bounded, canonical_mantissa, fexp, emin.
  change prec with 53. change emax with 1024.
  intros H. apply andb_true_iff in H as (C & _). apply Z.eqb_eq in C.
  pose proof (digits2_bounds m) as (Lo & Hi).
  set (d := Z.pos (digits2_pos m)) in *.
  assert (D : 0 < d) by (unfold d; lia).
  assert (d <= 53 /\ -1074 <= e /\ (-1074 < e -> d = 53)) as (D1 & E & D2) by lia.
  split; [|split; [exact E|]].
  - eapply Z.lt_le_trans; [exact Hi|]. apply Z.pow_le_mono_r; lia.
  - intros G. rewrite (D2 G) in Lo. exact Lo.
Qed.

Lemma higher_exponent_is_greater (m1 m2 : positive) (e1 e2 : Z) (s1 s2 : bool) :
  valid_binary (S754_finite s1 m1 e1) = true ->
  valid_binary (S754_finite s2 m2 e2) = true ->
  e1 < e2 -> Z.pos m1 < Z.pos m2 * 2 ^ (e2 - e1).
Proof.
  intros V1 V2 L.
  destruct (valid_mantissa _ _ _ V1) as (H1 & E1 & _).
  destruct (valid_mantissa _ _ _ V2) as (_ & _ & H2).
  specialize (H2 ltac:(lia)).
  assert (P : 2 ^ 1 <= 2 ^ (e2 - e1)) by (apply Z.pow_le_mono_r; lia).
  change (2 ^ 1) with 2 in P. change (2 ^ 53) with (2 ^ 52 * 2) in H1.
  assert (Q : 0 < 2 ^ 52) by reflexivity.
  nia.
Qed.

Lemma compare_cont_gt (m1 m2 : positive) :
  match CompOpp (Pos.compare_cont Eq m1 m2) with Lt => true | _ => false end
  = (Z.pos m2 <? Z.pos m1).
Proof.
  change (Pos.compare_cont Eq m1 m2) with (Pos.compare m1 m2).
  destruct (Pos.compare_spec m1 m2) as [-> | L | L]; cbn [CompOpp]; symmetry.
  - apply Z.ltb_irrefl.
  - apply Z.ltb_ge. lia.
  - now apply Z.ltb_lt.
Qed.

Lemma finite_lt_signs (m1 m2 : positive) (e1 e2 : Z) :
  finite_lt (Z.neg m1) e1 (Z.pos m2) e2 = true
  /\ finite_lt (Z.pos m1) e1 (Z.neg m2) e2 = false
  /\ finite_lt 0 e1 (Z.pos m2) e2 = true
  /\ finite_lt 0 e1 (Z.neg m2) e2 = false
  /\ finite_lt (Z.pos m1) e1 0 e2 = false
  /\ finite_lt (Z.neg m1) e1 0 e2 = true.
Proof.
  unfold finite_lt. set (k := Z.min e1 e2).
  assert (P1 : 0 < 2 ^ (e1 - k)) by (apply Z.pow_pos_nonneg; unfold k; lia).
  assert (P2 : 0 < 2 ^ (e2 - k)) by (apply Z.pow_pos_nonneg; unfold k; lia).
  pose proof (Pos2Z.pos_is_pos m1). pose proof (Pos2Z.pos_is_pos m2).
  pose proof (Pos2Z.neg_is_neg m1). pose proof (Pos2Z.neg_is_neg m2).
  repeat split; first [apply Z.ltb_lt | apply Z.ltb_ge]; nia.
Qed.

Lemma finite_lt_positive (m1 m2 : positive) (e1 e2 : Z) (s1 s2 : bool) :
  valid_binary (S754_finite s1 m1 e1) = true ->
  valid_binary (S754_finite s2 m2 e2) = true ->
  finite_lt (Z.pos m1) e1 (Z.pos m2) e2
  = match e1 ?= e2 with
    | Lt => true
    | Gt => false
    | Eq => Z.pos m1 <? Z.pos m2
    end.
Proof.
  intros V1 V2. destruct (Z.compare_spec e1 e2) as [-> | L | L].
  - rewrite (finite_lt_at e2) by lia. now rewrite Z.sub_diag, !Z.mul_1_r.
  - rewrite (finite_lt_at e1) by lia. rewrite Z.sub_diag, Z.mul_1_r.
    apply Z.ltb_lt, (higher_exponent_is_greater m1 m2 e1 e2 s1 s2 V1 V2 L).
  - rewrite (finite_lt_at e2) by lia. rewrite Z.sub_diag, Z.mul_1_r.
    apply Z.ltb_ge.
    pose proof (higher_exponent_is_greater m2 m1 e2 e1 s2 s1 V2 V1 L). lia.
Qed.

Lemma finite_lt_opp (v1 e1 v2 e2 : Z) :
  finite_lt (- v1) e1 (- v2) e2 = finite_lt v2 e2 v1 e1.
Proof.
  rewrite (finite_lt_at (Z.min e1 e2) (- v1)), (finite_lt_at (Z.min e1 e2) v2) by lia.
  rewrite !Z.mul_opp_l.
  destruct (Z.ltb_spec (v2 * 2 ^ (e2 - Z.min e1 e2)) (v1 * 2 ^ (e1 - Z.min e1 e2)));
    [apply Z.ltb_lt | apply Z.ltb_ge]; lia.
Qed.

Lemma SFltb_exact (x y : spec_float) :
  valid_binary x = true -> valid_binary y = true ->
  SFltb x y = exact_lt (exact_of_spec x) (exact_of_spec y).
Proof.
  intros Vx Vy. unfold SFltb.
  destruct x as [sx | sx | | sx mx ex]; destruct y as [sy | sy | | sy my ey];
    cbn [SFcompare exact_of_spec exact_lt];
    try (destruct sx); try (destruct sy); try reflexivity.
  - symmetry. apply (finite_lt_signs my my 0 ey).
  - symmetry. apply (finite_lt_signs my my 0 ey).
  - symmetry. apply (finite_lt_signs my my 0 ey).
  - symmetry. apply (finite_lt_signs my my 0 ey).
  - symmetry. apply (finite_lt_signs mx mx ex 0).
  - symmetry. apply (finite_lt_signs mx mx ex 0).
  - symmetry. apply (finite_lt_signs mx mx ex 0).
  - symmetry. apply (finite_lt_signs mx mx ex 0).
  - change (Z.neg mx) with (- Z.pos mx). change (Z.neg my) with (- Z.pos my).
    rewrite finite_lt_opp, (finite_lt_positive my mx ey ex _ _ Vy Vx).
    rewrite (Z.compare_antisym ey ex).
    destruct (ey ?= ex); cbn [CompOpp]; try reflexivity. apply compare_cont_gt.
  - symmetry. apply (finite_lt_signs mx my ex ey).
  - symmetry. apply (finite_lt_signs mx my ex ey).
  - rewrite (finite_lt_positive mx my ex ey _ _ Vx Vy).
    destruct (ex ?= ey); reflexivity.
Qed.

Lemma float_lt_exact (f g : float) :
  (f <? g)%float = exact_lt (exact_of_float f) (exact_of_float g).
Proof. rewrite ltb_spec. unfold exact_of_float. apply SFltb_exact; apply Prim2SF_valid. Qed.

Ltac ltb_decide :=
  symmetry; first [apply (proj2 (Z.ltb_lt _ _)) | apply (proj2 (Z.ltb_ge _ _))]; lia.

Lemma is_nan_exact (f : float) :
  is_nan f = match exact_of_float f with NotANumber => true | _ => false end.
Proof.
  unfold is_nan, exact_of_float. rewrite eqb_spec. unfold SFeqb.
  destruct (Prim2SF f) as [s | s | | s m e]; cbn [SFcompare exact_of_spec]; try reflexivity.
  - destruct s; reflexivity.
  - change (Pos.compare_cont Eq m m) with (Pos.compare m m).
    destruct s; now rewrite Z.compare_refl, Pos.compare_refl.
Qed.

Lemma int_lt_float_exact (x : Z) (g : float) :
  negb (is_nan g) && match compare_int_float x g with Lt => true | _ => false end
  = exact_lt (Finite x 0) (exact_of_float g).
Proof.
  rewrite is_nan_exact. unfold compare_int_float, exact_of_float.
  destruct (Prim2SF g) as [s | s | | s m e]; cbn [exact_of_spec exact_lt negb andb].
  - rewrite (finite_lt_at 0) by lia. rewrite Z.sub_diag, !Z.mul_1_r.
    destruct (Z.compare_spec x 0); ltb_decide.
  - destruct s; reflexivity.
  - reflexivity.
  - set (v := if s then Z.neg m else Z.pos m).
    destruct (Z.leb_spec 0 e) as [E | E].
    + rewrite (finite_lt_at 0) by lia. rewrite !Z.sub_0_r, Z.pow_0_r, Z.mul_1_r.
      destruct (Z.compare_spec x (v * 2 ^ e)); ltb_decide.
    + rewrite (finite_lt_at e) by lia.
      replace (0 - e) with (- e) by lia. replace (e - e) with 0 by lia.
      rewrite Z.pow_0_r, Z.mul_1_r.
      destruct (Z.compare_spec (x * 2 ^ (- e)) v); ltb_decide.
Qed.

Lemma float_lt_int_exact (f : float) (y : Z) :
  negb (is_nan f) && match compare_int_float y f with Gt => true | _ => false end
  = exact_lt (exact_of_float f) (Finite y 0).
Proof.
  rewrite is_nan_exact. unfold compare_int_float, exact_of_float.
  destruct (Prim2SF f) as [s | s | | s m e]; cbn [exact_of_spec exact_lt negb andb].
  - rewrite (finite_lt_at 0) by lia. rewrite Z.sub_diag, !Z.mul_1_r.
    destruct (Z.compare_spec y 0); ltb_decide.
  - destruct s; reflexivity.
  - reflexivity.
  - set (v := if s then Z.neg m else Z.pos m).
    destruct (Z.leb_spec 0 e) as [E | E].
    + rewrite (finite_lt_at 0) by lia. rewrite !Z.sub_0_r, Z.pow_0_r, Z.mul_1_r.
      destruct (Z.compare_spec y (v * 2 ^ e)); ltb_decide.
    + rewrite (finite_lt_at e) by lia.
      replace (0 - e) with (- e) by lia. replace (e - e) with 0 by lia.
      rewrite Z.pow_0_r, Z.mul_1_r.
      destruct (Z.compare_spec (y * 2 ^ (- e)) v); ltb_decide.
Qed.

(** [<] on numbers is the comparison of their exact values. *)
Lemma num_lt_exact (a b : number) : num_lt a b = exact_lt (exact_of a) (exact_of b).
Proof.
  destruct a as [x | f], b as [y | g]; cbn [num_lt exact_of exact_lt].
  - rewrite (finite_lt_at 0) by lia. now rewrite Z.sub_diag, !Z.mul_1_r.
  - apply int_lt_float_exact.
  - apply float_lt_int_exact.
  - apply float_lt_exact.
Qed.

Lemma num_lt_trans (a b c : number) :
  num_lt a b = true -> num_lt b c = true -> num_lt a c = true.
Proof. rewrite !num_lt_exact. apply exact_lt_trans. Qed.

Lemma num_lt_irrefl (a : number) : num_lt a a = false.
Proof. rewrite num_lt_exact. apply exact_lt_irrefl. Qed.

(** ** Arithmetic that returns was done on numbers *)

Lemma float_result_numeric (r : result float) (v : value) :
  (f <- r ;; Returns (VFloat f)) = Returns v -> numeric v = true.
Proof. destruct r; simpl; [now intros [= <-] | discriminate]. Qed.

Lemma py_sub_numeric (a b v : value) :
  py_sub a b = Returns v -> numeric a = true /\ numeric b = true /\ numeric v = true.
Proof.
  unfold py_sub, numeric.
  destruct (as_number a) as [x|]; [|discriminate].
  destruct (as_number b) as [y|]; [|destruct x; discriminate].
  intros H. split; [reflexivity | split; [reflexivity|]].
  destruct x, y; first [now injection H as <- | apply (float_result_numeric _ _ H)].
Qed.

Lemma py_add_numeric (a b v : value) :
  py_add a b = Returns v -> numeric a = true ->
  numeric b = true /\ numeric v = true.
Proof.
  unfold py_add, numeric. intros H N.
  destruct (as_number a) as [x|] eqn:A; [|discriminate N].
  assert (H' : match as_number b with
               | Some y =>
                   match x, y with
                   | NInt x, NInt y => Returns (VInt (x + y))
                   | _, _ => f <- float_op PrimFloat.add x y ;; Returns (VFloat f)
                   end
               | None => Raises RuntimeFailure
               end = Returns v).
  { destruct a; try discriminate A; destruct b; cbn [as_number] in *;
      try (injection A as <-); try exact H; try discriminate H. }
  clear H. destruct (as_number b) as [y|].
  - split; [reflexivity|].
    destruct x, y; first [now injection H' as <- | apply (float_result_numeric _ _ H')].
  - destruct x; discriminate H'.
Qed.

Lemma py_halve_numeric (a v : value) : py_halve a = Returns v -> numeric v = true.
Proof.
  unfold py_halve. destruct (as_number a) as [[x | f]|]; try discriminate.
  - destruct (is_infinity _); [discriminate|]. now intros [= <-].
  - now intros [= <-].
Qed.

(** ** The body of the loop *)

(** One step of the case analysis of the loop body. *)
Ltac split_step :=
  match goal with
  | |- context [if ?b then _ else _] => destruct b
  | |- context [match ?x with VStr _ => _ | _ => _ end] => destruct x
  | |- context [bind (py_get ?a ?b ?c) _] => destruct (py_get a b c); cbn [bind]
  | |- context [bind (get_width ?a) _] => destruct (get_width a); cbn [bind]
  | |- context [bind (get_height ?a) _] => destruct (get_height a); cbn [bind]
  | |- context [bind (py_halve ?a) _] => destruct (py_halve a); cbn [bind]
  | |- context [bind (py_add ?a ?b) _] => destruct (py_add a b); cbn [bind]
  | |- context [bind (py_len ?a) _] => destruct (py_len a); cbn [bind]
  | |- context [bind (py_item ?a ?b) _] => destruct (py_item a b); cbn [bind]
  | |- context [bind (py_unpack2 ?a) _] => destruct (py_unpack2 a) as [[? ?]|]; cbn [bind]
  | |- context [bind (local_position ?a ?b ?c) _] =>
      destruct (local_position a b c) as [[? ?]|]; cbn [bind]
  end.

Section LoopBody.

Variable cs : value -> string.

(** What one element appends does not depend on what was appended before,
    and it is at most one primitive. *)
Lemma render_primitive_appends (x y e : value) (svgs : list string) :
  render_primitive cs x y e svgs
  = (part <- render_primitive cs x y e [] ;; Returns (svgs ++ part)%list).
Proof.
  unfold render_primitive, append_svg.
  repeat split_step; cbn [bind app]; rewrite ?app_nil_r; reflexivity.
Qed.

Lemma render_primitive_at_most_one (x y e : value) (part : list string) :
  render_primitive cs x y e [] = Returns part -> (List.length part <= 1)%nat.
Proof.
  unfold render_primitive, append_svg.
  repeat split_step; intros H; try discriminate H;
    apply Returns_inj in H; subst part; cbn [List.length app]; lia.
Qed.

Lemma render_element_appends (min_x min_y e : value) (svgs : list string) :
  render_element cs min_x min_y svgs e
  = (part <- render_element cs min_x min_y [] e ;; Returns (svgs ++ part)%list).
Proof.
  unfold render_element.
  repeat split_step; cbn [bind]; rewrite ?app_nil_r; try reflexivity.
  apply render_primitive_appends.
Qed.

Lemma render_element_at_most_one (min_x min_y e : value) (part : list string) :
  render_element cs min_x min_y [] e = Returns part -> (List.length part <= 1)%nat.
Proof.
  unfold render_element.
  repeat split_step; try discriminate.
  - intros H. apply Returns_inj in H. subst part. simpl. lia.
  - apply render_primitive_at_most_one.
Qed.

Lemma for_each_parts (min_x min_y : value) (els : list value) (svgs : list string) :
  for_each (render_element cs min_x min_y) els svgs
  = (parts <- comprehension (render_element cs min_x min_y []) els ;;
     Returns (svgs ++ List.concat parts)%list).
Proof.
  revert svgs. induction els as [|e els IH]; intros svgs.
  - cbn. now rewrite app_nil_r.
  - cbn [for_each comprehension]. rewrite render_element_appends.
    destruct (render_element cs min_x min_y [] e) as [part|]; cbn [bind]; [|reflexivity].
    rewrite IH.
    destruct (comprehension (render_element cs min_x min_y []) els) as [parts|];
      cbn [bind]; [|reflexivity].
    cbn [List.concat]. now rewrite app_assoc.
Qed.

End LoopBody.

(** ** Strings *)

Lemma append_empty_r (s : string) : s ++ "" = s.
Proof. induction s as [|c s IH]; simpl; [reflexivity | now rewrite IH]. Qed.

Lemma append_assoc (a b c : string) : (a ++ b) ++ c = a ++ b ++ c.
Proof. induction a as [|x a IH]; simpl; [reflexivity | now rewrite IH]. Qed.

Lemma split_lines_not_nil (s : string) : split_lines s <> [].
Proof.
  induction s as [|c s IH]; simpl.
  - discriminate.
  - destruct (Ascii.eqb c nl_char); [discriminate|].
    destruct (split_lines s); [contradiction | discriminate].
Qed.

Lemma prefix_cons (a b : ascii) (s1 s2 : string) :
  prefix (String a s1) (String b s2) = Ascii.eqb a b && prefix s1 s2.
Proof.
  cbn [prefix]. destruct (ascii_dec a b) as [<- | N].
  - now rewrite Ascii.eqb_refl.
  - apply Ascii.eqb_neq in N. now rewrite N.
Qed.

Lemma prefix_empty (s : string) : prefix "" s = true.
Proof. destruct s; reflexivity. Qed.

Lemma prefix_nl (c : ascii) (rest : string) :
  prefix nl (String c rest) = Ascii.eqb c nl_char.
Proof.
  unfold nl. fold nl_char. rewrite prefix_cons, prefix_empty, andb_true_r.
  apply Ascii.eqb_sym.
Qed.

Lemma concat_cons_char (sep : string) (c : ascii) (l : string) (ls : list string) :
  String.concat sep (String c l :: ls) = String c (String.concat sep (l :: ls)).
Proof. destruct ls; reflexivity. Qed.

(** Replacing the line feeds joins the lines with the replacement. *)
Lemma replace_line_feeds (sep s : string) :
  str_replace nl sep s = join sep (split_lines s).
Proof.
  unfold str_replace, join. change nl with (String nl_char "") at 1. cbv iota.
  induction s as [|c s IH].
  - reflexivity.
  - cbn [replace_from]. rewrite prefix_nl. cbn [split_lines].
    destruct (Ascii.eqb c nl_char).
    + change (String.length nl - 1)%nat with O. rewrite IH.
      destruct (split_lines s) as [|l ls] eqn:E.
      * now apply split_lines_not_nil in E.
      * reflexivity.
    + rewrite IH. destruct (split_lines s) as [|l ls] eqn:E.
      * now apply split_lines_not_nil in E.
      * now rewrite concat_cons_char.
Qed.

Lemma concat_empty_cons (a : string) (rest : list string) :
  String.concat "" (a :: rest) = a ++ String.concat "" rest.
Proof.
  destruct rest; cbn [String.concat]; [now rewrite append_empty_r | reflexivity].
Qed.

(** Joining the lines with [closing ++ opening'] and wrapping the whole in
    [opening] and [closing] wraps every line. *)
Lemma wrap_joined (closing opening' opening l : string) (ls : list string) :
  opening ++ String.concat (closing ++ opening') (l :: ls) ++ closing
  = (opening ++ l ++ closing)
      ++ String.concat "" (map (fun l => opening' ++ l ++ closing) ls).
Proof.
  revert opening l. induction ls as [|l2 ls IH]; intros opening l.
  - cbn [String.concat map]. now rewrite !append_assoc, append_empty_r.
  - change (String.concat ?sep (l :: l2 :: ls))
      with (l ++ sep ++ String.concat sep (l2 :: ls)).
    cbn [map]. rewrite concat_empty_cons, <- IH, !append_assoc. reflexivity.
Qed.

(** An attribute in front of more markup, spelled out. *)
Lemma attr_app (n v rest : string) :
  attr n v ++ rest = " " ++ n ++ "=" ++ dq ++ v ++ dq ++ rest.
Proof. unfold attr. now rewrite !append_assoc. Qed.

Lemma replaced_text_is_stacked (x s : string) :
  "<tspan>"
    ++ str_replace nl ("</tspan><tspan" ++ attr "x" x ++ attr "dy" "1.2em" ++ ">") s
    ++ "</tspan>"
  = stacked_lines x (split_lines s).
Proof.
  rewrite replace_line_feeds. unfold join.
  destruct (split_lines s) as [|l ls] eqn:E.
  - now apply split_lines_not_nil in E.
  - unfold stacked_lines, first_tspan.
    change ("</tspan><tspan" ++ ?r) with ("</tspan>" ++ "<tspan" ++ r).
    rewrite wrap_joined. do 2 f_equal. apply map_ext. intros l'.
    unfold next_tspan. rewrite !attr_app, !append_assoc. reflexivity.
Qed.

Lemma has_geometry_functional (e : value) (g1 g2 : geometry) :
  has_geometry e g1 -> has_geometry e g2 -> g1 = g2.
Proof.
  intros (X1 & Y1 & W1 & H1) (X2 & Y2 & W2 & H2).
  destruct g1, g2; simpl in *. congruence.
Qed.

Lemma Forall2_In_left {A B : Type} (R : A -> B -> Prop) (l : list A) (l' : list B) (a : A) :
  Forall2 R l l' -> In a l -> exists b, In b l' /\ R a b.
Proof.
  induction 1 as [|x y l l' Hxy _ IH]; simpl; intros H.
  - contradiction.
  - destruct H as [-> | H].
    + exists y. auto.
    + destruct (IH H) as (b & Hb & Rb). exists b. auto.
Qed.

Lemma bounds_cover_element (e : value) (els : list value) (g : geometry)
    (gs : list geometry) (e' : value) (g' : geometry) :
  Forall2 has_geometry (e :: els) (g :: gs) ->
  In e' (e :: els) -> has_geometry e' g' ->
  min_x_of g gs <= gx g' /\ min_y_of g gs <= gy g' /\
  gx g' + gwidth g' <= max_x_of g gs /\ gy g' + gheight g' <= max_y_of g gs.
Proof.
  intros F I G.
  destruct (Forall2_In_left _ _ _ e' F I) as (g0 & I0 & G0).
  rewrite (has_geometry_functional e' g' g0 G G0).
  apply bounds_cover, I0.
Qed.

Lemma index_list_first {A : Type} (a : A) (l : list A) :
  index_list (a :: l) 0 = Returns a.
Proof.
  unfold index_list. cbn [List.length]. rewrite Nat2Z.inj_succ.
  change (0 <? 0) with false. cbv iota.
  replace (0 <=? 0) with true by reflexivity.
  destruct (Z.ltb_spec 0 (Z.succ (Z.of_nat (List.length l)))); [reflexivity | lia].
Qed.

Lemma index_list_last {A : Type} (l : list A) (a : A) :
  index_list (l ++ [a])%list (-1) = Returns a.
Proof.
  unfold index_list. rewrite length_app. cbn [List.length].
  change (-1 <? 0) with true. cbv iota.
  replace (Z.of_nat (List.length l + 1) + -1) with (Z.of_nat (List.length l)) by lia.
  rewrite Nat2Z.id.
  destruct (Z.leb_spec 0 (Z.of_nat (List.length l))); [|lia].
  destruct (Z.ltb_spec (Z.of_nat (List.length l)) (Z.of_nat (List.length l + 1))); [|lia].
  cbn [andb]. rewrite nth_error_app2 by lia. now rewrite Nat.sub_diag.
Qed.

(** ** Least and greatest in Python's order *)

Lemma numeric_number (v : value) :
  numeric v = true -> exists x : number, as_number v = Some x.
Proof. unfold numeric. destruct (as_number v) as [x|]; [eauto | discriminate]. Qed.

Lemma py_lt_numbers (a b : value) (x y : number) :
  as_number a = Some x -> as_number b = Some y -> py_lt a b = Returns (num_lt x y).
Proof.
  intros A B. unfold py_lt. rewrite A, B.
  destruct a; try reflexivity; discriminate A.
Qed.

(** A comparison that returns compared two numbers or two strings. *)
Lemma py_lt_same_kind (a b : value) (r : bool) :
  py_lt a b = Returns r -> numeric a = numeric b.
Proof.
  unfold py_lt, numeric.
  destruct a, b; cbn [as_number]; try reflexivity; discriminate.
Qed.

Lemma py_lt_irrefl (a : value) : numeric a = true -> py_lt a a = Returns false.
Proof.
  intros N. destruct (numeric_number a N) as (x & A).
  rewrite (py_lt_numbers a a x x A A). now rewrite num_lt_irrefl.
Qed.

Lemma py_lt_decided (a b : value) :
  numeric a = true -> numeric b = true ->
  py_lt a b = Returns true \/ py_lt a b = Returns false.
Proof.
  intros Na Nb. destruct (numeric_number a Na) as (x & A).
  destruct (numeric_number b Nb) as (y & B).
  rewrite (py_lt_numbers a b x y A B). destruct (num_lt x y); auto.
Qed.

Lemma py_lt_trans (a b c : value) :
  numeric b = true ->
  py_lt a b = Returns true -> py_lt b c = Returns true -> py_lt a c = Returns true.
Proof.
  intros Nb AB BC.
  pose proof (py_lt_same_kind _ _ _ AB) as Ka.
  pose proof (py_lt_same_kind _ _ _ BC) as Kc.
  rewrite Nb in Ka. rewrite Nb in Kc. symmetry in Kc.
  destruct (numeric_number a Ka) as (x & A).
  destruct (numeric_number b Nb) as (y & B).
  destruct (numeric_number c Kc) as (z & C).
  rewrite (py_lt_numbers _ _ _ _ A B) in AB.
  rewrite (py_lt_numbers _ _ _ _ B C) in BC.
  rewrite (py_lt_numbers _ _ _ _ A C).
  apply Returns_inj in AB. apply Returns_inj in BC.
  now rewrite (num_lt_trans x y z AB BC).
Qed.

(** When [min] returns a number, every item was one. *)
Lemma min_from_numeric (rest : list value) (cur m : value) :
  min_from cur rest = Returns m -> numeric m = true ->
  numeric cur = true /\ Forall (fun v => numeric v = true) rest.
Proof.
  revert cur. induction rest as [|item r IH]; intros cur H N; cbn [min_from] in H.
  - apply Returns_inj in H. subst m. auto.
  - apply bind_returns in H as (less & L & H).
    destruct (IH _ H N) as (K & F).
    pose proof (py_lt_same_kind _ _ _ L) as S.
    destruct less.
    + split; [now rewrite <- S | constructor; assumption].
    + split; [assumption | constructor; [now rewrite S | assumption]].
Qed.

Lemma max_from_numeric (rest : list value) (cur m : value) :
  max_from cur rest = Returns m -> numeric m = true ->
  numeric cur = true /\ Forall (fun v => numeric v = true) rest.
Proof.
  revert cur. induction rest as [|item r IH]; intros cur H N; cbn [max_from] in H.
  - apply Returns_inj in H. subst m. auto.
  - apply bind_returns in H as (greater & L & H).
    destruct (IH _ H N) as (K & F).
    pose proof (py_lt_same_kind _ _ _ L) as S.
    destruct greater.
    + split; [now rewrite S | constructor; assumption].
    + split; [assumption | constructor; [now rewrite <- S | assumption]].
Qed.

(** The loop of [min]: no item seen so far is less than the current one. *)
Lemma min_from_least (rest seen : list value) (cur m : value) :
  min_from cur rest = Returns m ->
  numeric cur = true ->
  Forall (fun v => numeric v = true) seen ->
  In cur seen ->
  (forall v, In v seen -> py_lt v cur = Returns false) ->
  In m (seen ++ rest)%list
  /\ forall v, In v (seen ++ rest)%list -> py_lt v m = Returns false.
Proof.
  revert seen cur.
  induction rest as [|item r IH]; intros seen cur H N S I L; cbn [min_from] in H.
  - apply Returns_inj in H. subst m. rewrite app_nil_r. auto.
  - apply bind_returns in H as (less & C & H).
    pose proof (py_lt_same_kind _ _ _ C) as K. rewrite N in K.
    replace (seen ++ item :: r)%list with ((seen ++ [item]) ++ r)%list
      by (rewrite <- app_assoc; reflexivity).
    assert (S' : Forall (fun v => numeric v = true) (seen ++ [item])).
    { apply Forall_app. split; [assumption | constructor; [assumption | constructor]]. }
    destruct less.
    + apply (IH (seen ++ [item])%list item H K S').
      * apply in_or_app. right. now left.
      * intros v V. apply in_app_or in V as [V | [<- | []]].
        -- assert (Nv : numeric v = true) by (rewrite Forall_forall in S; auto).
           destruct (py_lt_decided v item Nv K) as [T | F]; [|exact F].
           pose proof (py_lt_trans v item cur K T C) as X.
           rewrite (L v V) in X. discriminate X.
        -- now apply py_lt_irrefl.
    + apply (IH (seen ++ [item])%list cur H N S').
      * apply in_or_app. now left.
      * intros v V. apply in_app_or in V as [V | [<- | []]]; auto.
Qed.

Lemma max_from_greatest (rest seen : list value) (cur m : value) :
  max_from cur rest = Returns m ->
  numeric cur = true ->
  Forall (fun v => numeric v = true) seen ->
  In cur seen ->
  (forall v, In v seen -> py_lt cur v = Returns false) ->
  In m (seen ++ rest)%list
  /\ forall v, In v (seen ++ rest)%list -> py_lt m v = Returns false.
Proof.
  revert seen cur.
  induction rest as [|item r IH]; intros seen cur H N S I L; cbn [max_from] in H.
  - apply Returns_inj in H. subst m. rewrite app_nil_r. auto.
  - apply bind_returns in H as (greater & C & H).
    pose proof (py_lt_same_kind _ _ _ C) as K. rewrite N in K. symmetry in K.
    replace (seen ++ item :: r)%list with ((seen ++ [item]) ++ r)%list
      by (rewrite <- app_assoc; reflexivity).
    assert (S' : Forall (fun v => numeric v = true) (seen ++ [item])).
    { apply Forall_app. split; [assumption | constructor; [assumption | constructor]]. }
    destruct greater.
    + apply (IH (seen ++ [item])%list item H K S').
      * apply in_or_app. right. now left.
      * intros v V. apply in_app_or in V as [V | [<- | []]].
        -- assert (Nv : numeric v = true) by (rewrite Forall_forall in S; auto).
           destruct (py_lt_decided item v K Nv) as [T | F]; [|exact F].
           pose proof (py_lt_trans cur item v K C T) as X.
           rewrite (L v V) in X. discriminate X.
        -- now apply py_lt_irrefl.
    + apply (IH (seen ++ [item])%list cur H N S').
      * apply in_or_app. now left.
      * intros v V. apply in_app_or in V as [V | [<- | []]]; auto.
Qed.

(** [min] and [max] of numbers return a least and a greatest item. *)
Lemma py_min_least (vs : list value) (m : value) :
  py_min vs = Returns m -> numeric m = true -> least_of m vs.
Proof.
  destruct vs as [|first rest]; [discriminate|]. cbn [py_min]. intros H N.
  destruct (min_from_numeric _ _ _ H N) as (K & F).
  apply (min_from_least rest [first] first m H K).
  - constructor; [assumption | constructor].
  - now left.
  - intros v [<- | []]. now apply py_lt_irrefl.
Qed.

Lemma py_max_greatest (vs : list value) (m : value) :
  py_max vs = Returns m -> numeric m = true -> greatest_of m vs.
Proof.
  destruct vs as [|first rest]; [discriminate|]. cbn [py_max]. intros H N.
  destruct (max_from_numeric _ _ _ H N) as (K & F).
  apply (max_from_greatest rest [first] first m H K).
  - constructor; [assumption | constructor].
  - now left.
  - intros v [<- | []]. now apply py_lt_irrefl.
Qed.

(** ** What the synthesizer did when it returned *)

(** A comprehension of [get] that returns went over dicts. *)
Lemma comprehension_dicts {B : Type} (f : value -> result B) (els : list value)
    (bs : list B) :
  (forall e b, f e = Returns b -> exists d, e = VDict d) ->
  comprehension f els = Returns bs ->
  exists ds : list (list (string * value)), els = map VDict ds.
Proof.
  intros D H. apply comprehension_returns in H.
  induction H as [|e b els bs E _ (ds & ->)].
  - now exists [].
  - destruct (D e b E) as (d & ->). now exists (d :: ds).
Qed.

Lemma py_get_returns (e : value) (k : string) (default v : value) :
  py_get e k default = Returns v -> exists d, e = VDict d.
Proof. destruct e; try discriminate. eauto. Qed.

Lemma Forall2_map_dicts {B : Type} (f : value -> result B)
    (R : list (string * value) -> B -> Prop) (ds : list (list (string * value)))
    (bs : list B) :
  (forall d b, f (VDict d) = Returns b -> R d b) ->
  Forall2 (fun e b => f e = Returns b) (map VDict ds) bs -> Forall2 R ds bs.
Proof.
  intros I. revert bs. induction ds as [|d ds IH]; intros bs F; inversion F; subst.
  - constructor.
  - constructor; auto.
Qed.

Lemma Forall2_function {A B : Type} (h : A -> B) (l : list A) (bs : list B) :
  Forall2 (fun a b => b = h a) l bs -> bs = map h l.
Proof. induction 1; cbn [map]; congruence. Qed.

Lemma bounds_returns (els : list value) (min_x min_y width height : value) :
  calculate_bounds els = Returns (min_x, min_y, width, height) ->
  exists (ds : list (list (string * value))) (max_x max_y : value),
    els = map VDict ds /\
    bounding_box ds min_x min_y max_x max_y /\
    padded min_x max_x width /\ padded min_y max_y height.
Proof.
  unfold calculate_bounds. intros H.
  apply bind_returns in H as (xs & Xs & H).
  apply bind_returns in H as (ys & Ys & H).
  apply bind_returns in H as (rights & Rs & H).
  apply bind_returns in H as (bottoms & Bs & H).
  apply bind_returns in H as (lo_x & MinX & H).
  apply bind_returns in H as (lo_y & MinY & H).
  apply bind_returns in H as (hi_x & MaxX & H).
  apply bind_returns in H as (hi_y & MaxY & H).
  apply bind_returns in H as (w & W & H).
  apply bind_returns in H as (h & Hh & H).
  apply Returns_inj in H. injection H as -> -> -> ->.
  apply bind_returns in W as (dx & Dx & W).
  apply bind_returns in Hh as (dy & Dy & Hh).
  destruct (py_sub_numeric _ _ _ Dx) as (NhiX & NloX & _).
  destruct (py_sub_numeric _ _ _ Dy) as (NhiY & NloY & _).
  destruct (comprehension_dicts get_x els xs) as (ds & ->); [|exact Xs|].
  { intros e b. apply py_get_returns. }
  exists ds, hi_x, hi_y. split; [reflexivity|].
  apply comprehension_returns in Xs, Ys, Rs, Bs.
  apply (Forall2_map_dicts _ (fun d x => x = x_of d)) in Xs;
    [|intros d b E; apply Returns_inj in E; now subst b].
  apply (Forall2_map_dicts _ (fun d y => y = y_of d)) in Ys;
    [|intros d b E; apply Returns_inj in E; now subst b].
  apply (Forall2_map_dicts _ right_of) in Rs; [|intros d b E; exact E].
  apply (Forall2_map_dicts _ bottom_of) in Bs; [|intros d b E; exact E].
  apply Forall2_function in Xs, Ys. subst xs ys.
  split; [|split].
  - exists rights, bottoms.
    repeat split; try assumption.
    + apply (py_min_least _ _ MinX NloX).
    + apply (py_min_least _ _ MinX NloX).
    + apply (py_min_least _ _ MinY NloY).
    + apply (py_min_least _ _ MinY NloY).
    + apply (py_max_greatest _ _ MaxX NhiX).
    + apply (py_max_greatest _ _ MaxX NhiX).
    + apply (py_max_greatest _ _ MaxY NhiY).
    + apply (py_max_greatest _ _ MaxY NhiY).
  - exists dx. auto.
  - exists dy. auto.
Qed.

Lemma py_get_dict (d : list (string * value)) (k : string) (default : value) :
  py_get (VDict d) k default = Returns (field d k default).
Proof. reflexivity. Qed.

Lemma field_found (d : list (string * value)) (k : string) (default v : value) :
  lookup k d = Some v -> field d k default = v.
Proof. unfold field. now intros ->. Qed.

Lemma field_absent (d : list (string * value)) (k : string) (default : value) :
  lookup k d = None -> field d k default = default.
Proof. unfold field. now intros ->. Qed.

(** The markup of the code, attribute by attribute, is the markup spelled
    out. *)
Lemma document_is_markup (width height body : string) :
  svg_document width height body = document_markup width height body.
Proof.
  unfold svg_document, document_markup, arrow_marker, white_background, svg_ns.
  rewrite !attr_app. reflexivity.
Qed.

Lemma local_position_placed (min_x min_y : value) (d : list (string * value))
    (x y : value) :
  local_position min_x min_y (VDict d) = Returns (x, y)
  <-> placed min_x (x_of d) x /\ placed min_y (y_of d) y.
Proof.
  unfold local_position, placed, get_x, get_y, pad. rewrite !py_get_dict. cbn [bind].
  fold (x_of d). fold (y_of d). split.
  - intros H. apply bind_returns in H as (x' & X & H).
    apply bind_returns in H as (y' & Y & H).
    apply Returns_inj in H. injection H as -> ->.
    apply bind_returns in X as (ox & Ox & X).
    apply bind_returns in Y as (oy & Oy & Y).
    split; [exists ox | exists oy]; auto.
  - intros ((ox & Ox & X) & (oy & Oy & Y)).
    rewrite Ox. cbn [bind]. rewrite X. cbn [bind].
    rewrite Oy. cbn [bind]. rewrite Y. reflexivity.
Qed.

Section Returned.

Variable cs : value -> string.

(** A visible object is drawn at its place on the canvas. *)
Lemma render_element_placed (min_x min_y : value) (d : list (string * value))
    (x y : value) (svgs : list string) :
  is_deleted (VDict d) = false ->
  placed min_x (x_of d) x -> placed min_y (y_of d) y ->
  render_element cs min_x min_y svgs (VDict d) = render_primitive cs x y (VDict d) svgs.
Proof.
  intros D X Y. unfold render_element. unfold is_deleted in D.
  rewrite py_get_dict in *. cbn [bind]. rewrite D.
  rewrite (proj2 (local_position_placed min_x min_y d x y) (conj X Y)). reflexivity.
Qed.

Lemma render_deleted (min_x min_y : value) (svgs : list string) (e : value) :
  is_deleted e = true -> render_element cs min_x min_y svgs e = Returns svgs.
Proof.
  unfold is_deleted, render_element.
  destruct (py_get e "isDeleted" VNone) as [flag|]; simpl; intros H.
  - now rewrite H.
  - discriminate.
Qed.

Lemma render_element_returns (min_x min_y : value) (d : list (string * value))
    (part : list string) :
  render_element cs min_x min_y [] (VDict d) = Returns part ->
  drawn cs min_x min_y d part.
Proof.
  unfold drawn. destruct (is_deleted (VDict d)) eqn:D; intros H.
  - rewrite (render_deleted _ _ _ _ D) in H. apply Returns_inj in H. now subst part.
  - unfold render_element in H. unfold is_deleted in D. rewrite py_get_dict in *.
    cbn [bind] in H. rewrite D in H.
    apply bind_returns in H as ([x y] & L & H).
    apply local_position_placed in L as (X & Y). eauto.
Qed.

(** What the synthesizer returned for a non-empty list of elements: they
    were dicts, and the document is laid out by their bounding box. *)
Lemma synthesis_returns (data : value) (elements : list value) (svg : string) :
  py_get data "elements" (VList []) = Returns (VList elements) ->
  elements <> [] ->
  excalidraw_to_svg cs data = Returns svg ->
  exists (ds : list (list (string * value))) (min_x min_y max_x max_y : value),
    elements = map VDict ds /\ laid_out cs ds min_x min_y max_x max_y svg.
Proof.
  intros G N H. unfold excalidraw_to_svg in H. rewrite G in H. cbn [bind] in H.
  destruct elements as [|e els]; [contradiction|].
  cbn [truthy negb py_iter bind] in H.
  apply bind_returns in H as ([[[min_x min_y] width] height] & B & H).
  apply bind_returns in H as (svgs & F & H).
  apply Returns_inj in H. subst svg.
  destruct (bounds_returns _ _ _ _ _ B) as (ds & max_x & max_y & E & Box & W & Hh).
  rewrite for_each_parts in F. apply bind_returns in F as (parts & C & F).
  apply Returns_inj in F. subst svgs. cbn [app].
  exists ds, min_x, min_y, max_x, max_y. split; [exact E|].
  exists width, height, parts. repeat split; try assumption.
  - rewrite E in C. apply comprehension_returns in C.
    apply (Forall2_map_dicts _ (drawn cs min_x min_y)) in C; [exact C|].
    intros d part. apply render_element_returns.
  - apply document_is_markup.
Qed.

End Returned.

Section IntBounds.

Variable cs : value -> string.

Lemma synthesize_with_bounds (d : list (string * value)) (e : value) (els : list value) :
  lookup "elements" d = Some (VList (e :: els)) ->
  excalidraw_to_svg cs (VDict d)
  = ('(min_x, min_y, width, height) <- calculate_bounds (e :: els) ;;
     svgs <- for_each (render_element cs min_x min_y) (e :: els) [] ;;
     Returns (svg_document (py_format cs width) (py_format cs height)
                (String.concat "" svgs))).
Proof.
  intros H. unfold excalidraw_to_svg. rewrite py_get_dict. unfold field. rewrite H.
  reflexivity.
Qed.

Lemma synthesize_ints (d : list (string * value)) (e : value) (els : list value)
    (g : geometry) (gs : list geometry) :
  lookup "elements" d = Some (VList (e :: els)) ->
  Forall2 has_geometry (e :: els) (g :: gs) ->
  excalidraw_to_svg cs (VDict d)
  = (svgs <- for_each (render_element cs (VInt (min_x_of g gs)) (VInt (min_y_of g gs)))
               (e :: els) [] ;;
     Returns (svg_document (int_str (max_x_of g gs - min_x_of g gs + 80))
                (int_str (max_y_of g gs - min_y_of g gs + 80))
                (String.concat "" svgs))).
Proof.
  intros H F. rewrite (synthesize_with_bounds d e els H), (bounds_of_ints e els g gs F).
  reflexivity.
Qed.

End IntBounds.

(** Every object lies inside the bounding box. *)
Lemma box_holds_all (ds : list (list (string * value)))
    (min_x min_y max_x max_y : value) (d : list (string * value)) :
  bounding_box ds min_x min_y max_x max_y -> In d ds ->
  within_box d min_x min_y max_x max_y.
Proof.
  intros (rights & bottoms & R & B & (_ & Lx) & (_ & Ly) & (_ & Gx) & (_ & Gy)) I.
  destruct (Forall2_In_left _ _ _ d R I) as (r & Ir & Rr).
  destruct (Forall2_In_left _ _ _ d B I) as (b & Ib & Bb).
  split; [|split].
  - apply Lx, in_map, I.
  - apply Ly, in_map, I.
  - exists r, b. auto.
Qed.

(** The arithmetic of the canvas on ints and on floats. *)
Lemma padded_ints (lo hi : Z) (size : value) :
  padded (VInt lo) (VInt hi) size <-> size = VInt (hi - lo + 80).
Proof.
  unfold padded. cbn. split.
  - intros (extent & E & S). apply Returns_inj in E. subst extent.
    cbn in S. apply Returns_inj in S. now subst size.
  - intros ->. now exists (VInt (hi - lo)).
Qed.

Lemma placed_ints (lo v : Z) (p : value) :
  placed (VInt lo) (VInt v) p <-> p = VInt (v - lo + 40).
Proof.
  unfold placed. cbn. split.
  - intros (offset & E & S). apply Returns_inj in E. subst offset.
    cbn in S. apply Returns_inj in S. now subst p.
  - intros ->. now exists (VInt (v - lo)).
Qed.

Lemma float_of_small_int (z : Z) (f : float) :
  float_of_int z = Returns f -> forall g : float,
  py_add (VFloat g) (VInt z) = Returns (VFloat (g + f)).
Proof. intros H g. cbn. now rewrite H. Qed.

Lemma padded_floats (lo hi : float) (size : value) :
  padded (VFloat lo) (VFloat hi) size <-> size = VFloat (hi - lo + 80)%float.
Proof.
  unfold padded. split.
  - intros (extent & E & S). cbn in E. apply Returns_inj in E. subst extent.
    rewrite (float_of_small_int 80 80%float eq_refl) in S.
    apply Returns_inj in S. now subst size.
  - intros ->. exists (VFloat (hi - lo)). split; [reflexivity|].
    apply (float_of_small_int 80 80%float eq_refl).
Qed.

Lemma placed_floats (lo v : float) (p : value) :
  placed (VFloat lo) (VFloat v) p <-> p = VFloat (v - lo + 40)%float.
Proof.
  unfold placed. split.
  - intros (offset & E & S). cbn in E. apply Returns_inj in E. subst offset.
    rewrite (float_of_small_int 40 40%float eq_refl) in S.
    apply Returns_inj in S. now subst p.
  - intros ->. exists (VFloat (v - lo)). split; [reflexivity|].
    apply (float_of_small_int 40 40%float eq_refl).
Qed.

Lemma least_of_ints (m : Z) (zs : list Z) :
  least_of (VInt m) (map VInt zs) <-> In m zs /\ forall z, In z zs -> m <= z.
Proof.
  unfold least_of. split.
  - intros (I & L). split.
    + apply in_map_iff in I as (z & E & I). now injection E as <-.
    + intros z Iz. specialize (L (VInt z) (in_map VInt _ _ Iz)).
      cbn in L. apply Returns_inj in L. apply Z.ltb_ge in L. exact L.
  - intros (I & L). split; [now apply in_map|].
    intros v Iv. apply in_map_iff in Iv as (z & <- & Iz). cbn.
    f_equal. apply Z.ltb_ge. auto.
Qed.

Lemma greatest_of_ints (m : Z) (zs : list Z) :
  greatest_of (VInt m) (map VInt zs) <-> In m zs /\ forall z, In z zs -> z <= m.
Proof.
  unfold greatest_of. split.
  - intros (I & L). split.
    + apply in_map_iff in I as (z & E & I). now injection E as <-.
    + intros z Iz. specialize (L (VInt z) (in_map VInt _ _ Iz)).
      cbn in L. apply Returns_inj in L. apply Z.ltb_ge in L. exact L.
  - intros (I & L). split; [now apply in_map|].
    intros v Iv. apply in_map_iff in Iv as (z & <- & Iz). cbn.
    f_equal. apply Z.ltb_ge. auto.
Qed.

(** ** The canvas and the local position *)

Section Bounds.

Variable cs : value -> string.

Lemma render_rectangle (d : list (string * value)) (x y : value) (svgs : list string) :
  field d "type" (VStr "") = VStr "rectangle" ->
  render_primitive cs x y (VDict d) svgs
  = Returns (svgs ++ [rect_with (py_format cs x) (py_format cs y)
                        (py_format cs (width_of d)) (py_format cs (height_of d))
                        (py_format cs (field d "backgroundColor" (VStr "transparent")))
                        (py_format cs (field d "strokeColor" (VStr "#000")))
                        (py_format cs (field d "strokeWidth" (VInt 1)))])%list.
Proof.
  intros T. unfold render_primitive, get_width, get_height. rewrite !py_get_dict.
  cbn [bind]. rewrite T. change (is_str (VStr "rectangle") "rectangle") with true.
  cbv iota. unfold append_svg, rect_with, width_of, height_of.
  rewrite !attr_app. reflexivity.
Qed.

(** C1.  A scene with the single rectangle [{x:10, y:10, width:50,
    height:20}] gets a canvas of 130 by 100 and its rectangle at (40, 40).
    With a second rectangle at (100, 40), 30 by 30, the canvas is 200 by
    140 and the second rectangle stands at (130, 70); with float
    coordinates the same holds in floats.  In general, whenever the
    synthesizer returns a document for a non-empty list of elements, the
    elements are objects, the canvas is [max_x - min_x + 80] wide and
    [max_y - min_y + 80] high, for a least [x], a least [y], a greatest
    [x + width] and a greatest [y + height] over all the elements, and each
    element that is not deleted is drawn at [(x - min_x + 40,
    y - min_y + 40)], the sums and differences being Python's; a rectangle
    drawn at [(x, y)] is the [rect] with these as its [x] and [y].  On ints
    the differences, the sums and the order are those of the integers, on
    floats those of binary64. *)
Theorem canvas_size_and_local_position :
  excalidraw_to_svg cs one_rectangle
  = Returns (document_markup "130" "100" (rect_markup "40" "40" "50" "20"))
  /\ excalidraw_to_svg cs two_rectangles
     = Returns (document_markup "200" "140"
                  (rect_markup "40" "40" "50" "20" ++ rect_markup "130" "70" "30" "30"))
  /\ excalidraw_to_svg cs two_float_rectangles
     = Returns (document_markup "200.25" "140.25"
                  (rect_markup "40.0" "40.0" "50" "20"
                     ++ rect_markup "130.25" "70.25" "30" "30"))
  /\ (forall (data : value) (elements : list value) (svg : string),
        py_get data "elements" (VList []) = Returns (VList elements) ->
        elements <> [] ->
        excalidraw_to_svg cs data = Returns svg ->
        exists (ds : list (list (string * value))) (min_x min_y max_x max_y : value),
          elements = map VDict ds /\ laid_out cs ds min_x min_y max_x max_y svg)
  /\ (forall (d : list (string * value)) (min_x min_y x y : value) (svgs : list string),
        field d "type" (VStr "") = VStr "rectangle" ->
        is_deleted (VDict d) = false ->
        placed min_x (x_of d) x -> placed min_y (y_of d) y ->
        forallb printable
          [x; y; width_of d; height_of d;
           field d "backgroundColor" (VStr "transparent");
           field d "strokeColor" (VStr "#000"); field d "strokeWidth" (VInt 1)] = true ->
        render_element cs min_x min_y svgs (VDict d)
        = Returns (svgs ++ [rect_with (py_format cs x) (py_format cs y)
                              (py_format cs (width_of d)) (py_format cs (height_of d))
                              (py_format cs (field d "backgroundColor" (VStr "transparent")))
                              (py_format cs (field d "strokeColor" (VStr "#000")))
                              (py_format cs (field d "strokeWidth" (VInt 1)))])%list)
  /\ (forall (lo hi v : Z) (p : value),
        (padded (VInt lo) (VInt hi) p <-> p = VInt (hi - lo + 80))
        /\ (placed (VInt lo) (VInt v) p <-> p = VInt (v - lo + 40)))
  /\ (forall (lo hi v : float) (p : value),
        (padded (VFloat lo) (VFloat hi) p <-> p = VFloat (hi - lo + 80)%float)
        /\ (placed (VFloat lo) (VFloat v) p <-> p = VFloat (v - lo + 40)%float))
  /\ (forall (m : Z) (zs : list Z),
        (least_of (VInt m) (map VInt zs) <-> In m zs /\ forall z, In z zs -> m <= z)
        /\ (greatest_of (VInt m) (map VInt zs)
            <-> In m zs /\ forall z, In z zs -> z <= m)).
Proof.
  split; [reflexivity|]. split; [reflexivity|]. split; [reflexivity|].
  split; [|split; [|split; [|split]]].
  - apply synthesis_returns.
  - intros d min_x min_y x y svgs T D X Y _.
    rewrite (render_element_placed cs min_x min_y d x y svgs D X Y).
    apply render_rectangle, T.
  - intros lo hi v p. split; [apply padded_ints | apply placed_ints].
  - intros lo hi v p. split; [apply padded_floats | apply placed_floats].
  - intros m zs. split; [apply least_of_ints | apply greatest_of_ints].
Qed.

End Bounds.

(** ** The primitives *)

Section Primitives.

Variable cs : value -> string.

(** C2.  Deleted elements count for the bounds and are not drawn.  A scene
    with a deleted rectangle at (500, 300), 100 by 100, and a visible one at
    (0, 0) gets the canvas of both, 680 by 480, and the markup of the
    visible one alone; likewise with a deleted object at (500.5, 300.25) of
    the default size.  In general, whenever the synthesizer returns a
    document for a non-empty list of elements, the document is laid out by
    the bounding box of all the elements; every deleted element lies inside
    that box by its [x], [y], [x + width] and [y + height] (width 100 and
    height 50 when absent), it adds nothing to the body, and the loop
    appends nothing for it. *)
Theorem deleted_elements_count_for_bounds_only :
  excalidraw_to_svg cs
    (scene [a_deleted_rectangle 500 300 100 100; a_rectangle 0 0 50 20])
  = Returns (document_markup "680" "480" (rect_markup "40" "40" "50" "20"))
  /\ excalidraw_to_svg cs
       (scene [an_object "rectangle" (VFloat 500.5) (VFloat 300.25)
                 [("isDeleted", VBool true)];
               a_rectangle 0 0 50 20])
     = Returns (document_markup "680.5" "430.25" (rect_markup "40" "40" "50" "20"))
  /\
  forall (data : value) (elements : list value) (svg : string),
    py_get data "elements" (VList []) = Returns (VList elements) ->
    elements <> [] ->
    excalidraw_to_svg cs data = Returns svg ->
    exists (ds : list (list (string * value))) (min_x min_y max_x max_y : value),
      elements = map VDict ds
      /\ laid_out cs ds min_x min_y max_x max_y svg
      /\ forall d : list (string * value),
           In d ds -> is_deleted (VDict d) = true ->
           within_box d min_x min_y max_x max_y
           /\ (forall part : list string, drawn cs min_x min_y d part <-> part = [])
           /\ (forall svgs : list string,
                 render_element cs min_x min_y svgs (VDict d) = Returns svgs).
Proof.
  split; [reflexivity|]. split; [reflexivity|].
  intros data elements svg G N H.
  destruct (synthesis_returns cs data elements svg G N H)
    as (ds & min_x & min_y & max_x & max_y & E & L).
  exists ds, min_x, min_y, max_x, max_y. split; [exact E|]. split; [exact L|].
  intros d I D. split; [|split].
  - destruct L as (width & height & parts & B & _). apply (box_holds_all _ _ _ _ _ _ B I).
  - intros part. unfold drawn. rewrite D. tauto.
  - intros svgs. apply render_deleted, D.
Qed.

Lemma kind_is_line (kind : string) :
  kind = "arrow" \/ kind = "line" ->
  is_str (VStr kind) "rectangle" = false /\ is_str (VStr kind) "ellipse" = false /\
  is_str (VStr kind) "arrow" || is_str (VStr kind) "line" = true /\
  is_str (VStr kind) "arrow" = (kind =? "arrow")%string.
Proof. intros [-> | ->]; repeat split; reflexivity. Qed.

Lemma render_line (d : list (string * value)) (kind : string) (middle : list value)
    (x y x1 y1 x2 y2 ax ay bx by_ : value) (svgs : list string) :
  kind = "arrow" \/ kind = "line" ->
  lookup "type" d = Some (VStr kind) ->
  lookup "points" d = Some (VList (VList [x1; y1] :: middle ++ [VList [x2; y2]])) ->
  py_add x x1 = Returns ax -> py_add y y1 = Returns ay ->
  py_add x x2 = Returns bx -> py_add y y2 = Returns by_ ->
  render_primitive cs x y (VDict d) svgs
  = Returns (svgs ++
      [line_markup (py_format cs ax) (py_format cs ay) (py_format cs bx) (py_format cs by_)
         (py_format cs (field d "strokeColor" (VStr "#000")))
         (py_format cs (field d "strokeWidth" (VInt 1)))
         (if (kind =? "arrow")%string then arrowhead else "")])%list.
Proof.
  intros K T P A1 A2 A3 A4.
  destruct (kind_is_line kind K) as (R & E & L & M).
  unfold render_primitive, get_width, get_height. rewrite !py_get_dict.
  cbn [bind]. rewrite (field_found d "type" _ _ T), R, E, L.
  rewrite ?py_get_dict, (field_found d "points" _ _ P). cbn [bind py_len].
  assert (N : (2 <=? Z.of_nat (List.length (VList [x1; y1] :: (middle ++ [VList [x2; y2]])%list)))
              = true).
  { apply Z.leb_le. cbn [List.length]. rewrite length_app. cbn [List.length]. lia. }
  rewrite N. cbn [py_item]. rewrite index_list_first. cbn [bind py_unpack2 py_iter].
  change (VList [x1; y1] :: (middle ++ [VList [x2; y2]])%list)
    with ((VList [x1; y1] :: middle) ++ [VList [x2; y2]])%list.
  rewrite index_list_last.
  cbn [bind py_unpack2 py_iter]. rewrite A1, A2, A3, A4. cbn [bind].
  rewrite M. unfold append_svg, line_markup. rewrite !attr_app.
  destruct (kind =? "arrow")%string; reflexivity.
Qed.

(** C3.  A line or an arrow that is not deleted and whose points are a
    first pair, any points in between and a last pair is drawn as one
    [line] from the first to the last point, each offset by the element's
    place on the canvas [(x - min_x + 40, y - min_y + 40)]; what stands in
    between does not appear in the output.  An arrow carries
    [marker-end="url(#arr)"], a line no marker.  The four coordinates and
    the stroke must be values Python prints.  The arrow with points
    [[0,0],[10,0],[20,0]] at the origin is the one segment from (40, 40) to
    (60, 40); an arrow at (100, 60) beside a rectangle at the origin is the
    segment from (140, 100) to (160, 100), and a line with float points
    runs between the float sums. *)
Theorem line_connects_first_and_last_point :
  excalidraw_to_svg cs (scene [an_arrow])
  = Returns (document_markup "180" "130"
               (line_markup "40" "40" "60" "40" "#000" "1" arrowhead))
  /\ excalidraw_to_svg cs
       (scene [a_rectangle 0 0 50 20;
               an_object "arrow" (VInt 100) (VInt 60)
                 [("points", VList [int_pair 0 0; int_pair 10 5; int_pair 20 0])]])
     = Returns (document_markup "280" "190"
                  (rect_markup "40" "40" "50" "20"
                     ++ line_markup "140" "100" "160" "100" "#000" "1" arrowhead))
  /\ excalidraw_to_svg cs
       (scene [a_rectangle 0 0 50 20;
               an_object "line" (VFloat 100.5) (VFloat 60.25)
                 [("points",
                   VList [float_pair 0 0; float_pair 10.5 5; float_pair 20.25 0.5])]])
     = Returns (document_markup "280.5" "190.25"
                  (rect_markup "40" "40" "50" "20"
                     ++ line_markup "140.5" "100.25" "160.75" "100.75" "#000" "1" ""))
  /\
  forall (d : list (string * value)) (kind : string) (middle : list value)
         (min_x min_y x y x1 y1 x2 y2 ax ay bx by_ : value) (svgs : list string),
    kind = "arrow" \/ kind = "line" ->
    lookup "type" d = Some (VStr kind) ->
    is_deleted (VDict d) = false ->
    lookup "points" d = Some (VList (VList [x1; y1] :: middle ++ [VList [x2; y2]])) ->
    placed min_x (x_of d) x -> placed min_y (y_of d) y ->
    py_add x x1 = Returns ax -> py_add y y1 = Returns ay ->
    py_add x x2 = Returns bx -> py_add y y2 = Returns by_ ->
    forallb printable
      [ax; ay; bx; by_; field d "strokeColor" (VStr "#000");
       field d "strokeWidth" (VInt 1)] = true ->
    render_element cs min_x min_y svgs (VDict d)
    = Returns (svgs ++
        [line_markup (py_format cs ax) (py_format cs ay) (py_format cs bx) (py_format cs by_)
           (py_format cs (field d "strokeColor" (VStr "#000")))
           (py_format cs (field d "strokeWidth" (VInt 1)))
           (if (kind =? "arrow")%string then arrowhead else "")])%list.
Proof.
  split; [reflexivity|]. split; [reflexivity|]. split; [reflexivity|].
  intros d kind middle min_x min_y x y x1 y1 x2 y2 ax ay bx by_ svgs
    K T D P X Y A1 A2 A3 A4 _.
  rewrite (render_element_placed cs min_x min_y d x y svgs D X Y).
  apply (render_line d kind middle x y x1 y1 x2 y2 ax ay bx by_ svgs K T P A1 A2 A3 A4).
Qed.

Lemma line_feeds_counted (s : string) :
  List.length (split_lines s)
  = S (List.length (filter (Ascii.eqb nl_char) (list_ascii_of_string s))).
Proof.
  induction s as [|c s IH]; [reflexivity|].
  cbn [split_lines list_ascii_of_string filter].
  rewrite (Ascii.eqb_sym nl_char c).
  destruct (Ascii.eqb c nl_char).
  - cbn [List.length]. now rewrite IH.
  - destruct (split_lines s) as [|l ls] eqn:E.
    + now apply split_lines_not_nil in E.
    + exact IH.
Qed.

Lemma render_text (d : list (string * value)) (s : string) (x y baseline : value)
    (svgs : list string) :
  lookup "type" d = Some (VStr "text") ->
  field d "text" (VStr "") = VStr s ->
  py_add y (field d "fontSize" (VInt 16)) = Returns baseline ->
  render_primitive cs x y (VDict d) svgs
  = Returns (svgs ++
      [text_markup (py_format cs x) (py_format cs baseline)
         (py_format cs (field d "fontSize" (VInt 16)))
         (py_format cs (field d "strokeColor" (VStr "#000")))
         (stacked_lines (py_format cs x) (split_lines s))])%list.
Proof.
  intros T S B.
  unfold render_primitive, get_width, get_height. rewrite !py_get_dict.
  cbn [bind]. rewrite (field_found d "type" _ _ T).
  change (is_str (VStr "text") "rectangle") with false.
  change (is_str (VStr "text") "ellipse") with false.
  change (is_str (VStr "text") "arrow" || is_str (VStr "text") "line") with false.
  change (is_str (VStr "text") "text") with true.
  cbv iota. rewrite ?py_get_dict, S. cbn [bind]. rewrite B. cbn [bind].
  unfold append_svg, text_markup. rewrite <- replaced_text_is_stacked.
  rewrite !attr_app, !append_assoc. reflexivity.
Qed.

(** C4.  A text element that is not deleted is a [text] anchored at
    [(x, y + fontSize)], for its place [(x, y)] on the canvas, filled with
    the stroke colour, in the sans-serif family, of font size [fontSize];
    its text is cut at the line feeds into one [tspan] per line, each after
    the first with the same [x] and [dy="1.2em"], that is 1.2 times the
    font size below the line before.  There is one line more than there are
    line feeds, so ["a\nb"] gives two stacked lines.  The anchor, the font
    size and the colour must be values Python prints.  The text ["a\nb"] at
    the origin is anchored at (40, 56); at (100, 60) beside a rectangle at
    the origin, in red with font size 20, at (140, 120); with float
    position and font size 12.5 at (140.5, 112.75). *)
Theorem text_is_stacked_lines :
  excalidraw_to_svg cs (scene [a_text ("a" ++ nl ++ "b")])
  = Returns (document_markup "180" "130"
               ("<text x=" ++ dq ++ "40" ++ dq ++ " y=" ++ dq ++ "56" ++ dq
                  ++ " font-size=" ++ dq ++ "16" ++ dq ++ " fill=" ++ dq ++ "#000" ++ dq
                  ++ " font-family=" ++ dq ++ "sans-serif" ++ dq ++ ">"
                  ++ "<tspan>a</tspan>"
                  ++ "<tspan x=" ++ dq ++ "40" ++ dq ++ " dy=" ++ dq ++ "1.2em" ++ dq
                  ++ ">b</tspan>" ++ "</text>"))
  /\ excalidraw_to_svg cs
       (scene [a_rectangle 0 0 50 20;
               an_object "text" (VInt 100) (VInt 60)
                 [("text", VStr ("a" ++ nl ++ "b")); ("strokeColor", VStr "red");
                  ("fontSize", VInt 20)]])
     = Returns (document_markup "280" "190"
                  (rect_markup "40" "40" "50" "20"
                     ++ text_markup "140" "120" "20" "red"
                          (first_tspan "a" ++ next_tspan "140" "b")))
  /\ excalidraw_to_svg cs
       (scene [a_rectangle 0 0 50 20;
               an_object "text" (VFloat 100.5) (VFloat 60.25)
                 [("text", VStr ("a" ++ nl ++ "b")); ("fontSize", VFloat 12.5)]])
     = Returns (document_markup "280.5" "190.25"
                  (rect_markup "40" "40" "50" "20"
                     ++ text_markup "140.5" "112.75" "12.5" "#000"
                          (first_tspan "a" ++ next_tspan "140.5" "b")))
  /\
  forall (d : list (string * value)) (s : string) (min_x min_y x y baseline : value)
         (svgs : list string),
    lookup "type" d = Some (VStr "text") ->
    is_deleted (VDict d) = false ->
    field d "text" (VStr "") = VStr s ->
    placed min_x (x_of d) x -> placed min_y (y_of d) y ->
    py_add y (field d "fontSize" (VInt 16)) = Returns baseline ->
    forallb printable
      [x; baseline; field d "fontSize" (VInt 16); field d "strokeColor" (VStr "#000")]
    = true ->
    render_element cs min_x min_y svgs (VDict d)
    = Returns (svgs ++
        [text_markup (py_format cs x) (py_format cs baseline)
           (py_format cs (field d "fontSize" (VInt 16)))
           (py_format cs (field d "strokeColor" (VStr "#000")))
           (stacked_lines (py_format cs x) (split_lines s))])%list
    /\ List.length (split_lines s)
       = S (List.length (filter (Ascii.eqb nl_char) (list_ascii_of_string s))).
Proof.
  split; [reflexivity|]. split; [reflexivity|]. split; [reflexivity|].
  intros d s min_x min_y x y baseline svgs T D S X Y B _. split.
  - rewrite (render_element_placed cs min_x min_y d x y svgs D X Y).
    apply (render_text d s x y baseline svgs T S B).
  - apply line_feeds_counted.
Qed.


(** C10.  A line or an arrow with an explicit list of fewer than two points
    appends nothing (the loop goes on with [svgs] unchanged).  Its points
    play no part in the bounds: whenever the synthesizer returns a document
    for a non-empty list of elements, every element, drawn or not, lies
    inside the bounding box the canvas is computed from by its [x], [y],
    [x + width] and [y + height], with width 100 and height 50 when these
    are absent.  A line with the single point [[0,0]] at (300, 200) beside a
    rectangle at the origin stretches the canvas to 480 by 330 and leaves
    the rectangle alone in the body; likewise an arrow without any point at
    (300.5, 200.25). *)
Theorem short_points_draw_nothing :
  (forall (d : list (string * value)) (kind : string) (pts : list value)
          (min_x min_y x y : value) (svgs : list string),
     kind = "arrow" \/ kind = "line" ->
     lookup "type" d = Some (VStr kind) ->
     lookup "points" d = Some (VList pts) ->
     (List.length pts < 2)%nat ->
     is_deleted (VDict d) = false ->
     local_position min_x min_y (VDict d) = Returns (x, y) ->
     render_element cs min_x min_y svgs (VDict d) = Returns svgs)
  /\
  (forall (data : value) (elements : list value) (svg : string),
     py_get data "elements" (VList []) = Returns (VList elements) ->
     elements <> [] ->
     excalidraw_to_svg cs data = Returns svg ->
     exists (ds : list (list (string * value))) (min_x min_y max_x max_y : value),
       elements = map VDict ds
       /\ laid_out cs ds min_x min_y max_x max_y svg
       /\ forall d : list (string * value),
            In d ds -> within_box d min_x min_y max_x max_y)
  /\
  (forall d : list (string * value),
     lookup "width" d = None -> lookup "height" d = None ->
     forall r b : value,
       (right_of d r <-> py_add (x_of d) (VInt 100) = Returns r)
       /\ (bottom_of d b <-> py_add (y_of d) (VInt 50) = Returns b))
  /\ excalidraw_to_svg cs
       (scene [an_object "line" (VInt 300) (VInt 200) [("points", VList [int_pair 0 0])];
               a_rectangle 0 0 50 20])
     = Returns (document_markup "480" "330" (rect_markup "40" "40" "50" "20"))
  /\ excalidraw_to_svg cs
       (scene [an_object "arrow" (VFloat 300.5) (VFloat 200.25) [("points", VList [])];
               a_rectangle 0 0 50 20])
     = Returns (document_markup "480.5" "330.25" (rect_markup "40" "40" "50" "20")).
Proof.
  split; [|split; [|split; [|split; reflexivity]]].
  - intros d kind pts min_x min_y x y svgs K T P N D L.
    destruct (kind_is_line kind K) as (R & E & Li & _).
    unfold render_element. unfold is_deleted in D. rewrite py_get_dict in *.
    cbn [bind]. rewrite D, L. cbn [bind].
    unfold render_primitive, get_width, get_height. rewrite !py_get_dict.
    cbn [bind]. rewrite (field_found d "type" _ _ T), R, E, Li.
    rewrite ?py_get_dict, (field_found d "points" _ _ P). cbn [bind py_len].
    destruct (Z.leb_spec 2 (Z.of_nat (List.length pts))); [lia | reflexivity].
  - intros data elements svg G N H.
    destruct (synthesis_returns cs data elements svg G N H)
      as (ds & min_x & min_y & max_x & max_y & E & L).
    exists ds, min_x, min_y, max_x, max_y. split; [exact E|]. split; [exact L|].
    intros d I. destruct L as (width & height & parts & B & _).
    apply (box_holds_all _ _ _ _ _ _ B I).
  - intros d W H r b. unfold right_of, bottom_of, width_of, height_of.
    rewrite (field_absent d "width" _ W), (field_absent d "height" _ H). tauto.
Qed.

End Primitives.

(** ** The swapped extension *)

Lemma prefix_split (p s : string) : prefix p s = true -> exists b, s = p ++ b.
Proof.
  revert s. induction p as [|a p IH]; intros s H.
  - exists s. reflexivity.
  - destruct s as [|c s]; [discriminate H|].
    rewrite prefix_cons in H. apply andb_true_iff in H as (E & H).
    apply Ascii.eqb_eq in E as <-. destruct (IH s H) as (b & ->).
    exists b. reflexivity.
Qed.

Lemma append_length (a b : string) :
  String.length (a ++ b) = (String.length a + String.length b)%nat.
Proof. induction a as [|c a IH]; simpl; [reflexivity | now rewrite IH]. Qed.

(** When [.png] occurs only as the end of the path, replacing it swaps the
    extension. *)
Lemma replace_extension (stem : string) :
  (forall a b, stem ++ ".png" = a ++ ".png" ++ b -> b = "") ->
  str_replace ".png" ".svg" (stem ++ ".png") = stem ++ ".svg".
Proof.
  unfold str_replace. induction stem as [|c stem IH]; intros H.
  - reflexivity.
  - change (String c stem ++ ".png") with (String c (stem ++ ".png")) in *.
    cbn [replace_from].
    destruct (prefix ".png" (String c (stem ++ ".png"))) eqn:P.
    + apply prefix_split in P as (b & P).
      pose proof (H "" b P) as ->.
      apply (f_equal String.length) in P. simpl in P. rewrite append_length in P.
      simpl in P. lia.
    + change (String c stem ++ ".svg") with (String c (stem ++ ".svg")). f_equal.
      apply IH. intros a b E. apply (H (String c a) b). simpl. now rewrite E.
Qed.

(** ** The trace *)

Lemma trace_log (ev : event) (w : world) : trace (log ev w) = (trace w ++ [ev])%list.
Proof. reflexivity. Qed.

Lemma trace_write (path content : string) (w : world) :
  trace (write path content w) = trace w.
Proof. reflexivity. Qed.

Lemma files_log (ev : event) (w : world) : files (log ev w) = files w.
Proof. reflexivity. Qed.

Lemma files_write_same (path content : string) (w : world) :
  files (write path content w) path = Some content.
Proof. unfold write. simpl. now rewrite String.eqb_refl. Qed.

Lemma In_last {A : Type} (a : A) (l : list A) : In a (l ++ [a]).
Proof. apply in_or_app. right. left. reflexivity. Qed.

Lemma In_earlier {A : Type} (a b : A) (l : list A) : In a l -> In a (l ++ [b]).
Proof. intros H. apply in_or_app. left. exact H. Qed.

Create HintDb trace_db.
#[local] Hint Resolve In_last In_earlier : trace_db.

Ltac trace_solver :=
  repeat first [rewrite trace_log | rewrite trace_write]; auto 10 with trace_db.

(** ** Running the chain *)

Lemma attempts_app (t u : list event) : attempts (t ++ u) = (attempts t ++ attempts u)%list.
Proof.
  induction t as [|[to line | s] t IH]; cbn [attempts app]; [reflexivity | exact IH|].
  now rewrite IH.
Qed.

Lemma printed_on_app (to : stream) (t u : list event) :
  printed_on to (t ++ u) = (printed_on to t ++ printed_on to u)%list.
Proof.
  induction t as [|[[] line | s] t IH]; cbn [printed_on app]; try exact IH; try reflexivity;
    destruct to; cbn [app]; now rewrite ?IH.
Qed.

Lemma files_write_other (path content p : string) (w : world) :
  p <> path -> files (write path content w) p = files w p.
Proof.
  intros N. unfold write. cbn [files].
  destruct (String.eqb_spec p path); [contradiction | reflexivity].
Qed.

Ltac settled := first [eassumption | reflexivity].

Lemma outcome_inj {A : Type} (r r' : A) (w w' : world) :
  (r, w) = (r', w') -> r = r' /\ w = w'.
Proof. intros H. split; [exact (f_equal fst H) | exact (f_equal snd H)]. Qed.

Lemma contains_comma_cons (c : ascii) (s : string) :
  contains "," (String c s) = Ascii.eqb c comma || contains "," s.
Proof.
  cbn [contains]. change "," with (String comma "").
  rewrite prefix_cons, prefix_empty, andb_true_r. now rewrite Ascii.eqb_sym.
Qed.

(** Splitting takes the first comma: the header is what stands before it,
    the payload all that follows, further commas included. *)
Lemma split_once_first_comma (header payload : string) :
  contains "," header = false ->
  split_once (header ++ "," ++ payload) = Some (header, payload).
Proof.
  induction header as [|c header IH]; intros C.
  - reflexivity.
  - rewrite contains_comma_cons in C. apply orb_false_iff in C as (C1 & C2).
    change (String c header ++ "," ++ payload) with (String c (header ++ "," ++ payload)).
    cbn [split_once]. now rewrite C1, (IH C2).
Qed.

Lemma split_once_parts (s before after : string) :
  split_once s = Some (before, after) ->
  s = before ++ "," ++ after /\ contains "," before = false.
Proof.
  revert before. induction s as [|c s IH]; intros before H; [discriminate H|].
  cbn [split_once] in H. destruct (Ascii.eqb c comma) eqn:E.
  - apply Ascii.eqb_eq in E. subst c. injection H as <- <-. split; reflexivity.
  - destruct (split_once s) as [[b a]|]; [|discriminate H].
    injection H as <- <-. destruct (IH b eq_refl) as (-> & C). split; [reflexivity|].
    now rewrite contains_comma_cons, E, C.
Qed.

(** What the primary renderer leaves behind: it records nothing in the
    trace, it writes to no path but the output path, and it returns [True]
    only with the decoded payload of a data URL at the output path. *)
Lemma renderer_world (br : browser) (data : value) (output : string) (width : Z)
    (w w' : world) (r : result bool) :
  excalidraw_to_png_playwright br data output width w = (r, w') ->
  trace w' = trace w
  /\ (forall p : string, p <> output -> files w' p = files w p)
  /\ (r = Returns true ->
      exists header payload png : string,
        window_result br data = PageResult (VStr (header ++ "," ++ payload))
        /\ contains "," header = false
        /\ b64decode br payload = Some png
        /\ files w' output = Some png).
Proof.
  unfold excalidraw_to_png_playwright.
  destruct (playwright_installed br); cbn [negb].
  2:{ intros H. apply outcome_inj in H as (<- & <-). repeat split. discriminate. }
  destruct (window_result br data) as [data_url | e] eqn:R.
  2:{ intros H. apply outcome_inj in H as (<- & <-). repeat split. discriminate. }
  destruct (truthy data_url).
  2:{ intros H. apply outcome_inj in H as (<- & <-). repeat split. discriminate. }
  destruct data_url as [| | | |s| |];
    try (intros H; apply outcome_inj in H as (<- & <-); repeat split; discriminate).
  destruct (split_once s) as [[header payload]|] eqn:S.
  2:{ intros H. apply outcome_inj in H as (<- & <-). repeat split. discriminate. }
  destruct (split_once_parts s header payload S) as (-> & C).
  destruct (opens br output) eqn:O.
  2:{ intros H. apply outcome_inj in H as (<- & <-). repeat split. discriminate. }
  cbv zeta. destruct (b64decode br payload) as [png|] eqn:D; intros H;
    apply outcome_inj in H as (<- & <-).
  - split; [reflexivity|]. split.
    + intros p N. now rewrite !files_write_other.
    + intros _. exists header, payload, png. repeat split; try assumption.
      apply files_write_same.
  - split; [reflexivity|]. split.
    + intros p N. now rewrite !files_write_other.
    + discriminate.
Qed.

(** [convert] after the primary renderer: it settles the run, or it gives
    way to the fallback. *)
Lemma convert_gives_way (rt : runtime) (input output : string) (width : Z)
    (w w1 : world) (data : value) (r : result bool) :
  load_json rt input = Returns data ->
  excalidraw_to_png_playwright (renderer rt) data output width
    (log (Attempt PrimaryRenderer) w) = (r, w1) ->
  gives_way rt input output r = true ->
  convert rt input output width w
  = svg_fallback rt data input output width (fallback_start rt data output r w1).
Proof.
  intros L P G. unfold convert. rewrite L. cbv zeta. rewrite P.
  destruct r as [[|]|e]; cbn [gives_way fallback_start] in *.
  - apply negb_true_iff in G. now rewrite G.
  - reflexivity.
  - now rewrite G.
Qed.

Lemma convert_settled (rt : runtime) (input output : string) (width : Z)
    (w w1 : world) (data : value) (r : result bool) :
  load_json rt input = Returns data ->
  excalidraw_to_png_playwright (renderer rt) data output width
    (log (Attempt PrimaryRenderer) w) = (r, w1) ->
  gives_way rt input output r = false ->
  convert rt input output width w
  = match r with
    | Returns _ => (Returns true, log (Printed Stdout (success_line input output)) w1)
    | Raises e => (Raises e, w1)
    end.
Proof.
  intros L P G. unfold convert. rewrite L. cbv zeta. rewrite P.
  destruct r as [[|]|e]; cbn [gives_way] in *.
  - apply negb_false_iff in G. now rewrite G.
  - discriminate G.
  - now rewrite G.
Qed.

Lemma files_fallback_start (rt : runtime) (data : value) (output : string)
    (r : result bool) (w : world) :
  files (fallback_start rt data output r w) = files w.
Proof. destruct r as [[|]|e]; reflexivity. Qed.

(** Running [convert]: the case analysis follows the calls of the code, one
    collaborator after the other. *)
Ltac scrutinee t :=
  lazymatch t with
  | match ?x with _ => _ end => scrutinee x
  | _ => t
  end.

Ltac run_step H :=
  lazymatch type of H with
  | match ?x with _ => _ end = _ =>
      let s := scrutinee x in
      lazymatch s with
      | is_Exception ?e => destruct e; cbn [is_Exception] in H
      | is_ImportError ?e => destruct e; cbn [is_ImportError] in H
      | _ => destruct s eqn:?
      end;
      cbv beta iota zeta in H
  end.

Ltac run_chain H :=
  unfold main, convert, svg_fallback, svg_to_png in H; cbv beta iota zeta in H;
  repeat run_step H.

(** ** The fallback chain *)


(** The fallback when it returns: what it recorded. *)
Lemma svg_fallback_returns (rt : runtime) (data : value) (input output : string)
    (width : Z) (svg : string) (w0 : world) :
  excalidraw_to_svg (container_repr rt) data = Returns svg ->
  (forall e, cairosvg rt svg output width = RasterRaises e ->
             e = ImportError
             /\ writable rt (str_replace ".png" ".svg" output) = true
             /\ file_encodes rt svg = true) ->
  stdout_encodes rt (success_line input output ++ " (SVG fallback)") = true ->
  exists (ok : bool) (w' : world),
    svg_fallback rt data input output width w0 = (Returns ok, w')
    /\ (forall ev, In ev (trace w0) -> In ev (trace w'))
    /\ In (Attempt Synthesizer) (trace w')
    /\ In (Attempt RasterLibrary) (trace w')
    /\ (cairosvg rt svg output width = RasterRaises ImportError ->
          In (Attempt VectorEditor) (trace w')
          /\ forall e,
               inkscape rt (str_replace ".png" ".svg" output) output width
               = RasterRaises e ->
               ok = false
               /\ In (Printed Stderr ("Saved SVG: " ++ str_replace ".png" ".svg" output))
                    (trace w')).
Proof.
  intros S C O. unfold svg_fallback, svg_to_png. rewrite S. cbv zeta.
  destruct (cairosvg rt svg output width) as [png | e] eqn:EC.
  - rewrite O. eexists _, _. split; [reflexivity|].
    repeat split; try discriminate; intros; trace_solver.
  - destruct (C e eq_refl) as (-> & W & F). cbn [is_ImportError]. rewrite W, F.
    destruct (inkscape rt (str_replace ".png" ".svg" output) output width)
      as [png | e'] eqn:EI.
    + rewrite O. eexists _, _. split; [reflexivity|].
      repeat split; try discriminate; intros; trace_solver.
    + eexists _, _. split; [reflexivity|].
      repeat split; intros; trace_solver.
Qed.




(** ** Character classes *)

Lemma all_chars_app (p : ascii -> bool) (a b : string) :
  all_chars p (a ++ b) = all_chars p a && all_chars p b.
Proof.
  induction a as [|c a IH]; simpl; [reflexivity|]. now rewrite IH, andb_assoc.
Qed.

Lemma all_chars_impl (p q : ascii -> bool) (s : string) :
  (forall c, p c = true -> q c = true) -> all_chars p s = true -> all_chars q s = true.
Proof.
  intros I. induction s as [|c s IH]; simpl; [reflexivity|].
  intros H. apply andb_true_iff in H as (H1 & H2).
  now rewrite (I c H1), (IH H2).
Qed.

(** Deciding a fact about every character by looking at all 256. *)
Ltac by_cases_on_char c :=
  destruct c as [[] [] [] [] [] [] [] []]; vm_compute; intros; congruence.

Lemma name_char_not_lt (c : ascii) : is_name_char c = true -> Ascii.eqb c "<" = false.
Proof. by_cases_on_char c. Qed.

Lemma name_start_is_name_char (c : ascii) : is_name_start c = true -> is_name_char c = true.
Proof. unfold is_name_char. now intros ->. Qed.

Lemma space_char_not_lt (c : ascii) : is_space_char c = true -> Ascii.eqb c "<" = false.
Proof. by_cases_on_char c. Qed.

Lemma att_value_char_not_lt (c : ascii) :
  is_att_value_char c = true -> Ascii.eqb c "<" = false.
Proof. by_cases_on_char c. Qed.

Lemma text_char_not_lt (c : ascii) : is_text_char c = true -> Ascii.eqb c "<" = false.
Proof. by_cases_on_char c. Qed.

(** ** A [<] opens a tag *)

Lemma tags_open_app (a b : string) :
  tags_open_properly a = true -> tags_open_properly b = true ->
  tags_open_properly (a ++ b) = true.
Proof.
  induction a as [|c a IH]; simpl; intros Ha Hb; [exact Hb|].
  apply andb_true_iff in Ha as (H1 & H2). rewrite (IH H2 Hb), andb_true_r.
  destruct (Ascii.eqb c "<"); [|reflexivity].
  destruct a as [|d a]; [discriminate H1 | exact H1].
Qed.

Lemma tags_open_without_lt (p : ascii -> bool) (s : string) :
  (forall c, p c = true -> Ascii.eqb c "<" = false) ->
  all_chars p s = true -> tags_open_properly s = true.
Proof.
  intros N. induction s as [|c s IH]; simpl; [reflexivity|].
  intros H. apply andb_true_iff in H as (H1 & H2).
  now rewrite (N c H1), (IH H2).
Qed.

Lemma tags_open_name (n : string) : is_name n = true -> tags_open_properly n = true.
Proof.
  destruct n as [|c n]; [discriminate|]. simpl. intros H.
  apply andb_true_iff in H as (H1 & H2).
  apply (tags_open_without_lt is_name_char (String c n) name_char_not_lt). simpl.
  now rewrite (name_start_is_name_char c H1), H2.
Qed.

(** After [<] or [</], a name opens the tag properly. *)
Lemma tags_open_start_tag (n rest : string) :
  is_name n = true -> tags_open_properly rest = true ->
  tags_open_properly ("<" ++ n ++ rest) = true.
Proof.
  intros N R. pose proof (tags_open_app n rest (tags_open_name n N) R) as T.
  destruct n as [|c n]; [discriminate|]. simpl in N.
  apply andb_true_iff in N as (N1 & _).
  change ("<" ++ String c n ++ rest) with (String "<" (String c n ++ rest)).
  cbn [tags_open_properly]. rewrite T. simpl. now rewrite N1.
Qed.

Lemma tags_open_end_tag (n rest : string) :
  is_name n = true -> tags_open_properly rest = true ->
  tags_open_properly ("</" ++ n ++ rest) = true.
Proof.
  intros N R. pose proof (tags_open_app n rest (tags_open_name n N) R) as T.
  change ("</" ++ n ++ rest) with (String "<" (String "/" (n ++ rest))).
  cbn [tags_open_properly]. now rewrite T.
Qed.

Lemma tags_open_space (sp : string) : is_space sp = true -> tags_open_properly sp = true.
Proof. apply tags_open_without_lt, space_char_not_lt. Qed.

Lemma tags_open_att_value (v : string) :
  is_att_value v = true -> tags_open_properly v = true.
Proof.
  unfold is_att_value. intros H. apply andb_true_iff in H as (H & _).
  revert H. apply tags_open_without_lt, att_value_char_not_lt.
Qed.

Lemma tags_open_char_data (t : string) :
  is_char_data t = true -> tags_open_properly t = true.
Proof.
  unfold is_char_data. intros H. apply andb_true_iff in H as (H & _).
  apply andb_true_iff in H as (H & _).
  revert H. apply tags_open_without_lt, text_char_not_lt.
Qed.

Lemma tags_open_attributes (names : list string) (a : string) :
  attributes names a -> tags_open_properly a = true.
Proof.
  induction 1 as [|sp n v rest names Sp _ N V _ _ IH]; [reflexivity|].
  apply tags_open_app; [apply tags_open_space, Sp|].
  apply tags_open_app; [apply tags_open_name, N|].
  apply tags_open_app; [reflexivity|].
  apply tags_open_app; [reflexivity|].
  apply tags_open_app; [apply tags_open_att_value, V|].
  apply tags_open_app; [reflexivity | exact IH].
Qed.

Ltac tags_step :=
  apply tags_open_app;
  [solve [reflexivity | eauto using tags_open_space, tags_open_name,
            tags_open_att_value, tags_open_char_data, tags_open_attributes] | ].

Lemma tags_open_nodes (s : string) : nodes s -> tags_open_properly s = true.
Proof.
  induction 1 as [| n a sp text rest names N A Sp T _ IH
                  | n a sp sp' text0 inner text rest names N A Sp T0 _ IHi Sp' T _ IHr].
  - reflexivity.
  - apply tags_open_start_tag; [exact N|]. do 4 tags_step. exact IH.
  - apply tags_open_start_tag; [exact N|]. do 5 tags_step.
    apply tags_open_end_tag; [exact N|]. do 3 tags_step. exact IHr.
Qed.

Lemma tags_open_element (s : string) : element s -> tags_open_properly s = true.
Proof.
  destruct 1 as [n a sp names N A Sp | n a sp sp' text0 inner names N A Sp T0 I Sp'].
  - apply tags_open_start_tag; [exact N|]. do 2 tags_step. reflexivity.
  - apply tags_open_start_tag; [exact N|]. do 4 tags_step.
    apply tags_open_app; [apply tags_open_nodes, I|].
    apply tags_open_end_tag; [exact N|]. tags_step. reflexivity.
Qed.

Lemma well_formed_tags_open (s : string) : well_formed s -> tags_open_properly s = true.
Proof.
  intros (root & sp & E & Sp & ->).
  apply tags_open_app; [apply tags_open_element, E | apply tags_open_space, Sp].
Qed.

(** C6 as stated fails: the text of a text element is copied into the markup
    as it is, so a text made of [<] gives markup in which a [<] is followed by
    another [<], not by a name. *)
Lemma unescaped_text_breaks_markup :
  ~ (forall (cs : value -> string) (data : value) (svg : string),
       excalidraw_to_svg cs data = Returns svg -> well_formed svg).
Proof.
  intros H.
  pose proof (H no_container_str (scene [a_text "<"]) _ eq_refl) as W.
  apply well_formed_tags_open in W. vm_compute in W. discriminate W.
Qed.

(** ** Formatted numbers are made of harmless characters *)

Lemma number_char_is_att_value_char (c : ascii) :
  is_number_char c = true -> is_att_value_char c = true.
Proof. by_cases_on_char c. Qed.

Lemma number_char_is_one_byte (c : ascii) :
  is_number_char c = true -> utf8_step Boundary c = Some Boundary.
Proof. by_cases_on_char c. Qed.

(** ** Characters of more than one byte *)

Lemma utf8_run_app (q : utf8_state) (a b : string) :
  utf8_run q (a ++ b)
  = match utf8_run q a with
    | Some q' => utf8_run q' b
    | None => None
    end.
Proof.
  revert q. induction a as [|c a IH]; intros q; cbn [append utf8_run]; [reflexivity|].
  destruct (utf8_step q c); [apply IH | reflexivity].
Qed.

Lemma xml_chars_app (a b : string) :
  xml_chars a = true -> xml_chars b = true -> xml_chars (a ++ b) = true.
Proof.
  unfold xml_chars. rewrite utf8_run_app.
  destruct (utf8_run Boundary a) as [[]|]; try discriminate. auto.
Qed.

Lemma one_byte_chars (p : ascii -> bool) (s : string) :
  (forall c, p c = true -> utf8_step Boundary c = Some Boundary) ->
  all_chars p s = true -> xml_chars s = true.
Proof.
  intros P. unfold xml_chars. induction s as [|c s IH]; cbn [all_chars utf8_run].
  - reflexivity.
  - intros H. apply andb_true_iff in H as (H1 & H2). rewrite (P c H1). auto.
Qed.

(** A line feed stands between two characters only. *)
Lemma line_feed_at_boundary (q q' : utf8_state) (c : ascii) :
  Ascii.eqb c nl_char = true -> utf8_step q c = Some q' ->
  q = Boundary /\ q' = Boundary.
Proof.
  intros E. apply Ascii.eqb_eq in E. subst c.
  destruct q; vm_compute; intros H; try discriminate H.
  injection H as <-. auto.
Qed.

Lemma lines_are_xml_chars (s : string) (q : utf8_state) (l : string) (ls : list string) :
  utf8_run q s = Some Boundary -> split_lines s = l :: ls ->
  utf8_run q l = Some Boundary /\ Forall (fun l => xml_chars l = true) ls.
Proof.
  revert q l ls. induction s as [|c s IH]; intros q l ls R S.
  - cbn [split_lines] in S. injection S as <- <-. auto.
  - cbn [utf8_run] in R. destruct (utf8_step q c) as [q'|] eqn:St; [|discriminate R].
    cbn [split_lines] in S. destruct (Ascii.eqb c nl_char) eqn:E.
    + injection S as <- <-.
      destruct (line_feed_at_boundary q q' c E St) as (-> & ->).
      split; [reflexivity|].
      destruct (split_lines s) as [|l' ls'] eqn:S'.
      * constructor.
      * destruct (IH Boundary l' ls' R eq_refl) as (L & Ls).
        constructor; [|exact Ls]. unfold xml_chars. now rewrite L.
    + destruct (split_lines s) as [|l' ls'] eqn:S'.
      * now apply split_lines_not_nil in S'.
      * injection S as <- <-. destruct (IH q' l' ls' R eq_refl) as (L & Ls).
        split; [|exact Ls]. cbn [utf8_run]. now rewrite St.
Qed.

Lemma digit_is_number_char (c : ascii) : is_digit c = true -> is_number_char c = true.
Proof. unfold is_number_char. now intros ->. Qed.

Lemma all_chars_substring (p : ascii -> bool) (s : string) (n m : nat) :
  all_chars p s = true -> all_chars p (substring n m s) = true.
Proof.
  revert n m. induction s as [|c s IH]; intros n m H.
  - destruct n, m; reflexivity.
  - simpl in H. apply andb_true_iff in H as (H1 & H2).
    destruct n as [|n]; destruct m as [|m]; simpl; auto.
    now rewrite H1, (IH 0%nat m H2).
Qed.

Lemma uint_digits (d : Decimal.uint) :
  all_chars is_digit (NilEmpty.string_of_uint d) = true.
Proof. induction d; simpl; auto. Qed.

Lemma int_str_chars (z : Z) : all_chars is_number_char (int_str z) = true.
Proof.
  assert (U : forall d, all_chars is_number_char (NilZero.string_of_uint d) = true).
  { intros d. destruct d; try reflexivity;
      apply (all_chars_impl is_digit _ _ digit_is_number_char), (uint_digits (_ d)). }
  unfold int_str. destruct (Z.to_int z) as [d | d]; simpl.
  - apply U.
  - apply U.
Qed.

Lemma zeros_chars (n : nat) : all_chars is_number_char (zeros n) = true.
Proof. induction n; simpl; auto. Qed.

Lemma exp_str_chars (x : Z) : all_chars is_number_char (exp_str x) = true.
Proof.
  unfold exp_str. rewrite !all_chars_app, int_str_chars.
  destruct (x <? 0), (Z.abs x <? 10); reflexivity.
Qed.

Lemma float_digits_chars (m : positive) (e : Z) :
  all_chars is_number_char (float_digits m e) = true.
Proof.
  unfold float_digits.
  destruct (shortest_decimal m e) as [c0 q0].
  destruct (strip_zeros 400 c0 q0) as [c q].
  pose proof (int_str_chars c) as D.
  repeat match goal with
         | |- context [if ?b then _ else _] => destruct b
         end;
    unfold str_take, str_drop;
    rewrite ?all_chars_app, ?exp_str_chars, ?zeros_chars, ?D,
      ?(all_chars_substring _ _ _ _ D); reflexivity.
Qed.

Lemma float_repr_chars (f : float) : all_chars is_number_char (float_repr f) = true.
Proof.
  unfold float_repr. destruct (Prim2SF f) as [s | s | | s m e].
  - destruct s; reflexivity.
  - destruct s; reflexivity.
  - reflexivity.
  - rewrite all_chars_app, float_digits_chars. destruct s; reflexivity.
Qed.

Section Formatting.

Variable cs : value -> string.

(** A number, however it is printed, can stand in an attribute value. *)
Lemma numeric_format_safe (v : value) :
  numeric v = true -> is_att_value (py_format cs v) = true.
Proof.
  intros N.
  assert (C : all_chars is_number_char (py_format cs v) = true).
  { destruct v as [|b|z|f|s|l|d]; try discriminate N; simpl.
    - destruct b; reflexivity.
    - apply int_str_chars.
    - apply float_repr_chars. }
  unfold is_att_value. apply andb_true_iff. split.
  - apply (all_chars_impl is_number_char _ _ number_char_is_att_value_char), C.
  - apply (one_byte_chars is_number_char _ number_char_is_one_byte), C.
Qed.

End Formatting.

(** ** Building well-formed markup *)

Lemma attrs_then_app (l : list (string * string)) (tail : string) :
  attrs_then l tail = attr_string l ++ tail.
Proof.
  unfold attrs_then, attr_string.
  induction l as [|p l IH]; cbn [fold_right]; [reflexivity|].
  now rewrite IH, append_assoc.
Qed.

Lemma not_in_names (n : string) (names : list string) :
  existsb (String.eqb n) names = false -> ~ In n names.
Proof.
  intros H I. assert (T : existsb (String.eqb n) names = true).
  { apply existsb_exists. exists n. split; [exact I | apply String.eqb_refl]. }
  congruence.
Qed.

Lemma attributes_built (l : list (string * string)) :
  good_names l = true -> safe_values l -> attributes (map fst l) (attr_string l).
Proof.
  unfold good_names, attr_string.
  induction l as [|[n v] l IH]; cbn [map fst snd fold_right names_distinct forallb];
    intros G S.
  - constructor.
  - apply andb_true_iff in G as (G1 & G2).
    apply andb_true_iff in G1 as (D1 & D2). apply andb_true_iff in G2 as (N1 & N2).
    apply negb_true_iff in D1. inversion S as [|? ? V S']; subst. simpl in V.
    rewrite attr_app. apply attributes_more; auto using not_in_names.
    + discriminate.
    + apply IH; [now rewrite D2, N2 | exact S'].
Qed.

Lemma element_empty_built (n : string) (l : list (string * string)) (sp : string) :
  is_name n = true -> good_names l = true -> safe_values l -> is_space sp = true ->
  element ("<" ++ n ++ attrs_then l (sp ++ "/>")).
Proof.
  intros N G S Sp. rewrite attrs_then_app.
  apply (element_empty n (attr_string l) sp (map fst l) N (attributes_built l G S) Sp).
Qed.

Lemma element_tagged_built (n : string) (l : list (string * string))
    (text0 inner : string) :
  is_name n = true -> good_names l = true -> safe_values l ->
  is_char_data text0 = true -> nodes inner ->
  element ("<" ++ n ++ attrs_then l (">" ++ text0 ++ inner ++ "</" ++ n ++ ">")).
Proof.
  intros N G S T I. rewrite attrs_then_app.
  apply (element_tagged n (attr_string l) "" "" text0 inner (map fst l) N
           (attributes_built l G S) eq_refl T I eq_refl).
Qed.

Lemma nodes_content (s : string) : nodes s -> content s.
Proof. intros H. exists "", s. repeat split; auto. Qed.

Lemma content_empty : content "".
Proof. apply nodes_content. constructor. Qed.

(** An element, then content, is a sequence of nodes. *)
Lemma nodes_element_content (e c : string) : element e -> content c -> nodes (e ++ c).
Proof.
  intros [n a sp names N A Sp | n a sp sp' text0 inner names N A Sp T0 I Sp']
    (text & ns & T & Ns & ->).
  - replace (("<" ++ n ++ a ++ sp ++ "/>") ++ text ++ ns)
      with ("<" ++ n ++ a ++ sp ++ "/>" ++ text ++ ns)
      by (now rewrite !append_assoc).
    now apply (nodes_empty_element n a sp text ns names).
  - replace (("<" ++ n ++ a ++ sp ++ ">" ++ text0 ++ inner ++ "</" ++ n ++ sp' ++ ">")
               ++ text ++ ns)
      with ("<" ++ n ++ a ++ sp ++ ">" ++ text0 ++ inner ++ "</" ++ n ++ sp' ++ ">"
              ++ text ++ ns)
      by (now rewrite !append_assoc).
    now apply (nodes_element n a sp sp' text0 inner text ns names).
Qed.

Lemma content_elements (es : list string) (c : string) :
  Forall element es -> content c -> content (String.concat "" es ++ c).
Proof.
  induction 1 as [|e es E _ IH]; intros C.
  - exact C.
  - rewrite concat_empty_cons, append_assoc.
    apply nodes_content, nodes_element_content; auto.
Qed.

Lemma char_data_after_nl (t : string) :
  is_char_data t = true -> is_char_data (nl ++ t) = true.
Proof.
  unfold is_char_data. intros H. apply andb_true_iff in H as (H & X).
  apply andb_true_iff in H as (H1 & H2).
  rewrite (xml_chars_app nl t eq_refl X), andb_true_r.
  change (nl ++ t) with (String nl_char t). cbn [all_chars has_cdata_end].
  rewrite H1. unfold nl_char at 2. rewrite prefix_cons.
  apply negb_true_iff in H2. now rewrite H2.
Qed.

Lemma content_after_nl (c : string) : content c -> content (nl ++ c).
Proof.
  intros (text & ns & T & Ns & ->). exists (nl ++ text), ns.
  repeat split; auto using char_data_after_nl.
Qed.

(** ** The lines of a text *)

Lemma prefix_app (p a b : string) : prefix p a = true -> prefix p (a ++ b) = true.
Proof.
  revert a. induction p as [|c p IH]; intros a H.
  - apply prefix_empty.
  - destruct a as [|d a]; [discriminate H|].
    change (String d a ++ b) with (String d (a ++ b)).
    rewrite prefix_cons in *. apply andb_true_iff in H as (H1 & H2).
    now rewrite H1, (IH a H2).
Qed.

Lemma first_line_prefix (s l : string) (ls : list string) :
  split_lines s = l :: ls -> exists tail, s = l ++ tail.
Proof.
  revert l ls. induction s as [|c s IH]; simpl; intros l ls H.
  - injection H as <- _. exists "". reflexivity.
  - destruct (Ascii.eqb c nl_char).
    + injection H as <- _. exists (String c s). reflexivity.
    + destruct (split_lines s) as [|l' ls'] eqn:E.
      * now apply split_lines_not_nil in E.
      * injection H as <- _. destruct (IH l' ls' eq_refl) as (tail & ->).
        exists tail. reflexivity.
Qed.

Lemma lines_are_plain (s : string) :
  all_chars is_text_char s && negb (has_cdata_end s) = true ->
  Forall (fun l => all_chars is_text_char l && negb (has_cdata_end l) = true)
    (split_lines s).
Proof.
  induction s as [|c s IH]; intros H.
  - repeat constructor.
  - cbn [all_chars has_cdata_end] in H.
    apply andb_true_iff in H as (H1 & H2). apply andb_true_iff in H1 as (C & A).
    apply negb_true_iff, orb_false_iff in H2 as (P & E).
    assert (R : all_chars is_text_char s && negb (has_cdata_end s) = true).
    { now rewrite A, E. }
    specialize (IH R). cbn [split_lines].
    destruct (Ascii.eqb c nl_char).
    + constructor; [reflexivity | exact IH].
    + destruct (split_lines s) as [|l ls] eqn:S.
      * now apply split_lines_not_nil in S.
      * inversion IH as [|? ? L Ls]; subst. constructor; [|exact Ls].
        destruct (first_line_prefix s l ls S) as (tail & ->).
        apply andb_true_iff in L as (L1 & L2).
        cbn [all_chars has_cdata_end]. rewrite C, L1. cbn [andb].
        apply negb_true_iff in L2. rewrite L2, orb_false_r. apply negb_true_iff.
        destruct (prefix "]]>" (String c l)) eqn:Q; [|reflexivity].
        apply (prefix_app _ _ tail) in Q.
        change (String c l ++ tail) with (String c (l ++ tail)) in Q. congruence.
Qed.

Lemma lines_are_char_data (s : string) :
  is_char_data s = true -> Forall (fun l => is_char_data l = true) (split_lines s).
Proof.
  unfold is_char_data. intros H. apply andb_true_iff in H as (P & X).
  apply lines_are_plain in P.
  assert (Xs : Forall (fun l => xml_chars l = true) (split_lines s)).
  { destruct (split_lines s) as [|l ls] eqn:S; [constructor|].
    unfold xml_chars in X.
    destruct (utf8_run Boundary s) as [[]|] eqn:R; try discriminate X.
    destruct (lines_are_xml_chars s Boundary l ls R S) as (L & Ls).
    constructor; [|exact Ls]. unfold xml_chars. now rewrite L. }
  induction P as [|l ls Pl _ IH]; [constructor|].
  inversion Xs as [|? ? Xl Xls]; subst.
  constructor; [now rewrite Pl, Xl | exact (IH Xls)].
Qed.

Lemma first_tspan_element (l : string) :
  is_char_data l = true -> element (first_tspan l).
Proof.
  intros L. apply (element_tagged "tspan" "" "" "" l "" []); auto; constructor.
Qed.

Lemma next_tspan_element (x l : string) :
  is_att_value x = true -> is_char_data l = true -> element (next_tspan x l).
Proof.
  intros X L.
  replace (next_tspan x l)
    with ("<" ++ "tspan" ++ attrs_then [("x", x); ("dy", "1.2em")]
                              (">" ++ l ++ "" ++ "</" ++ "tspan" ++ ">"))
    by (unfold next_tspan, attrs_then; cbn [fold_right fst snd];
        now rewrite !attr_app).
  apply element_tagged_built; auto; repeat constructor; auto.
Qed.

Lemma stacked_lines_nodes (x : string) (lines : list string) :
  is_att_value x = true -> Forall (fun l => is_char_data l = true) lines ->
  nodes (stacked_lines x lines).
Proof.
  intros X L. destruct L as [|l ls L Ls]; unfold stacked_lines.
  - rewrite <- (append_empty_r (first_tspan "")).
    apply nodes_element_content; [now apply first_tspan_element | apply content_empty].
  - apply nodes_element_content; [now apply first_tspan_element|].
    rewrite <- (append_empty_r (String.concat _ _)).
    apply content_elements; [|apply content_empty].
    induction Ls; constructor; auto using next_tspan_element.
Qed.

Lemma Forall_append_svg (svgs : list string) (s : string) :
  Forall element svgs -> element s -> Forall element (append_svg svgs s).
Proof.
  intros F E. unfold append_svg. apply Forall_app. split; [exact F | now constructor].
Qed.

Lemma Forall2_each_returns {A B : Type} (f : A -> result B) (l : list A) (bs : list B) :
  Forall2 (fun a b => f a = Returns b) l bs ->
  Forall (fun a => exists b, f a = Returns b) l.
Proof. induction 1; constructor; eauto. Qed.

(** ** The fixed parts of the document *)

Lemma white_background_element : element white_background.
Proof.
  change white_background
    with ("<" ++ "rect"
            ++ attrs_then [("fill", "white"); ("width", "100%"); ("height", "100%")]
                 ("" ++ "/>")).
  apply element_empty_built; try reflexivity. repeat constructor.
Qed.

Lemma arrow_marker_element : element arrow_marker.
Proof.
  set (path := "<" ++ "path"
                 ++ attrs_then [("d", "M0,0 L0,6 L9,3 z"); ("fill", "#000")] ("" ++ "/>")).
  set (marker := "<" ++ "marker"
                   ++ attrs_then [("id", "arr"); ("markerWidth", "10");
                                  ("markerHeight", "10"); ("refX", "9"); ("refY", "3");
                                  ("orient", "auto")]
                        (">" ++ "" ++ (path ++ "") ++ "</" ++ "marker" ++ ">")).
  change arrow_marker
    with ("<" ++ "defs" ++ attrs_then [] (">" ++ "" ++ (marker ++ "") ++ "</" ++ "defs" ++ ">")).
  assert (P : element path).
  { apply element_empty_built; try reflexivity. repeat constructor. }
  assert (M : element marker).
  { apply element_tagged_built; try reflexivity; [repeat constructor|].
    apply nodes_element_content; [exact P | apply content_empty]. }
  apply element_tagged_built; try reflexivity; [constructor|].
  apply nodes_element_content; [exact M | apply content_empty].
Qed.

Lemma blank_svg_well_formed : well_formed blank_svg.
Proof.
  exists blank_svg, "". split; [|split; [reflexivity | symmetry; apply append_empty_r]].
  change blank_svg
    with ("<" ++ "svg"
            ++ attrs_then [("xmlns", svg_ns); ("width", "400"); ("height", "300")]
                 (">" ++ "" ++ (white_background ++ "") ++ "</" ++ "svg" ++ ">")).
  apply element_tagged_built; try reflexivity; [repeat constructor|].
  apply nodes_element_content; [apply white_background_element | apply content_empty].
Qed.

Lemma svg_document_well_formed (width height : string) (svgs : list string) :
  is_att_value width = true -> is_att_value height = true ->
  Forall element svgs ->
  well_formed (svg_document width height (String.concat "" svgs)).
Proof.
  intros W H F.
  exists (svg_document width height (String.concat "" svgs)), "".
  split; [|split; [reflexivity | symmetry; apply append_empty_r]].
  set (body := String.concat "" svgs).
  set (inner := arrow_marker ++ nl ++ white_background ++ nl ++ body ++ nl).
  replace (svg_document width height body)
    with ("<" ++ "svg"
            ++ attrs_then [("xmlns", svg_ns); ("width", width); ("height", height)]
                 (">" ++ nl ++ inner ++ "</" ++ "svg" ++ ">")).
  - apply element_tagged_built; try reflexivity.
    + repeat constructor; assumption.
    + subst inner. apply nodes_element_content; [apply arrow_marker_element|].
      apply content_after_nl, nodes_content.
      apply nodes_element_content; [apply white_background_element|].
      apply content_after_nl. subst body.
      apply content_elements; [exact F|].
      exists nl, "". repeat split; constructor.
  - subst inner. unfold svg_document, attrs_then. cbn [fold_right fst snd].
    rewrite !append_assoc. reflexivity.
Qed.

Section Markup.

Variable cs : value -> string.

Ltac solve_safe_values :=
  repeat constructor; cbn [snd];
  solve [assumption | reflexivity
        | apply numeric_format_safe; assumption
        | apply numeric_format_safe; reflexivity].

Ltac returned H name :=
  apply bind_returns in H as (name & ? & H).

(** The primitive of a visible element is an element of the markup. *)
Lemma render_primitive_element (x y : value) (d : list (string * value))
    (svgs svgs' : list string) :
  numeric x = true -> numeric y = true ->
  numeric (field d "width" (VInt 100)) = true ->
  numeric (field d "height" (VInt 50)) = true ->
  is_deleted (VDict d) = false ->
  markup_safe_element cs (VDict d) = true ->
  render_primitive cs x y (VDict d) svgs = Returns svgs' ->
  Forall element svgs -> Forall element svgs'.
Proof.
  intros X Y W H D S R F.
  unfold markup_safe_element in S. rewrite D in S.
  unfold render_primitive, get_width, get_height in R. rewrite !py_get_dict in R.
  cbn [bind] in R.
  set (t := field d "type" (VStr "")) in *.
  set (stroke := py_format cs (field d "strokeColor" (VStr "#000"))) in *.
  set (fill := py_format cs (field d "backgroundColor" (VStr "transparent"))) in *.
  set (sw := py_format cs (field d "strokeWidth" (VInt 1))) in *.
  destruct (is_str t "rectangle") eqn:Tr.
  { cbn [orb] in S. apply andb_true_iff in S as (S & Ssw).
    apply andb_true_iff in S as (Sfill & Sstroke).
    apply Returns_inj in R; subst svgs'. apply Forall_append_svg; [exact F|].
    match goal with
    | |- element ("<rect" ++ attr "x" ?a ++ attr "y" ?b ++ attr "width" ?c
                    ++ attr "height" ?e ++ _) =>
        change (element ("<" ++ "rect"
                  ++ attrs_then [("x", a); ("y", b); ("width", c); ("height", e);
                                 ("fill", fill); ("stroke", stroke);
                                 ("stroke-width", sw); ("rx", "4")] ("" ++ "/>")))
    end.
    apply element_empty_built; try reflexivity. solve_safe_values. }
  destruct (is_str t "ellipse") eqn:Te.
  { cbn [orb] in S. apply andb_true_iff in S as (S & Ssw).
    apply andb_true_iff in S as (Sfill & Sstroke).
    returned R cx. returned R cy. returned R rx. returned R ry.
    repeat match goal with
           | E : bind _ _ = Returns _ |- _ =>
               let half := fresh "half" in
               apply bind_returns in E as (half & ? & E)
           end.
    repeat match goal with
           | E : py_halve _ = Returns _ |- _ => apply py_halve_numeric in E
           | E : py_add x _ = Returns _ |- _ => apply py_add_numeric in E as (_ & E); [|exact X]
           | E : py_add y _ = Returns _ |- _ => apply py_add_numeric in E as (_ & E); [|exact Y]
           end.
    apply Returns_inj in R; subst svgs'. apply Forall_append_svg; [exact F|].
    change (element ("<" ++ "ellipse"
              ++ attrs_then [("cx", py_format cs cx); ("cy", py_format cs cy);
                             ("rx", py_format cs rx); ("ry", py_format cs ry);
                             ("fill", fill); ("stroke", stroke);
                             ("stroke-width", sw)] ("" ++ "/>"))).
    apply element_empty_built; try reflexivity. solve_safe_values. }
  cbn [orb] in S.
  destruct (is_str t "arrow" || is_str t "line") eqn:Tl.
  { apply andb_true_iff in S as (Sstroke & Ssw).
    returned R n.
    destruct (2 <=? n); [|apply Returns_inj in R; subst svgs'; exact F].
    returned R p0. apply bind_returns in R as ([x1 y1] & ? & R).
    returned R pn. apply bind_returns in R as ([x2 y2] & ? & R).
    returned R ax. returned R ay. returned R bx. returned R by_.
    repeat match goal with
           | E : py_add x _ = Returns _ |- _ => apply py_add_numeric in E as (_ & E); [|exact X]
           | E : py_add y _ = Returns _ |- _ => apply py_add_numeric in E as (_ & E); [|exact Y]
           end.
    apply Returns_inj in R; subst svgs'. apply Forall_append_svg; [exact F|].
    destruct (is_str t "arrow").
    - change (element ("<" ++ "line"
                ++ attrs_then [("x1", py_format cs ax); ("y1", py_format cs ay);
                               ("x2", py_format cs bx); ("y2", py_format cs by_);
                               ("stroke", stroke); ("stroke-width", sw);
                               ("marker-end", "url(#arr)")] ("" ++ "/>"))).
      apply element_empty_built; try reflexivity. solve_safe_values.
    - change (element ("<" ++ "line"
                ++ attrs_then [("x1", py_format cs ax); ("y1", py_format cs ay);
                               ("x2", py_format cs bx); ("y2", py_format cs by_);
                               ("stroke", stroke); ("stroke-width", sw)] (" " ++ "/>"))).
      apply element_empty_built; try reflexivity. solve_safe_values. }
  destruct (is_str t "text") eqn:Tt; [|apply Returns_inj in R; subst svgs'; exact F].
  apply andb_true_iff in S as (Sstroke & Stext).
  destruct (field d "text" (VStr "")) as [| | | |s| |]; try discriminate R.
  returned R baseline.
  match goal with
  | E : py_add y _ = Returns _ |- _ =>
      apply py_add_numeric in E as (Nfs & Nb); [|exact Y]
  end.
  apply Returns_inj in R; subst svgs'. apply Forall_append_svg; [exact F|].
  match goal with
  | |- element (_ ++ _ ++ _ ++ _ ++ _ ++ _ ++ "><tspan>" ++ ?txt ++ "</tspan></text>") =>
      replace (element _)
        with (element ("<" ++ "text"
                ++ attrs_then [("x", py_format cs x); ("y", py_format cs baseline);
                               ("font-size", py_format cs (field d "fontSize" (VInt 16)));
                               ("fill", stroke); ("font-family", "sans-serif")]
                     (">" ++ "" ++ ("<tspan>" ++ txt ++ "</tspan>")
                        ++ "</" ++ "text" ++ ">")))
        by (unfold attrs_then; cbn [fold_right fst snd]; now rewrite !append_assoc)
  end.
  rewrite replaced_text_is_stacked.
  apply element_tagged_built; try reflexivity; [solve_safe_values|].
  apply stacked_lines_nodes;
    [apply numeric_format_safe, X | apply lines_are_char_data, Stext].
Qed.


Lemma local_position_numeric (min_x min_y e x y : value) :
  local_position min_x min_y e = Returns (x, y) ->
  exists a b, get_x e = Returns a /\ get_y e = Returns b /\
              numeric a = true /\ numeric b = true /\
              numeric x = true /\ numeric y = true.
Proof.
  unfold local_position. intros H.
  apply bind_returns in H as (x' & Hx & H). apply bind_returns in H as (y' & Hy & H).
  apply Returns_inj in H. injection H as -> ->.
  apply bind_returns in Hx as (a & Ga & Hx). apply bind_returns in Hx as (a' & Sa & Hx).
  apply bind_returns in Hy as (b & Gb & Hy). apply bind_returns in Hy as (b' & Sb & Hy).
  apply py_sub_numeric in Sa as (Na & _ & Na'). apply py_sub_numeric in Sb as (Nb & _ & Nb').
  apply py_add_numeric in Hx as (_ & Nx); [|exact Na'].
  apply py_add_numeric in Hy as (_ & Ny); [|exact Nb'].
  exists a, b. auto 10.
Qed.

Lemma render_element_element (min_x min_y e : value) (svgs svgs' : list string) :
  measured e -> markup_safe_element cs e = true ->
  render_element cs min_x min_y svgs e = Returns svgs' ->
  Forall element svgs -> Forall element svgs'.
Proof.
  intros ((rw & Mw) & (rh & Mh)) S R F. unfold render_element in R.
  destruct e as [| | | | | |d]; try discriminate R.
  rewrite py_get_dict in R. cbn [bind] in R.
  destruct (truthy (field d "isDeleted" VNone)) eqn:D.
  - apply Returns_inj in R. now subst.
  - apply bind_returns in R as ([x y] & L & R).
    apply local_position_numeric in L as (a & b & Ga & Gb & Na & Nb & Nx & Ny).
    rewrite Ga in Mw. rewrite Gb in Mh. cbn [bind] in Mw, Mh.
    unfold get_width, get_height in Mw, Mh. rewrite py_get_dict in Mw, Mh.
    cbn [bind] in Mw, Mh.
    apply py_add_numeric in Mw as (Nw & _); [|exact Na].
    apply py_add_numeric in Mh as (Nh & _); [|exact Nb].
    apply (render_primitive_element x y d svgs svgs'); auto.
Qed.

Lemma for_each_elements (min_x min_y : value) (els : list value)
    (svgs svgs' : list string) :
  Forall measured els ->
  Forall (fun e => markup_safe_element cs e = true) els ->
  for_each (render_element cs min_x min_y) els svgs = Returns svgs' ->
  Forall element svgs -> Forall element svgs'.
Proof.
  intros M. revert svgs. induction M as [|e els Me _ IH]; intros svgs S R F.
  - apply Returns_inj in R. now subst.
  - inversion S as [|? ? Se Ss]; subst. cbn [for_each] in R.
    apply bind_returns in R as (svgs1 & R1 & R).
    apply (IH svgs1 Ss R). apply (render_element_element min_x min_y e svgs svgs1); auto.
Qed.

Lemma calculate_bounds_measured (els : list value) (min_x min_y width height : value) :
  calculate_bounds els = Returns (min_x, min_y, width, height) ->
  Forall measured els /\ numeric width = true /\ numeric height = true.
Proof.
  unfold calculate_bounds. intros H.
  returned H xs. returned H ys. returned H ws. returned H hs.
  returned H mx. returned H my. returned H Mx. returned H My.
  returned H w. returned H h. apply Returns_inj in H. injection H as -> -> -> ->.
  repeat match goal with
         | E : bind (py_sub _ _) _ = Returns _ |- _ =>
             let d := fresh "d" in
             apply bind_returns in E as (d & ? & E)
         end.
  repeat match goal with
         | E : py_sub _ _ = Returns _ |- _ => apply py_sub_numeric in E as (_ & _ & E)
         end.
  repeat match goal with
         | E : py_add ?d _ = Returns _, N : numeric ?d = true |- _ =>
             apply py_add_numeric in E as (_ & E); [|exact N]
         end.
  split; [|split; assumption].
  repeat match goal with
         | E : comprehension _ _ = Returns _ |- _ =>
             apply comprehension_returns, Forall2_each_returns in E
         end.
  apply Forall_forall. intros e I. split.
  - match goal with
    | E : Forall (fun a => exists b, bind (get_x a) _ = Returns b) els |- _ =>
        exact (proj1 (Forall_forall _ _) E e I)
    end.
  - match goal with
    | E : Forall (fun a => exists b, bind (get_y a) _ = Returns b) els |- _ =>
        exact (proj1 (Forall_forall _ _) E e I)
    end.
Qed.

Lemma iterated_elements_safe (d : list (string * value)) (els : list value) :
  markup_safe cs (VDict d) = true ->
  py_iter (field d "elements" (VList [])) = Returns els ->
  Forall (fun e => markup_safe_element cs e = true) els.
Proof.
  unfold markup_safe. intros S I.
  destruct (field d "elements" (VList [])) as [| | | |s|l|d']; try discriminate I;
    apply Returns_inj in I; subst els.
  - apply Forall_forall. intros e H. apply in_map_iff in H as (c & <- & _). reflexivity.
  - apply Forall_forall. intros e H. exact (proj1 (forallb_forall _ _) S e H).
  - apply Forall_forall. intros e H. apply in_map_iff in H as (c & <- & _). reflexivity.
Qed.

(** C6, amended.  When the synthesis returns and the strings the visible
    elements put into the markup can stand there (stroke colour, background
    colour and stroke width without [<], [&], double quote or control
    character; text without [<], [&], the sequence that ends a CDATA section
    or control character), the result is well-formed markup: one root
    element with properly nested elements, attributes and character data. *)
Theorem synthesized_markup_is_well_formed :
  forall (data : value) (svg : string),
    excalidraw_to_svg cs data = Returns svg ->
    markup_safe cs data = true ->
    well_formed svg.
Proof.
  intros data svg H S. unfold excalidraw_to_svg in H.
  destruct data as [| | | | | |d]; try discriminate H.
  rewrite py_get_dict in H. cbn [bind] in H.
  destruct (truthy (field d "elements" (VList []))); cbn [negb] in H.
  2:{ apply Returns_inj in H. subst svg. apply blank_svg_well_formed. }
  returned H els.
  apply bind_returns in H as ([[[min_x min_y] width] height] & B & H).
  returned H svgs. apply Returns_inj in H. subst svg.
  apply calculate_bounds_measured in B as (M & W & Hh).
  apply svg_document_well_formed; try (apply numeric_format_safe; assumption).
  apply (for_each_elements min_x min_y els [] svgs M); auto.
  apply (iterated_elements_safe d els S). assumption.
Qed.

(** A text with a character of two bytes can stand in the markup; a text
    with the non-character U+FFFF, with a surrogate, or with a stray
    continuation byte cannot. *)
Lemma markup_safe_looks_at_characters :
  let text_of (bytes : list nat) :=
    scene [a_text (string_of_list_ascii (map ascii_of_nat bytes))] in
  markup_safe cs (text_of [195; 169]%nat) = true
  /\ markup_safe cs (text_of [239; 191; 191]%nat) = false
  /\ markup_safe cs (text_of [237; 160; 128]%nat) = false
  /\ markup_safe cs (text_of [169]%nat) = false.
Proof. repeat split. Qed.

End Markup.

(** ** Further properties of the converter *)

Section Further.

Variable cs : value -> string.


(** X2.  An element whose type is none of the five kinds appends nothing. *)
Theorem unknown_kind_draws_nothing :
  forall (d : list (string * value)) (x y : value) (svgs : list string),
    let t := field d "type" (VStr "") in
    is_str t "rectangle" = false -> is_str t "ellipse" = false ->
    is_str t "arrow" = false -> is_str t "line" = false -> is_str t "text" = false ->
    render_primitive cs x y (VDict d) svgs = Returns svgs.
Proof.
  intros d x y svgs t R E A L T.
  unfold render_primitive, get_width, get_height. rewrite !py_get_dict.
  cbn [bind]. fold t. now rewrite R, E, A, L, T.
Qed.

(** X3.  The primitives stand in the body in the order of the elements: the
    loop returns what it started with followed by what each element adds,
    element after element.  A rectangle before an ellipse gives the [rect]
    before the [ellipse], and the ellipse before the rectangle gives the
    [ellipse] before the [rect]. *)
Theorem primitives_follow_input_order :
  (forall (min_x min_y : value) (els : list value) (parts : list (list string))
          (svgs : list string),
     Forall2 (fun e part => render_element cs min_x min_y [] e = Returns part) els parts ->
     for_each (render_element cs min_x min_y) els svgs
     = Returns (svgs ++ List.concat parts)%list)
  /\ excalidraw_to_svg cs (scene [a_rectangle 0 0 50 20; an_ellipse 100 40 30 30])
     = Returns (document_markup "210" "150"
                  (rect_markup "40" "40" "50" "20"
                     ++ ellipse_markup "155.0" "95.0" "15.0" "15.0"
                          "transparent" "#000" "1"))
  /\ excalidraw_to_svg cs (scene [an_ellipse 100 40 30 30; a_rectangle 0 0 50 20])
     = Returns (document_markup "210" "150"
                  (ellipse_markup "155.0" "95.0" "15.0" "15.0" "transparent" "#000" "1"
                     ++ rect_markup "40" "40" "50" "20")).
Proof.
  split; [|split; vm_compute; reflexivity].
  intros min_x min_y els parts svgs F. rewrite for_each_parts.
  now rewrite (comprehension_Forall2 _ (fun part => part) els parts F), map_id.
Qed.

End Further.



(** ** The order and the place of the elements *)

Lemma least_lower_bound (a : Z) (l : list Z) (b : Z) : In b (a :: l) -> least a l <= b.
Proof.
  intros [<- | I]; [apply least_le_first | now apply least_le_each].
Qed.

Lemma greatest_upper_bound (a : Z) (l : list Z) (b : Z) :
  In b (a :: l) -> b <= greatest a l.
Proof.
  intros [<- | I]; [apply greatest_ge_first | now apply greatest_ge_each].
Qed.

Lemma least_In (a : Z) (l : list Z) : In (least a l) (a :: l).
Proof. destruct (least_attained a l) as [-> | I]; simpl; auto. Qed.

Lemma greatest_In (a : Z) (l : list Z) : In (greatest a l) (a :: l).
Proof. destruct (greatest_attained a l) as [-> | I]; simpl; auto. Qed.

(** The least and the greatest do not depend on the order of the list. *)
Lemma least_permutation (a a' : Z) (l l' : list Z) :
  Permutation (a :: l) (a' :: l') -> least a l = least a' l'.
Proof.
  intros P. apply Z.le_antisymm.
  - apply least_lower_bound, (Permutation_in _ (Permutation_sym P)), least_In.
  - apply least_lower_bound, (Permutation_in _ P), least_In.
Qed.

Lemma greatest_permutation (a a' : Z) (l l' : list Z) :
  Permutation (a :: l) (a' :: l') -> greatest a l = greatest a' l'.
Proof.
  intros P. apply Z.le_antisymm.
  - apply greatest_upper_bound, (Permutation_in _ P), greatest_In.
  - apply greatest_upper_bound, (Permutation_in _ (Permutation_sym P)), greatest_In.
Qed.

Lemma box_permutation (g g' : geometry) (gs gs' : list geometry) :
  Permutation (g :: gs) (g' :: gs') ->
  min_x_of g gs = min_x_of g' gs' /\ min_y_of g gs = min_y_of g' gs' /\
  max_x_of g gs = max_x_of g' gs' /\ max_y_of g gs = max_y_of g' gs'.
Proof.
  intros P. unfold min_x_of, min_y_of, max_x_of, max_y_of. repeat split.
  - apply least_permutation, (Permutation_map gx P).
  - apply least_permutation, (Permutation_map gy P).
  - apply greatest_permutation, (Permutation_map (fun g => gx g + gwidth g) P).
  - apply greatest_permutation, (Permutation_map (fun g => gy g + gheight g) P).
Qed.

(** X6.  The bounds do not depend on the order of the elements (with int
    coordinates): a reordered list has the same corner and the same canvas. *)
Theorem bounds_ignore_element_order :
  forall (els els' : list value) (gs : list geometry),
    Forall2 has_geometry els gs -> Permutation els els' ->
    calculate_bounds els' = calculate_bounds els.
Proof.
  intros els els' gs F P.
  destruct (Permutation_Forall2 P F) as (gs' & Pg & F').
  destruct els as [|e els]; destruct els' as [|e' els'].
  - reflexivity.
  - now apply Permutation_nil in P.
  - now apply Permutation_sym, Permutation_nil in P.
  - destruct gs as [|g gs]; [inversion F|]. destruct gs' as [|g' gs']; [inversion F'|].
    rewrite (bounds_of_ints _ _ _ _ F), (bounds_of_ints _ _ _ _ F').
    unfold canvas_width, canvas_height.
    destruct (box_permutation g g' gs gs' Pg) as (-> & -> & -> & ->). reflexivity.
Qed.

(** *** Moving *)

Lemma least_shift (d a : Z) (l : list Z) :
  least (a + d) (map (fun z => z + d) l) = least a l + d.
Proof.
  unfold least. revert a. induction l as [|b l IH]; intros a; simpl.
  - reflexivity.
  - rewrite <- IH. f_equal. lia.
Qed.

Lemma greatest_shift (d a : Z) (l : list Z) :
  greatest (a + d) (map (fun z => z + d) l) = greatest a l + d.
Proof.
  unfold greatest. revert a. induction l as [|b l IH]; intros a; simpl.
  - reflexivity.
  - rewrite <- IH. f_equal. lia.
Qed.

Lemma box_shift (dx dy : Z) (g : geometry) (gs : list geometry) :
  min_x_of (shift dx dy g) (map (shift dx dy) gs) = min_x_of g gs + dx /\
  min_y_of (shift dx dy g) (map (shift dx dy) gs) = min_y_of g gs + dy /\
  max_x_of (shift dx dy g) (map (shift dx dy) gs) = max_x_of g gs + dx /\
  max_y_of (shift dx dy g) (map (shift dx dy) gs) = max_y_of g gs + dy.
Proof.
  unfold min_x_of, min_y_of, max_x_of, max_y_of. rewrite !map_map. cbn [shift gx gy gwidth gheight].
  repeat split.
  - rewrite <- least_shift, map_map. reflexivity.
  - rewrite <- least_shift, map_map. reflexivity.
  - rewrite <- greatest_shift, map_map.
    replace (gx g + dx + gwidth g) with (gx g + gwidth g + dx) by lia.
    f_equal. apply map_ext. intros a. lia.
  - rewrite <- greatest_shift, map_map.
    replace (gy g + dy + gheight g) with (gy g + gheight g + dy) by lia.
    f_equal. apply map_ext. intros a. lia.
Qed.

Lemma py_get_moved (e e' : value) (k : string) (default : value) :
  same_but_position e e' -> k <> "x" -> k <> "y" ->
  py_get e' k default = py_get e k default.
Proof.
  intros (d & d' & -> & -> & S) X Y. unfold py_get. now rewrite (S k X Y).
Qed.

Lemma moved_geometry (dx dy : Z) (e e' : value) (g : geometry) :
  moved dx dy e e' -> has_geometry e g -> has_geometry e' (shift dx dy g).
Proof.
  intros (S & x & y & X & X' & Y & Y') (Gx & Gy & Gw & Gh).
  rewrite X in Gx. rewrite Y in Gy. injection Gx as ->. injection Gy as ->.
  unfold has_geometry, get_width, get_height. cbn [shift gx gy gwidth gheight].
  rewrite !(py_get_moved e e') by (exact S || discriminate).
  auto.
Qed.

Lemma moved_geometries (dx dy : Z) (els els' : list value) (gs : list geometry) :
  Forall2 (moved dx dy) els els' -> Forall2 has_geometry els gs ->
  Forall2 has_geometry els' (map (shift dx dy) gs).
Proof.
  intros M. revert gs. induction M as [|e e' els els' Me M IH]; intros gs F.
  - inversion F. constructor.
  - inversion F as [|? g ? gs0 G F0]; subst. cbn [map]. constructor.
    + apply (moved_geometry dx dy e e' g Me G).
    + apply IH, F0.
Qed.

Section Moving.

Variable cs : value -> string.

Lemma render_primitive_moved (x y e e' : value) (svgs : list string) :
  same_but_position e e' ->
  render_primitive cs x y e' svgs = render_primitive cs x y e svgs.
Proof.
  intros S. unfold render_primitive, get_width, get_height.
  rewrite !(py_get_moved e e') by (exact S || discriminate).
  reflexivity.
Qed.

Lemma render_element_moved (dx dy min_x min_y : Z) (e e' : value) (g : geometry)
    (svgs : list string) :
  moved dx dy e e' -> has_geometry e g ->
  render_element cs (VInt (min_x + dx)) (VInt (min_y + dy)) svgs e'
  = render_element cs (VInt min_x) (VInt min_y) svgs e.
Proof.
  intros M G. pose proof (moved_geometry dx dy e e' g M G) as G'.
  destruct M as (S & _).
  unfold render_element.
  rewrite (py_get_moved e e') by (exact S || discriminate).
  rewrite (local_position_of_ints _ _ e' _ G'), (local_position_of_ints _ _ e _ G).
  cbn [shift gx gy].
  replace (gx g + dx - (min_x + dx) + 40) with (gx g - min_x + 40) by lia.
  replace (gy g + dy - (min_y + dy) + 40) with (gy g - min_y + 40) by lia.
  destruct (py_get e "isDeleted" VNone) as [flag|]; [|reflexivity]. cbn [bind].
  destruct (truthy flag); [reflexivity|].
  apply render_primitive_moved, S.
Qed.

Lemma for_each_moved (dx dy min_x min_y : Z) (els els' : list value)
    (gs : list geometry) (svgs : list string) :
  Forall2 (moved dx dy) els els' -> Forall2 has_geometry els gs ->
  for_each (render_element cs (VInt (min_x + dx)) (VInt (min_y + dy))) els' svgs
  = for_each (render_element cs (VInt min_x) (VInt min_y)) els svgs.
Proof.
  intros M. revert gs svgs. induction M as [|e e' els els' Me M IH]; intros gs svgs F.
  - reflexivity.
  - inversion F as [|? g ? gs0 G F0]; subst. cbn [for_each].
    rewrite (render_element_moved dx dy min_x min_y e e' g svgs Me G).
    destruct (render_element cs (VInt min_x) (VInt min_y) svgs e); [|reflexivity].
    cbn [bind]. apply (IH gs0), F0.
Qed.

(** X7.  The picture does not depend on where the scene stands on the infinite
    canvas: when every element is moved by the same [(dx, dy)] (int
    coordinates), the document is the same, byte for byte. *)
Theorem moved_scene_same_picture :
  forall (dx dy : Z) (d d' : list (string * value)) (els els' : list value)
         (gs : list geometry),
    lookup "elements" d = Some (VList els) ->
    lookup "elements" d' = Some (VList els') ->
    Forall2 has_geometry els gs ->
    Forall2 (moved dx dy) els els' ->
    excalidraw_to_svg cs (VDict d') = excalidraw_to_svg cs (VDict d).
Proof.
  intros dx dy d d' els els' gs L L' F M.
  pose proof (moved_geometries dx dy els els' gs M F) as F'.
  destruct M as [|e e' els els' Me M].
  - unfold excalidraw_to_svg. rewrite !py_get_dict. unfold field. now rewrite L, L'.
  - destruct gs as [|g gs]; [inversion F|]. cbn [map] in F'.
    rewrite (synthesize_ints cs d e els g gs L F).
    rewrite (synthesize_ints cs d' e' els' _ _ L' F').
    destruct (box_shift dx dy g gs) as (-> & -> & -> & ->).
    rewrite (for_each_moved dx dy _ _ (e :: els) (e' :: els') (g :: gs) []).
    + replace (max_x_of g gs + dx - (min_x_of g gs + dx) + 80)
        with (max_x_of g gs - min_x_of g gs + 80) by lia.
      replace (max_y_of g gs + dy - (min_y_of g gs + dy) + 80)
        with (max_y_of g gs - min_y_of g gs + 80) by lia.
      reflexivity.
    + constructor; assumption.
    + exact F.
Qed.

End Moving.

(** ** The fields that matter *)

Lemma comprehension_pointwise {A B : Type} (f : A -> result B) (l l' : list A)
    (R : A -> A -> Prop) :
  (forall a a', R a a' -> f a' = f a) -> Forall2 R l l' ->
  comprehension f l' = comprehension f l.
Proof.
  intros E F. induction F as [|a a' l l' Ra F IH]; [reflexivity|].
  cbn [comprehension]. now rewrite (E a a' Ra), IH.
Qed.

Lemma for_each_pointwise (body : list string -> value -> result (list string))
    (l l' : list value) (R : value -> value -> Prop) (svgs : list string) :
  (forall a a' svgs, R a a' -> body svgs a' = body svgs a) -> Forall2 R l l' ->
  for_each body l' svgs = for_each body l svgs.
Proof.
  intros E F. revert svgs. induction F as [|a a' l l' Ra F IH]; intros svgs; [reflexivity|].
  cbn [for_each]. rewrite (E a a' svgs Ra).
  destruct (body svgs a); cbn [bind]; [apply IH | reflexivity].
Qed.

Lemma py_get_same_fields (e e' : value) (k : string) (default : value) :
  same_fields e e' -> In k read_keys -> py_get e' k default = py_get e k default.
Proof.
  intros (d & d' & -> & -> & S) I. unfold py_get. now rewrite (S k I).
Qed.

Ltac known_key := unfold read_keys; cbn [In]; tauto.

Section Fields.

Variable cs : value -> string.

Lemma render_element_same_fields (min_x min_y e e' : value) (svgs : list string) :
  same_fields e e' ->
  render_element cs min_x min_y svgs e' = render_element cs min_x min_y svgs e.
Proof.
  intros S.
  unfold render_element, local_position, render_primitive,
    get_x, get_y, get_width, get_height.
  rewrite !(py_get_same_fields e e') by (exact S || known_key).
  reflexivity.
Qed.

Lemma calculate_bounds_same_fields (els els' : list value) :
  Forall2 same_fields els els' -> calculate_bounds els' = calculate_bounds els.
Proof.
  intros F. unfold calculate_bounds, get_x, get_y, get_width, get_height.
  rewrite !(comprehension_pointwise _ els els' same_fields) by
    (exact F || (intros a a' S; rewrite !(py_get_same_fields a a') by (exact S || known_key);
                 reflexivity)).
  reflexivity.
Qed.

(** X8.  The document depends on nothing but the twelve fields the code reads
    from each element: two scenes whose elements agree on those fields, in
    the same order, give the same document, whatever else the elements and
    the scene hold (identifiers, versions, the application state, ...). *)
Theorem only_the_read_fields_matter :
  forall (d d' : list (string * value)) (els els' : list value),
    lookup "elements" d = Some (VList els) ->
    lookup "elements" d' = Some (VList els') ->
    Forall2 same_fields els els' ->
    excalidraw_to_svg cs (VDict d') = excalidraw_to_svg cs (VDict d).
Proof.
  intros d d' els els' L L' F. unfold excalidraw_to_svg. rewrite !py_get_dict.
  cbn [bind]. rewrite (field_found d _ _ _ L), (field_found d' _ _ _ L').
  destruct F as [|e e' els els' S F]; [reflexivity|].
  cbn [truthy negb py_iter bind].
  rewrite (calculate_bounds_same_fields (e :: els) (e' :: els')) by now constructor.
  destruct (calculate_bounds (e :: els)) as [[[[min_x min_y] width] height]|];
    [|reflexivity].
  cbn [bind].
  rewrite (for_each_pointwise _ (e :: els) (e' :: els') same_fields).
  - reflexivity.
  - intros a a' svgs Sa. apply render_element_same_fields, Sa.
  - now constructor.
Qed.


End Fields.

(** ** The loop over the elements *)

Section Loop.

Variable cs : value -> string.

(** X10.  The body of the document is made of what each element draws on its own,
    in the order of the document, and an element draws at most one primitive:
    no element changes or removes what another one drew. *)
Theorem elements_draw_independently :
  forall (min_x min_y : value) (els : list value),
    for_each (render_element cs min_x min_y) els []
    = (parts <- comprehension (render_element cs min_x min_y []) els ;;
       Returns (List.concat parts))
    /\ forall parts : list (list string),
         comprehension (render_element cs min_x min_y []) els = Returns parts ->
         List.length parts = List.length els
         /\ Forall (fun part => (List.length part <= 1)%nat) parts.
Proof.
  intros min_x min_y els. split; [apply for_each_parts|].
  intros parts C. pose proof (comprehension_returns _ _ _ C) as F.
  split.
  - symmetry. apply (Forall2_length F).
  - clear C. induction F as [|e part els parts H F IH]; constructor; auto.
    apply (render_element_at_most_one cs min_x min_y e part H).
Qed.

End Loop.

(** ** Scenes the synthesizer rejects *)

Lemma comprehension_get_fails (k : string) (default : value) (els : list value) (e : value) :
  In e els -> (forall entries, e <> VDict entries) ->
  comprehension (fun a => py_get a k default) els = Raises RuntimeFailure.
Proof.
  intros I N. induction els as [|a els IH]; [destruct I|].
  cbn [comprehension].
  destruct a as [| | | | | |entries]; try reflexivity.
  destruct I as [E | I]; [destruct (N entries (eq_sym E))|].
  cbn [py_get bind]. now rewrite (IH I).
Qed.

Section Rejects.

Variable cs : value -> string.

(** X11.  A scene that is not an object, or whose elements are a number or [true],
    or one of whose elements is not an object, makes the synthesis raise:
    also when the offending element stands after valid ones. *)
Theorem malformed_scene_is_rejected :
  (forall data : value,
     (forall entries, data <> VDict entries) ->
     excalidraw_to_svg cs data = Raises RuntimeFailure)
  /\
  (forall (d : list (string * value)) (v : value),
     lookup "elements" d = Some v -> truthy v = true ->
     py_iter v = Raises RuntimeFailure ->
     excalidraw_to_svg cs (VDict d) = Raises RuntimeFailure)
  /\
  (forall (d : list (string * value)) (els : list value) (e : value),
     lookup "elements" d = Some (VList els) ->
     In e els -> (forall entries, e <> VDict entries) ->
     excalidraw_to_svg cs (VDict d) = Raises RuntimeFailure).
Proof.
  split; [|split].
  - intros data N. destruct data as [| | | | | |entries]; try reflexivity.
    now destruct (N entries).
  - intros d v L T I. unfold excalidraw_to_svg. rewrite py_get_dict.
    cbn [bind]. rewrite (field_found d _ _ _ L), T, I. reflexivity.
  - intros d els e L I N. unfold excalidraw_to_svg. rewrite py_get_dict.
    cbn [bind]. rewrite (field_found d _ _ _ L).
    destruct els as [|a els]; [destruct I|].
    cbn [truthy negb py_iter bind]. unfold calculate_bounds, get_x.
    now rewrite (comprehension_get_fails "x" (VInt 0) (a :: els) e I N).
Qed.

End Rejects.

(** ** One element that fails, and lines *)

Lemma for_each_fails (body : list string -> value -> result (list string))
    (els : list value) (e : value) (svgs : list string) :
  In e els -> (forall svgs, exists ex, body svgs e = Raises ex) ->
  exists ex, for_each body els svgs = Raises ex.
Proof.
  intros I B. revert svgs. induction els as [|a els IH]; intros svgs; [destruct I|].
  cbn [for_each]. destruct I as [-> | I].
  - destruct (B svgs) as (ex & ->). exists ex. reflexivity.
  - destruct (body svgs a) as [svgs'|ex]; cbn [bind].
    + apply (IH I).
    + exists ex. reflexivity.
Qed.

Section Failing.

Variable cs : value -> string.

(** X12.  There is no partial output: when one element of the scene cannot be
    drawn, the synthesis raises and yields no document, whatever the other
    elements are.  A visible text element whose [text] is not a string is
    such an element. *)
Theorem one_failing_element_fails_the_scene :
  (forall (d : list (string * value)) (els : list value) (e : value),
     lookup "elements" d = Some (VList els) -> In e els ->
     (forall (min_x min_y : value) (svgs : list string),
        exists ex, render_element cs min_x min_y svgs e = Raises ex) ->
     exists ex, excalidraw_to_svg cs (VDict d) = Raises ex)
  /\
  (forall (d : list (string * value)) (v : value),
     is_deleted (VDict d) = false ->
     lookup "type" d = Some (VStr "text") ->
     lookup "text" d = Some v -> (forall s, v <> VStr s) ->
     forall (min_x min_y : value) (svgs : list string),
       exists ex, render_element cs min_x min_y svgs (VDict d) = Raises ex).
Proof.
  split.
  - intros d els e L I B. unfold excalidraw_to_svg. rewrite py_get_dict.
    cbn [bind]. rewrite (field_found d _ _ _ L).
    destruct els as [|a els]; [destruct I|].
    cbn [truthy negb py_iter bind].
    destruct (calculate_bounds (a :: els)) as [[[[min_x min_y] width] height]|ex];
      cbn [bind]; [|exists ex; reflexivity].
    destruct (for_each_fails (render_element cs min_x min_y) (a :: els) e [] I
                (B min_x min_y)) as (ex & ->).
    exists ex. reflexivity.
  - intros d v D T X N min_x min_y svgs.
    unfold render_element. unfold is_deleted in D. rewrite py_get_dict in *.
    cbn [bind]. rewrite D.
    destruct (local_position min_x min_y (VDict d)) as [[x y]|ex]; cbn [bind];
      [|exists ex; reflexivity].
    unfold render_primitive, get_width, get_height. rewrite !py_get_dict.
    cbn [bind]. rewrite (field_found d "type" _ _ T).
    change (is_str (VStr "text") "rectangle") with false.
    change (is_str (VStr "text") "ellipse") with false.
    change (is_str (VStr "text") "arrow" || is_str (VStr "text") "line") with false.
    change (is_str (VStr "text") "text") with true. cbv iota.
    rewrite ?py_get_dict, (field_found d "text" _ _ X). cbn [bind].
    exists RuntimeFailure.
    destruct v; try reflexivity. now destruct (N s).
Qed.


(** X14.  The bounds are taken from [width] and [height], never from [points]: a
    line on its own, without [width] and [height], gets the canvas of 180 by
    130 wherever its last point lies, as long as Python prints the end
    coordinates and the stroke, and is drawn to its last point also when
    that lies outside the canvas (beyond 140 to the right or 90 down). *)
Theorem line_may_leave_the_canvas :
  forall (d : list (string * value)) (kind : string) (x y p q : Z),
    kind = "arrow" \/ kind = "line" ->
    lookup "type" d = Some (VStr kind) ->
    lookup "isDeleted" d = None ->
    lookup "x" d = Some (VInt x) -> lookup "y" d = Some (VInt y) ->
    lookup "width" d = None -> lookup "height" d = None ->
    lookup "points" d = Some (VList [int_pair 0 0; int_pair p q]) ->
    forallb printable
      [VInt (40 + p); VInt (40 + q); field d "strokeColor" (VStr "#000");
       field d "strokeWidth" (VInt 1)] = true ->
    excalidraw_to_svg cs (scene [VDict d])
    = Returns (document_markup "180" "130"
        (line_markup "40" "40" (int_str (40 + p)) (int_str (40 + q))
           (py_format cs (field d "strokeColor" (VStr "#000")))
           (py_format cs (field d "strokeWidth" (VInt 1)))
           (if (kind =? "arrow")%string then arrowhead else "")))
    /\ (140 < p -> 180 < 40 + p) /\ (90 < q -> 130 < 40 + q).
Proof.
  intros d kind x y p q K T D X Y W H P _. split; [|lia].
  destruct (kind_is_line kind K) as (R & E & L & M).
  assert (G : has_geometry (VDict d) {| gx := x; gy := y; gwidth := 100; gheight := 50 |}).
  { unfold has_geometry, get_x, get_y, get_width, get_height.
    rewrite !py_get_dict. unfold field. rewrite X, Y, W, H. simpl. auto. }
  unfold scene.
  rewrite (synthesize_ints cs [("elements", VList [VDict d])] (VDict d) []
             {| gx := x; gy := y; gwidth := 100; gheight := 50 |} [] eq_refl).
  2:{ constructor; [exact G | constructor]. }
  unfold max_x_of, max_y_of, min_x_of, min_y_of, least, greatest.
  cbn [map fold_left gx gy gwidth gheight for_each].
  unfold render_element. rewrite py_get_dict, (field_absent d "isDeleted" _ D).
  cbn [bind truthy]. rewrite (local_position_of_ints _ _ _ _ G).
  cbn [bind gx gy]. rewrite !Z.sub_diag.
  unfold render_primitive, get_width, get_height. rewrite !py_get_dict.
  cbn [bind]. rewrite (field_found d "type" _ _ T), R, E, L.
  rewrite ?py_get_dict, (field_found d "points" _ _ P). rewrite M.
  cbn [bind py_len List.length Z.of_nat]. 
  change (2 <=? Z.pos (Pos.of_succ_nat 1)) with true. cbv iota.
  unfold int_pair.
  change (py_item (VList [VList [VInt 0; VInt 0]; VList [VInt p; VInt q]]) 0)
    with (Returns (VList [VInt 0; VInt 0])).
  change (py_item (VList [VList [VInt 0; VInt 0]; VList [VInt p; VInt q]]) (-1))
    with (Returns (VList [VInt p; VInt q])).
  cbn [bind py_unpack2 py_iter py_add as_number py_format].
  replace (x + 100 - x + 80) with 180 by lia.
  replace (y + 50 - y + 80) with 130 by lia.
  rewrite document_is_markup. unfold append_svg, line_markup.
  cbn [app String.concat]. rewrite !attr_app.
  destruct (kind =? "arrow")%string; reflexivity.
Qed.

End Failing.

(** ** Scenes that are always drawn *)

Lemma int_field_value (d : list (string * value)) (k : string) (default : Z) :
  int_field d k = true -> exists z : Z, field d k (VInt default) = VInt z.
Proof.
  unfold int_field, field. destruct (lookup k d) as [[]|]; try discriminate; eauto.
Qed.

Lemma plain_has_geometry (e : value) :
  plain_element e = true -> exists g : geometry, has_geometry e g.
Proof.
  destruct e as [| | | | | |d]; try discriminate. cbn [plain_element].
  rewrite !andb_true_iff. intros ((((((X & Y) & W) & H) & _) & _) & _).
  destruct (int_field_value d "x" 0 X) as (x & Ex).
  destruct (int_field_value d "y" 0 Y) as (y & Ey).
  destruct (int_field_value d "width" 100 W) as (w & Ew).
  destruct (int_field_value d "height" 50 H) as (h & Eh).
  exists {| gx := x; gy := y; gwidth := w; gheight := h |}.
  unfold has_geometry, get_x, get_y, get_width, get_height. rewrite !py_get_dict.
  cbn [gx gy gwidth gheight]. now rewrite Ex, Ey, Ew, Eh.
Qed.

Lemma plain_geometries (els : list value) :
  forallb plain_element els = true -> exists gs, Forall2 has_geometry els gs.
Proof.
  induction els as [|e els IH]; cbn [forallb].
  - exists []. constructor.
  - rewrite andb_true_iff. intros (P & F).
    destruct (plain_has_geometry e P) as (g & G). destruct (IH F) as (gs & Gs).
    exists (g :: gs). now constructor.
Qed.

Lemma index_list_minus_one {A : Type} (l : list A) (a default : A) :
  index_list (a :: l) (-1) = Returns (List.last (a :: l) default).
Proof.
  destruct (exists_last (l := a :: l)) as (l' & b & E); [discriminate|].
  rewrite E, last_last. apply index_list_last.
Qed.

Lemma int_pair_unpacks (v : value) :
  is_int_pair v = true -> exists a b : Z, py_unpack2 v = Returns (VInt a, VInt b).
Proof.
  destruct v as [| | | | |l|]; try discriminate.
  destruct l as [|v0 [|v1 [|v2 l]]]; try discriminate;
    destruct v0; try discriminate; destruct v1; cbn [is_int_pair]; try discriminate.
  intros _. cbn. eauto.
Qed.

Section Plain.

Variable cs : value -> string.

Lemma plain_line_returns (d : list (string * value)) (x y : Z)
    (stroke sw : value) (marker : string) (svgs : list string) :
  plain_points d = true ->
  exists svgs',
    (pts <- py_get (VDict d) "points" default_points ;;
     n <- py_len pts ;;
     if 2 <=? n then
       first <- py_item pts 0 ;;
       '(x1, y1) <- py_unpack2 first ;;
       last <- py_item pts (-1) ;;
       '(x2, y2) <- py_unpack2 last ;;
       ax <- py_add (VInt x) x1 ;;
       ay <- py_add (VInt y) y1 ;;
       bx <- py_add (VInt x) x2 ;;
       by_ <- py_add (VInt y) y2 ;;
       Returns (append_svg svgs (
         "<line" ++ attr "x1" (py_format cs ax) ++ attr "y1" (py_format cs ay)
           ++ attr "x2" (py_format cs bx) ++ attr "y2" (py_format cs by_)
           ++ attr "stroke" (py_format cs stroke) ++ attr "stroke-width" (py_format cs sw)
           ++ " " ++ marker ++ "/>"))
     else Returns svgs) = Returns svgs'.
Proof.
  unfold plain_points. rewrite py_get_dict. unfold field.
  destruct (lookup "points" d) as [[| | | | |pts|]|]; try discriminate.
  - destruct pts as [|p0 [|p1 pts]]; intros P.
    + eexists. reflexivity.
    + eexists. reflexivity.
    + apply andb_true_iff in P as (P0 & Pn).
      destruct (int_pair_unpacks _ P0) as (a0 & b0 & U0).
      destruct (int_pair_unpacks _ Pn) as (an & bn & Un).
      cbn [bind py_len].
      assert (N : (2 <=? Z.of_nat (List.length (p0 :: p1 :: pts))) = true).
      { apply Z.leb_le. cbn [List.length]. lia. }
      rewrite N. cbn [py_item]. rewrite index_list_first.
      rewrite (index_list_minus_one _ _ VNone). cbn [bind]. rewrite U0. cbn [bind].
      rewrite Un. cbn [bind py_add as_number]. eexists. reflexivity.
  - intros _. eexists. reflexivity.
Qed.

Lemma plain_primitive_returns (x y : Z) (e : value) (svgs : list string) :
  plain_element e = true ->
  exists svgs', render_primitive cs (VInt x) (VInt y) e svgs = Returns svgs'.
Proof.
  destruct e as [| | | | | |d]; try discriminate. cbn [plain_element].
  rewrite !andb_true_iff. intros ((((((_ & _) & _) & _) & E) & L) & T).
  unfold render_primitive, get_width, get_height. rewrite !py_get_dict. cbn [bind].
  destruct (is_str (field d "type" (VStr "")) "rectangle"); [eexists; reflexivity|].
  apply negb_true_iff in E. rewrite E.
  destruct (is_str (field d "type" (VStr "")) "arrow" || is_str (field d "type" (VStr "")) "line").
  - apply (plain_line_returns d x y _ _ _ svgs L).
  - destruct (is_str (field d "type" (VStr "")) "text"); [|eexists; reflexivity].
    unfold plain_text in T. apply andb_true_iff in T as (T & F).
    destruct (int_field_value d "fontSize" 16 F) as (fs & Ef).
    rewrite ?py_get_dict. unfold field at 1.
    destruct (lookup "text" d) as [[]|]; try discriminate T; cbn [bind];
      rewrite Ef; cbn [bind py_add as_number]; eexists; reflexivity.
Qed.

Lemma plain_element_returns (min_x min_y : Z) (e : value) (svgs : list string) :
  plain_element e = true ->
  exists svgs', render_element cs (VInt min_x) (VInt min_y) svgs e = Returns svgs'.
Proof.
  intros P. destruct (plain_has_geometry e P) as (g & G).
  unfold render_element.
  destruct (py_get e "isDeleted" VNone) as [flag|] eqn:D.
  2:{ destruct e; discriminate. }
  cbn [bind]. destruct (truthy flag); [eexists; reflexivity|].
  rewrite (local_position_of_ints _ _ _ _ G). cbn [bind].
  apply plain_primitive_returns, P.
Qed.

Lemma plain_loop_returns (min_x min_y : Z) (els : list value) (svgs : list string) :
  forallb plain_element els = true ->
  exists svgs',
    for_each (render_element cs (VInt min_x) (VInt min_y)) els svgs = Returns svgs'.
Proof.
  revert svgs. induction els as [|e els IH]; intros svgs; cbn [forallb for_each].
  - eexists. reflexivity.
  - rewrite andb_true_iff. intros (P & F).
    destruct (plain_element_returns min_x min_y e svgs P) as (svgs1 & ->). cbn [bind].
    apply IH, F.
Qed.

(** X15.  The synthesis never fails on a plain scene: when every element is an
    object with int (or absent) position and size, no ellipse, with int pairs
    as first and last point if it is a line or an arrow, and a string as text
    and an int as font size if it is a text, all ints up to [2^53] in size, a
    document is returned. *)
Theorem plain_scene_is_drawn :
  forall (d : list (string * value)) (els : list value),
    lookup "elements" d = Some (VList els) ->
    forallb plain_element els = true ->
    exists svg : string, excalidraw_to_svg cs (VDict d) = Returns svg.
Proof.
  intros d els L F. destruct (plain_geometries els F) as (gs & G).
  destruct els as [|e els].
  - unfold excalidraw_to_svg. rewrite py_get_dict, (field_found d _ _ _ L).
    eexists. reflexivity.
  - destruct gs as [|g gs]; [inversion G|].
    rewrite (synthesize_ints cs d e els g gs L G).
    destruct (plain_loop_returns (min_x_of g gs) (min_y_of g gs) (e :: els) [] F)
      as (svgs & ->).
    eexists. reflexivity.
Qed.

End Plain.

(** ** What a run leaves behind *)

(** The fallback returns [True] only when the raster library or, without
    it, the vector editor made a PNG, which stands at the output path, and
    the last thing it did was to print the success line. *)
Lemma fallback_true_inv (rt : runtime) (data : value) (input output : string)
    (width : Z) (w0 w' : world) :
  svg_fallback rt data input output width w0 = (Returns true, w') ->
  exists svg png : string,
    excalidraw_to_svg (container_repr rt) data = Returns svg
    /\ rasterized rt svg output width png
    /\ files w' output = Some png
    /\ exists t : list event,
         trace w' = (t ++ [Printed Stdout (success_line input output ++ " (SVG fallback)")])%list.
Proof.
  intros H. run_chain H; try discriminate H; apply outcome_inj in H as (_ & <-);
    eexists _, _; (split; [reflexivity|]);
    (split; [unfold rasterized;
             first [left; eassumption | right; repeat split; eassumption]|]);
    rewrite ?files_log, ?files_write_same; (split; [reflexivity|]);
    rewrite trace_log; eauto.
Qed.

(** The fallback returns [False] in one situation only: the raster library
    is not installed, the SVG was written, and the vector editor failed. *)
Lemma fallback_false_inv (rt : runtime) (data : value) (input output : string)
    (width : Z) (w0 w' : world) :
  svg_fallback rt data input output width w0 = (Returns false, w') ->
  let svg_path := str_replace ".png" ".svg" output in
  exists (svg : string) (e : exn),
    excalidraw_to_svg (container_repr rt) data = Returns svg
    /\ cairosvg rt svg output width = RasterRaises ImportError
    /\ writable rt svg_path = true
    /\ file_encodes rt svg = true
    /\ inkscape rt svg_path output width = RasterRaises e
    /\ files w' svg_path = Some svg
    /\ (exists t : list event,
          trace w' = (t ++ [Printed Stderr ("Saved SVG: " ++ svg_path)])%list)
    /\ printed_on Stdout (trace w') = printed_on Stdout (trace w0).
Proof.
  intros H. run_chain H; try discriminate H; apply outcome_inj in H as (_ & <-);
    eexists _, _;
    repeat (split; [eassumption || reflexivity|]);
    rewrite ?files_log, ?files_write_same;
    (split; [reflexivity|]);
    repeat first [rewrite trace_log | rewrite trace_write];
    (split; [eexists; reflexivity|]);
    rewrite !printed_on_app; cbn [printed_on]; now rewrite ?app_nil_r.
Qed.

(** The fallback raises for five reasons and no other. *)
Lemma fallback_raises_inv (rt : runtime) (data : value) (input output : string)
    (width : Z) (w0 w' : world) (e : exn) :
  svg_fallback rt data input output width w0 = (Raises e, w') ->
  let svg_path := str_replace ".png" ".svg" output in
  excalidraw_to_svg (container_repr rt) data = Raises e
  \/ exists svg : string,
       excalidraw_to_svg (container_repr rt) data = Returns svg
       /\ ((cairosvg rt svg output width = RasterRaises e /\ is_ImportError e = false)
           \/ (cairosvg rt svg output width = RasterRaises ImportError
               /\ writable rt svg_path = false /\ e = RuntimeFailure)
           \/ (cairosvg rt svg output width = RasterRaises ImportError
               /\ writable rt svg_path = true /\ file_encodes rt svg = false
               /\ e = RuntimeFailure /\ files w' svg_path = Some "")
           \/ (exists png : string,
                 rasterized rt svg output width png
                 /\ stdout_encodes rt (success_line input output ++ " (SVG fallback)")
                    = false
                 /\ e = RuntimeFailure /\ files w' output = Some png)).
Proof.
  intros H svg_path. subst svg_path.
  run_chain H; try discriminate H; apply outcome_inj in H as (E & <-);
    apply Raises_inj in E; subst;
    first
      [ left; settled
      | right; eexists; split; [settled|];
        first
          [ left; split; settled
          | right; left; repeat split; settled
          | right; right; left; repeat split; try settled;
            rewrite ?files_log; apply files_write_same
          | right; right; right; eexists; unfold rasterized;
            split; [first [left; eassumption | right; repeat split; eassumption]|];
            repeat split; try settled;
            rewrite ?files_log; apply files_write_same ] ].
Qed.

(** What the fallback adds to the world: attempts in the order of the
    chain, and files at the output path and the SVG path only. *)
Lemma fallback_world (rt : runtime) (data : value) (input output : string)
    (width : Z) (w0 : world) :
  let w' := snd (svg_fallback rt data input output width w0) in
  (exists n : nat,
     attempts (trace w')
     = (attempts (trace w0) ++ firstn n [Synthesizer; RasterLibrary; VectorEditor])%list)
  /\ (forall p : string,
        p <> output -> p <> str_replace ".png" ".svg" output ->
        files w' p = files w0 p)
  /\ exists t : list event, trace w' = (trace w0 ++ t)%list.
Proof.
  intros w'. subst w'.
  destruct (svg_fallback rt data input output width w0) as [r w'] eqn:H. cbn [snd].
  run_chain H; apply outcome_inj in H as (_ & <-);
    (split; [|split]);
    try (intros p N1 N2;
         repeat first [rewrite files_log | rewrite files_write_other by assumption];
         reflexivity);
    repeat first [rewrite trace_log | rewrite trace_write];
    rewrite ?attempts_app; cbn [attempts]; rewrite <- ?app_assoc, ?app_nil_r; cbn [app];
    first [ exists 1%nat; reflexivity | exists 2%nat; reflexivity
          | exists 3%nat; reflexivity | eexists; reflexivity ].
Qed.

(** [convert] returns [True] only when a PNG stands at the output path:
    the one the primary renderer exported, or the one the raster library or,
    without the library, the vector editor made of the synthesized SVG; and
    the last thing it did was to print the success line. *)
Lemma convert_true_inv :
  forall (rt : runtime) (input output : string) (width : Z) (w w' : world),
    convert rt input output width w = (Returns true, w') ->
    exists (data : value) (png : string),
      load_json rt input = Returns data
      /\ files w' output = Some png
      /\ ((exists w1 : world,
             excalidraw_to_png_playwright (renderer rt) data output width
               (log (Attempt PrimaryRenderer) w) = (Returns true, w1)
             /\ files w1 output = Some png)
          \/ exists svg : string,
               excalidraw_to_svg (container_repr rt) data = Returns svg
               /\ rasterized rt svg output width png)
      /\ exists (t : list event) (line : string),
           trace w' = (t ++ [Printed Stdout line])%list
           /\ (line = success_line input output
               \/ line = success_line input output ++ " (SVG fallback)").
Proof.
  intros rt input output width w w' H.
  destruct (load_json rt input) as [data|e] eqn:L.
  2:{ unfold convert in H. rewrite L in H. discriminate H. }
  destruct (excalidraw_to_png_playwright (renderer rt) data output width
              (log (Attempt PrimaryRenderer) w)) as [r w1] eqn:P.
  destruct (gives_way rt input output r) eqn:G.
  - rewrite (convert_gives_way rt input output width w w1 data r L P G) in H.
    destruct (fallback_true_inv _ _ _ _ _ _ _ H) as (svg & png & S & R & F & t & T).
    exists data, png. repeat split; eauto.
  - rewrite (convert_settled rt input output width w w1 data r L P G) in H.
    destruct r as [[|]|e]; try discriminate G; try discriminate H.
    apply outcome_inj in H as (_ & <-).
    destruct (renderer_world _ _ _ _ _ _ _ P) as (_ & _ & R).
    destruct (R eq_refl) as (header & payload & png & _ & _ & _ & F).
    exists data, png. split; [reflexivity|]. split; [exact F|]. split.
    + left. exists w1. auto.
    + rewrite trace_log. eauto.
Qed.

(** [convert] returns [False] in one situation only: the raster library is
    not installed and the vector editor failed.  Then the synthesized SVG
    stands at the SVG path, the last line printed names that path on the
    error stream, and nothing was printed on the output stream. *)
Lemma convert_false_inv :
  forall (rt : runtime) (input output : string) (width : Z) (w w' : world),
    convert rt input output width w = (Returns false, w') ->
    let svg_path := str_replace ".png" ".svg" output in
    exists (data : value) (svg : string) (e : exn),
      load_json rt input = Returns data
      /\ excalidraw_to_svg (container_repr rt) data = Returns svg
      /\ cairosvg rt svg output width = RasterRaises ImportError
      /\ inkscape rt svg_path output width = RasterRaises e
      /\ files w' svg_path = Some svg
      /\ (exists t : list event,
            trace w' = (t ++ [Printed Stderr ("Saved SVG: " ++ svg_path)])%list)
      /\ printed_on Stdout (trace w') = printed_on Stdout (trace w).
Proof.
  intros rt input output width w w' H svg_path.
  destruct (load_json rt input) as [data|e] eqn:L.
  2:{ unfold convert in H. rewrite L in H. discriminate H. }
  destruct (excalidraw_to_png_playwright (renderer rt) data output width
              (log (Attempt PrimaryRenderer) w)) as [r w1] eqn:P.
  destruct (gives_way rt input output r) eqn:G.
  - rewrite (convert_gives_way rt input output width w w1 data r L P G) in H.
    destruct (fallback_false_inv _ _ _ _ _ _ _ H)
      as (svg & e & S & C & _ & _ & I & F & T & O).
    exists data, svg, e. repeat split; try assumption.
    rewrite O. destruct (renderer_world _ _ _ _ _ _ _ P) as (Tr & _).
    destruct r as [[|]|e']; cbn [fallback_start];
      rewrite ?trace_log, Tr, trace_log, ?printed_on_app; cbn [printed_on];
      now rewrite ?app_nil_r.
  - rewrite (convert_settled rt input output width w w1 data r L P G) in H.
    destruct r as [[|]|e]; discriminate H.
Qed.

(** [convert] raises for seven reasons and no other: the input does not
    load; the primary renderer raises outside [Exception]; the synthesis
    raises; the raster library raises something else than ImportError; the
    library is missing and the SVG path cannot be opened, or the SVG text
    cannot be encoded; or a PNG was made and the success line of the
    fallback cannot be printed.  A failure of the vector editor is never
    raised. *)
Lemma convert_raises_inv :
  forall (rt : runtime) (input output : string) (width : Z) (w w' : world) (e : exn),
    convert rt input output width w = (Raises e, w') ->
    let svg_path := str_replace ".png" ".svg" output in
    load_json rt input = Raises e
    \/ exists data : value,
         load_json rt input = Returns data
         /\ ((excalidraw_to_png_playwright (renderer rt) data output width
                (log (Attempt PrimaryRenderer) w) = (Raises e, w')
              /\ is_Exception e = false)
             \/ excalidraw_to_svg (container_repr rt) data = Raises e
             \/ exists svg : string,
                  excalidraw_to_svg (container_repr rt) data = Returns svg
                  /\ ((cairosvg rt svg output width = RasterRaises e
                       /\ is_ImportError e = false)
                      \/ (cairosvg rt svg output width = RasterRaises ImportError
                          /\ writable rt svg_path = false /\ e = RuntimeFailure)
                      \/ (cairosvg rt svg output width = RasterRaises ImportError
                          /\ writable rt svg_path = true /\ file_encodes rt svg = false
                          /\ e = RuntimeFailure /\ files w' svg_path = Some "")
                      \/ (exists png : string,
                            rasterized rt svg output width png
                            /\ stdout_encodes rt
                                 (success_line input output ++ " (SVG fallback)") = false
                            /\ e = RuntimeFailure /\ files w' output = Some png))).
Proof.
  intros rt input output width w w' e H svg_path.
  destruct (load_json rt input) as [data|e'] eqn:L.
  2:{ unfold convert in H. rewrite L in H. apply outcome_inj in H as (H & _).
      apply Raises_inj in H. subst e'. now left. }
  right. exists data. split; [reflexivity|].
  destruct (excalidraw_to_png_playwright (renderer rt) data output width
              (log (Attempt PrimaryRenderer) w)) as [r w1] eqn:P.
  destruct (gives_way rt input output r) eqn:G.
  - rewrite (convert_gives_way rt input output width w w1 data r L P G) in H.
    right. exact (fallback_raises_inv _ _ _ _ _ _ _ _ H).
  - rewrite (convert_settled rt input output width w w1 data r L P G) in H.
    destruct r as [[|]|e']; try discriminate H.
    apply outcome_inj in H as (H & <-). apply Raises_inj in H. subst e'.
    left. split; [reflexivity | exact G].
Qed.

Lemma main_inv (rt : runtime) (input output : string) (width : Z) (w w' : world)
    (t : termination) :
  main rt input output width w = (t, w') ->
  (path_exists rt input = false /\ t = Exit 1
   /\ w' = log (Printed Stderr ("Error: " ++ input ++ " not found")) w)
  \/ (path_exists rt input = true
      /\ ((t = Exit 0 /\ convert rt input output width w = (Returns true, w'))
          \/ (t = Exit 1 /\ convert rt input output width w = (Returns false, w'))
          \/ exists e, t = Uncaught e /\ convert rt input output width w = (Raises e, w'))).
Proof.
  unfold main. destruct (path_exists rt input); cbn [negb]; intros H.
  - right. split; [reflexivity|].
    destruct (convert rt input output width w) as [[[|]|e] w1];
      apply outcome_inj in H as (<- & <-); eauto.
  - left. apply outcome_inj in H as (<- & <-). auto.
Qed.

(** What [convert] adds to the world. *)
Lemma convert_world (rt : runtime) (input output : string) (width : Z) (w : world) :
  let w' := snd (convert rt input output width w) in
  (exists n : nat, attempts (trace w') = (attempts (trace w) ++ firstn n chain)%list)
  /\ (forall p : string,
        p <> output -> p <> str_replace ".png" ".svg" output ->
        files w' p = files w p)
  /\ exists t : list event, trace w' = (trace w ++ t)%list.
Proof.
  intros w'. subst w'.
  destruct (load_json rt input) as [data|e] eqn:L.
  2:{ unfold convert. rewrite L. cbn [snd]. split; [|split].
      - exists 0%nat. cbn [firstn]. now rewrite app_nil_r.
      - reflexivity.
      - exists []. now rewrite app_nil_r. }
  destruct (excalidraw_to_png_playwright (renderer rt) data output width
              (log (Attempt PrimaryRenderer) w)) as [r w1] eqn:P.
  destruct (renderer_world _ _ _ _ _ _ _ P) as (T & F & _).
  destruct (gives_way rt input output r) eqn:G.
  - rewrite (convert_gives_way rt input output width w w1 data r L P G).
    destruct (fallback_world rt data input output width
                (fallback_start rt data output r w1)) as ((n & A) & Fi & (t & Tr)).
    assert (A0 : attempts (trace (fallback_start rt data output r w1))
                 = (attempts (trace w) ++ [PrimaryRenderer])%list).
    { destruct r as [[|]|e]; cbn [fallback_start];
        rewrite ?trace_log, T, trace_log, ?attempts_app; cbn [attempts];
        now rewrite ?app_nil_r. }
    split; [|split].
    + exists (S n). rewrite A, A0, <- app_assoc. reflexivity.
    + intros p N1 N2. rewrite (Fi p N1 N2), files_fallback_start. now apply F.
    + rewrite Tr.
      destruct r as [[|]|e]; cbn [fallback_start];
        rewrite ?trace_log, T, trace_log, <- ?app_assoc; eexists; reflexivity.
  - rewrite (convert_settled rt input output width w w1 data r L P G).
    destruct r as [ok|e]; cbn [snd]; (split; [|split]).
    + exists 1%nat. rewrite trace_log, T, trace_log, !attempts_app. cbn [attempts].
      now rewrite app_nil_r.
    + intros p N1 N2. rewrite files_log. now apply F.
    + rewrite trace_log, T, trace_log, <- app_assoc. eexists. reflexivity.
    + exists 1%nat. rewrite T, trace_log, attempts_app. reflexivity.
    + intros p N1 N2. now apply F.
    + rewrite T, trace_log. eexists. reflexivity.
Qed.

(** X16.  Exit code 0 means that a PNG stands at the output path: [main] exits
    with 0 only when the input exists and [convert] returned [True], and
    then the file at the output path is the PNG the primary renderer
    exported, or the one the raster library or, without the library, the
    vector editor made of the synthesized SVG; the last thing the run did was
    to print the success line. *)
Theorem exit_zero_means_png_written :
  forall (rt : runtime) (input output : string) (width : Z) (w w' : world),
    main rt input output width w = (Exit 0, w') ->
    path_exists rt input = true
    /\ convert rt input output width w = (Returns true, w')
    /\ exists (data : value) (png : string),
         load_json rt input = Returns data
         /\ files w' output = Some png
         /\ ((exists w1 : world,
                excalidraw_to_png_playwright (renderer rt) data output width
                  (log (Attempt PrimaryRenderer) w) = (Returns true, w1)
                /\ files w1 output = Some png)
             \/ exists svg : string,
                  excalidraw_to_svg (container_repr rt) data = Returns svg
                  /\ rasterized rt svg output width png)
         /\ exists (t : list event) (line : string),
              trace w' = (t ++ [Printed Stdout line])%list
              /\ (line = success_line input output
                  \/ line = success_line input output ++ " (SVG fallback)").
Proof.
  intros rt input output width w w' H.
  destruct (main_inv _ _ _ _ _ _ _ H) as [(_ & E & _) | (X & [(_ & C) | [(E & _) | (e & E & _)]])];
    try discriminate E.
  split; [exact X|]. split; [exact C|]. apply (convert_true_inv _ _ _ _ _ _ C).
Qed.



(** X19.  The stages are tried in the order of the chain, each at most once and
    none before the ones that precede it: what a run adds to the record of
    attempts is a beginning of [primary renderer, synthesizer, raster
    library, vector editor]. *)
Theorem stages_follow_the_chain :
  forall (rt : runtime) (input output : string) (width : Z) (w : world),
    exists n : nat,
      attempts (trace (snd (main rt input output width w)))
      = (attempts (trace w) ++ firstn n chain)%list.
Proof.
  intros rt input output width w. unfold main.
  destruct (path_exists rt input); cbn [negb].
  - destruct (convert_world rt input output width w) as (A & _).
    destruct (convert rt input output width w) as [[ok|e] w']; exact A.
  - exists 0%nat. cbn [snd firstn]. rewrite trace_log, attempts_app. reflexivity.
Qed.

(** X20.  A run itself writes to no path but the output path and the SVG path,
    whatever the collaborators answer, and it erases nothing of the trace. *)
Theorem only_output_and_svg_are_written :
  forall (rt : runtime) (input output : string) (width : Z) (w : world) (p : string),
    p <> output -> p <> str_replace ".png" ".svg" output ->
    files (snd (main rt input output width w)) p = files w p
    /\ exists t : list event,
         trace (snd (main rt input output width w)) = (trace w ++ t)%list.
Proof.
  intros rt input output width w p N1 N2. unfold main.
  destruct (path_exists rt input); cbn [negb].
  - destruct (convert_world rt input output width w) as (_ & F & T).
    destruct (convert rt input output width w) as [[ok|e] w']; cbn [snd] in *; auto.
  - cbn [snd]. split; [reflexivity|]. rewrite trace_log. eexists. reflexivity.
Qed.

(** ** The SVG path *)

Lemma prefix_occurs (old s : string) : prefix old s = true -> occurs old s.
Proof. intros P. destruct (prefix_split old s P) as (b & ->). now exists "", b. Qed.

Lemma occurs_later (old : string) (c : ascii) (s : string) :
  occurs old s -> occurs old (String c s).
Proof. intros (a & b & ->). now exists (String c a), b. Qed.

Lemma prefix_of_append (p b : string) : prefix p (p ++ b) = true.
Proof.
  induction p as [|c p IH]; [apply prefix_empty|].
  change (String c p ++ b) with (String c (p ++ b)).
  now rewrite prefix_cons, Ascii.eqb_refl, IH.
Qed.

Lemma occurs_not_first (old : string) (c : ascii) (s : string) :
  occurs old (String c s) -> prefix old (String c s) = false -> occurs old s.
Proof.
  intros (a & b & E) P. destruct a as [|c' a].
  - cbn [append] in E. rewrite E, prefix_of_append in P. discriminate P.
  - injection E as _ ->. now exists a, b.
Qed.

(** A string in which [old] does not occur is left as it is. *)
Lemma replace_absent (old new s : string) :
  old <> "" -> ~ occurs old s -> str_replace old new s = s.
Proof.
  intros N A. unfold str_replace. destruct old as [|o old]; [contradiction|].
  induction s as [|c s IH]; [reflexivity|]. cbn [replace_from].
  destruct (prefix (String o old) (String c s)) eqn:P.
  - destruct (A (prefix_occurs _ _ P)).
  - f_equal. apply IH. intros O. apply A, occurs_later, O.
Qed.

(** Swapping the extension changes every path in which [.png] occurs. *)
Lemma replace_present (s : string) :
  occurs ".png" s -> str_replace ".png" ".svg" s <> s.
Proof.
  unfold str_replace. induction s as [|c s IH]; intros O.
  - destruct O as (a & b & E). apply (f_equal String.length) in E.
    rewrite append_length in E. simpl in E. lia.
  - cbn [replace_from]. destruct (prefix ".png" (String c s)) eqn:P.
    + destruct (prefix_split _ _ P) as (b & E). rewrite E.
      cbn [append]. intros H. injection H as H _. discriminate H.
    + intros H. injection H as H. apply (IH (occurs_not_first _ _ _ O P) H).
Qed.

Lemma contains_occurs (old s : string) : contains old s = true <-> occurs old s.
Proof.
  split.
  - induction s as [|c s IH]; cbn [contains]; rewrite orb_true_iff; intros [P | C].
    + apply prefix_occurs, P.
    + discriminate C.
    + apply prefix_occurs, P.
    + apply occurs_later, IH, C.
  - induction s as [|c s IH]; intros O; cbn [contains]; apply orb_true_iff.
    + left. destruct O as (a & b & E). destruct a; [|discriminate E].
      cbn [append] in E. rewrite E. apply prefix_of_append.
    + destruct (prefix old (String c s)) eqn:P; [now left | right].
      apply IH, (occurs_not_first _ _ _ O P).
Qed.

Lemma not_contains (old s : string) : contains old s = false -> ~ occurs old s.
Proof. intros C O. apply contains_occurs in O. congruence. Qed.


(** ** The primary renderer *)

(** X22.  From a data URL the primary renderer writes the decoded payload: what
    follows the first comma, further commas included, is decoded and
    written to the output path, [True] is returned, and no other file is
    touched. *)
Theorem data_url_payload_is_written :
  forall (br : browser) (data : value) (output : string) (width : Z) (w : world)
         (header payload png : string),
    playwright_installed br = true ->
    window_result br data = PageResult (VStr (header ++ "," ++ payload)) ->
    contains "," header = false ->
    opens br output = true ->
    b64decode br payload = Some png ->
    exists w' : world,
      excalidraw_to_png_playwright br data output width w = (Returns true, w')
      /\ files w' output = Some png
      /\ forall p : string, p <> output -> files w' p = files w p.
Proof.
  intros br data output width w header payload png I R C O D.
  unfold excalidraw_to_png_playwright. rewrite I, R. cbn [negb].
  assert (T : truthy (VStr (header ++ "," ++ payload)) = true).
  { cbn [truthy]. destruct header; reflexivity. }
  rewrite T, (split_once_first_comma header payload C), O. cbv zeta. rewrite D.
  eexists. split; [reflexivity|]. split.
  - apply files_write_same.
  - intros p N. now rewrite !files_write_other.
Qed.

(** X23.  The output file is opened before the payload is decoded: when the
    payload does not decode, the renderer raises and leaves an empty file at
    the output path, whatever stood there before. *)
Theorem failed_decode_empties_the_output :
  forall (br : browser) (data : value) (output : string) (width : Z) (w : world)
         (header payload : string),
    playwright_installed br = true ->
    window_result br data = PageResult (VStr (header ++ "," ++ payload)) ->
    contains "," header = false ->
    opens br output = true ->
    b64decode br payload = None ->
    exists w' : world,
      excalidraw_to_png_playwright br data output width w = (Raises RuntimeFailure, w')
      /\ files w' output = Some "".
Proof.
  intros br data output width w header payload I R C O D.
  unfold excalidraw_to_png_playwright. rewrite I, R. cbn [negb].
  assert (T : truthy (VStr (header ++ "," ++ payload)) = true).
  { cbn [truthy]. destruct header; reflexivity. }
  rewrite T, (split_once_first_comma header payload C), O. cbv zeta. rewrite D.
  eexists. split; [reflexivity|]. apply files_write_same.
Qed.

(** X24.  The renderer leaves the files as they are unless the page gave a string
    with a comma in it and the output path could be opened; it writes to no
    path but the output path; and it returns [True] only when the payload
    decoded, with the decoded payload at the output path. *)
Theorem renderer_touches_only_the_output :
  forall (br : browser) (data : value) (output : string) (width : Z) (w w' : world)
         (r : result bool),
    excalidraw_to_png_playwright br data output width w = (r, w') ->
    (w' = w /\ r <> Returns true)
    \/ exists header payload : string,
         window_result br data = PageResult (VStr (header ++ "," ++ payload))
         /\ contains "," header = false
         /\ opens br output = true
         /\ (forall p : string, p <> output -> files w' p = files w p)
         /\ ((r = Raises RuntimeFailure /\ b64decode br payload = None
              /\ files w' output = Some "")
             \/ exists png : string,
                  r = Returns true /\ b64decode br payload = Some png
                  /\ files w' output = Some png).
Proof.
  intros br data output width w w' r.
  unfold excalidraw_to_png_playwright.
  destruct (playwright_installed br); cbn [negb].
  2:{ intros [= <- <-]. left. split; [reflexivity | discriminate]. }
  destruct (window_result br data) as [data_url | e] eqn:R.
  2:{ intros [= <- <-]. left. split; [reflexivity | discriminate]. }
  destruct (truthy data_url).
  2:{ intros [= <- <-]. left. split; [reflexivity | discriminate]. }
  destruct data_url as [| | | |s| |];
    try (intros [= <- <-]; left; split; [reflexivity | discriminate]).
  destruct (split_once s) as [[header payload]|] eqn:S.
  2:{ intros [= <- <-]. left. split; [reflexivity | discriminate]. }
  destruct (split_once_parts s header payload S) as (-> & C).
  destruct (opens br output) eqn:O.
  2:{ intros [= <- <-]. left. split; [reflexivity | discriminate]. }
  cbv zeta. intros H. right. exists header, payload.
  split; [reflexivity|]. split; [exact C|]. split; [reflexivity|].
  destruct (b64decode br payload) as [png|]; injection H as <- <-.
  - split.
    + intros p N. now rewrite !files_write_other.
    + right. exists png. repeat split. apply files_write_same.
  - split.
    + intros p N. now rewrite !files_write_other.
    + left. repeat split. apply files_write_same.
Qed.

(** * The statements at concrete scenes and machines *)

Lemma canvas_size_and_local_position_witness :
  exists (ds : list (list (string * value))) (min_x min_y max_x max_y : value),
    [a_rectangle 10 10 50 20; a_rectangle 100 40 30 30] = map VDict ds
    /\ laid_out no_container_str ds min_x min_y max_x max_y
         (document_markup "200" "140"
            (rect_markup "40" "40" "50" "20" ++ rect_markup "130" "70" "30" "30")).
Proof.
  exact (proj1 (proj2 (proj2 (proj2 (canvas_size_and_local_position no_container_str))))
           two_rectangles [a_rectangle 10 10 50 20; a_rectangle 100 40 30 30]
           _ eq_refl ltac:(discriminate) eq_refl).
Defined.

Lemma deleted_elements_count_for_bounds_only_witness :
  exists (ds : list (list (string * value))) (min_x min_y max_x max_y : value),
    [a_deleted_rectangle 500 300 100 100; a_rectangle 0 0 50 20] = map VDict ds
    /\ laid_out no_container_str ds min_x min_y max_x max_y
         (document_markup "680" "480" (rect_markup "40" "40" "50" "20")).
Proof.
  destruct (proj2 (proj2 (deleted_elements_count_for_bounds_only no_container_str))
              (scene [a_deleted_rectangle 500 300 100 100; a_rectangle 0 0 50 20])
              [a_deleted_rectangle 500 300 100 100; a_rectangle 0 0 50 20]
              _ eq_refl ltac:(discriminate) eq_refl)
    as (ds & min_x & min_y & max_x & max_y & E & L & _).
  exists ds, min_x, min_y, max_x, max_y. split; [exact E | exact L].
Defined.

Lemma line_connects_first_and_last_point_witness :
  render_element no_container_str (VInt 0) (VInt 0) []
    (an_object "arrow" (VInt 100) (VInt 60)
       [("points", VList [int_pair 0 0; int_pair 10 5; int_pair 20 0])])
  = Returns [line_markup "140" "100" "160" "100" "#000" "1" arrowhead].
Proof.
  exact (proj2 (proj2 (proj2 (line_connects_first_and_last_point no_container_str)))
           [("type", VStr "arrow"); ("x", VInt 100); ("y", VInt 60);
            ("points", VList [int_pair 0 0; int_pair 10 5; int_pair 20 0])]
           "arrow" [int_pair 10 5]
           (VInt 0) (VInt 0) (VInt 140) (VInt 100)
           (VInt 0) (VInt 0) (VInt 20) (VInt 0)
           (VInt 140) (VInt 100) (VInt 160) (VInt 100) []
           (or_introl eq_refl) eq_refl eq_refl eq_refl
           (ex_intro _ (VInt 100) (conj eq_refl eq_refl))
           (ex_intro _ (VInt 60) (conj eq_refl eq_refl))
           eq_refl eq_refl eq_refl eq_refl eq_refl).
Defined.

Lemma text_is_stacked_lines_witness :
  render_element no_container_str (VInt 0) (VInt 0) []
    (an_object "text" (VInt 100) (VInt 60)
       [("text", VStr ("a" ++ nl ++ "b")); ("strokeColor", VStr "red");
        ("fontSize", VInt 20)])
  = Returns [text_markup "140" "120" "20" "red" (first_tspan "a" ++ next_tspan "140" "b")]
  /\ List.length (split_lines ("a" ++ nl ++ "b")) = 2%nat.
Proof.
  exact (proj2 (proj2 (proj2 (text_is_stacked_lines no_container_str)))
           [("type", VStr "text"); ("x", VInt 100); ("y", VInt 60);
            ("text", VStr ("a" ++ nl ++ "b")); ("strokeColor", VStr "red");
            ("fontSize", VInt 20)]
           ("a" ++ nl ++ "b") (VInt 0) (VInt 0) (VInt 140) (VInt 100) (VInt 120) []
           eq_refl eq_refl eq_refl
           (ex_intro _ (VInt 100) (conj eq_refl eq_refl))
           (ex_intro _ (VInt 60) (conj eq_refl eq_refl))
           eq_refl eq_refl).
Defined.


Lemma synthesized_markup_is_well_formed_witness :
  well_formed (document_markup "130" "100" (rect_markup "40" "40" "50" "20")).
Proof.
  exact (synthesized_markup_is_well_formed no_container_str one_rectangle
           (document_markup "130" "100" (rect_markup "40" "40" "50" "20"))
           eq_refl eq_refl).
Defined.



Lemma short_points_draw_nothing_witness :
  render_element no_container_str (VInt 0) (VInt 0) []
    (VDict [("type", VStr "line"); ("x", VInt 5); ("y", VInt 7);
            ("points", VList [int_pair 0 0])])
  = Returns [].
Proof.
  exact (proj1 (short_points_draw_nothing no_container_str)
           [("type", VStr "line"); ("x", VInt 5); ("y", VInt 7);
            ("points", VList [int_pair 0 0])]
           "line" [int_pair 0 0] (VInt 0) (VInt 0) (VInt 45) (VInt 47) []
           (or_intror eq_refl) eq_refl eq_refl ltac:(simpl; lia) eq_refl eq_refl).
Defined.


Lemma unknown_kind_draws_nothing_witness :
  render_primitive no_container_str (VInt 40) (VInt 40)
    (VDict [("type", VStr "image"); ("x", VInt 0)]) []
  = Returns [].
Proof.
  exact (unknown_kind_draws_nothing no_container_str
           [("type", VStr "image"); ("x", VInt 0)] (VInt 40) (VInt 40) []
           eq_refl eq_refl eq_refl eq_refl eq_refl).
Defined.


Lemma primitives_follow_input_order_witness :
  for_each (render_element no_container_str (VInt 0) (VInt 0))
    [a_rectangle 0 0 50 20; a_deleted_rectangle 5 5 1 1; a_rectangle 100 40 30 30] []
  = Returns [rect_markup "40" "40" "50" "20"; rect_markup "140" "80" "30" "30"].
Proof.
  exact (proj1 (primitives_follow_input_order no_container_str) (VInt 0) (VInt 0)
           [a_rectangle 0 0 50 20; a_deleted_rectangle 5 5 1 1; a_rectangle 100 40 30 30]
           [[rect_markup "40" "40" "50" "20"]; []; [rect_markup "140" "80" "30" "30"]]
           []
           ltac:(repeat (constructor; [reflexivity|]); constructor)).
Defined.


Lemma bounds_ignore_element_order_witness :
  calculate_bounds [a_rectangle 100 40 30 30; a_rectangle 10 10 50 20]
  = calculate_bounds [a_rectangle 10 10 50 20; a_rectangle 100 40 30 30].
Proof.
  apply (bounds_ignore_element_order
           [a_rectangle 10 10 50 20; a_rectangle 100 40 30 30]
           [a_rectangle 100 40 30 30; a_rectangle 10 10 50 20]
           [{| gx := 10; gy := 10; gwidth := 50; gheight := 20 |};
            {| gx := 100; gy := 40; gwidth := 30; gheight := 30 |}]).
  - repeat constructor.
  - apply perm_swap.
Defined.

Lemma moved_scene_same_picture_witness :
  excalidraw_to_svg no_container_str (scene [a_rectangle 110 210 50 20])
  = excalidraw_to_svg no_container_str (scene [a_rectangle 10 10 50 20]).
Proof.
  apply (moved_scene_same_picture no_container_str 100 200
           [("elements", VList [a_rectangle 10 10 50 20])]
           [("elements", VList [a_rectangle 110 210 50 20])]
           [a_rectangle 10 10 50 20] [a_rectangle 110 210 50 20]
           [{| gx := 10; gy := 10; gwidth := 50; gheight := 20 |}]
           eq_refl eq_refl).
  - repeat constructor.
  - constructor; [|constructor]. split.
    + eexists _, _. split; [reflexivity|]. split; [reflexivity|].
      intros k X Y. cbn [lookup].
      destruct ("type" =? k)%string; [reflexivity|].
      destruct (String.eqb_spec "x" k) as [E|_]; [now destruct (X (eq_sym E))|].
      destruct (String.eqb_spec "y" k) as [E|_]; [now destruct (Y (eq_sym E))|].
      reflexivity.
    + exists 10, 10. repeat split.
Defined.

Lemma only_the_read_fields_matter_witness :
  excalidraw_to_svg no_container_str
    (VDict [("type", VStr "excalidraw"); ("elements", VList [a_saved_rectangle])])
  = excalidraw_to_svg no_container_str one_rectangle.
Proof.
  apply (only_the_read_fields_matter no_container_str
           [("elements", VList [a_rectangle 10 10 50 20])]
           [("type", VStr "excalidraw"); ("elements", VList [a_saved_rectangle])]
           [a_rectangle 10 10 50 20] [a_saved_rectangle] eq_refl eq_refl).
  constructor; [|constructor].
  eexists _, _. split; [reflexivity|]. split; [reflexivity|].
  intros k I. unfold read_keys in I. cbn [In] in I.
  repeat (destruct I as [<- | I]; [reflexivity|]). destruct I.
Defined.


Lemma elements_draw_independently_witness :
  List.length [[rect_markup "40" "40" "50" "20"]; []; [rect_markup "130" "70" "30" "30"]]
  = List.length [a_rectangle 10 10 50 20; a_deleted_rectangle 0 0 1 1;
                 a_rectangle 100 40 30 30]
  /\ Forall (fun part => (List.length part <= 1)%nat)
       [[rect_markup "40" "40" "50" "20"]; []; [rect_markup "130" "70" "30" "30"]].
Proof.
  exact (proj2 (elements_draw_independently no_container_str (VInt 10) (VInt 10)
                  [a_rectangle 10 10 50 20; a_deleted_rectangle 0 0 1 1;
                   a_rectangle 100 40 30 30])
           [[rect_markup "40" "40" "50" "20"]; []; [rect_markup "130" "70" "30" "30"]]
           eq_refl).
Defined.

Lemma malformed_scene_is_rejected_witness :
  excalidraw_to_svg no_container_str (scene [a_rectangle 10 10 50 20; VInt 5])
  = Raises RuntimeFailure.
Proof.
  exact (proj2 (proj2 (malformed_scene_is_rejected no_container_str))
           [("elements", VList [a_rectangle 10 10 50 20; VInt 5])]
           [a_rectangle 10 10 50 20; VInt 5] (VInt 5)
           eq_refl (or_intror (or_introl eq_refl))
           ltac:(intros entries; discriminate)).
Defined.

Lemma one_failing_element_fails_the_scene_witness :
  exists ex : exn,
    excalidraw_to_svg no_container_str (scene [a_rectangle 10 10 50 20; a_number_as_text])
    = Raises ex.
Proof.
  destruct (one_failing_element_fails_the_scene no_container_str) as (A & B).
  apply (A [("elements", VList [a_rectangle 10 10 50 20; a_number_as_text])]
           [a_rectangle 10 10 50 20; a_number_as_text] a_number_as_text
           eq_refl (or_intror (or_introl eq_refl))).
  apply (B [("type", VStr "text"); ("x", VInt 0); ("y", VInt 0); ("text", VInt 5)]
           (VInt 5) eq_refl eq_refl eq_refl).
  intros s. discriminate.
Defined.


Lemma line_may_leave_the_canvas_witness :
  excalidraw_to_svg no_container_str (scene [VDict (a_long_arrow 1000 0)])
  = Returns (document_markup "180" "130"
               (line_markup "40" "40" "1040" "40" "#000" "1" arrowhead))
  /\ 180 < 40 + 1000.
Proof.
  destruct (line_may_leave_the_canvas no_container_str (a_long_arrow 1000 0) "arrow"
              5 7 1000 0 (or_introl eq_refl) eq_refl eq_refl eq_refl eq_refl eq_refl
              eq_refl eq_refl eq_refl) as (D & Wide & _).
  split; [exact D | apply Wide; reflexivity].
Defined.

Lemma plain_scene_is_drawn_witness :
  exists svg : string,
    excalidraw_to_svg no_container_str
      (scene [a_rectangle 10 10 50 20; an_arrow; a_text "a"; a_line_without_points])
    = Returns svg.
Proof.
  exact (plain_scene_is_drawn no_container_str
           [("elements",
             VList [a_rectangle 10 10 50 20; an_arrow; a_text "a"; a_line_without_points])]
           [a_rectangle 10 10 50 20; an_arrow; a_text "a"; a_line_without_points]
           eq_refl eq_refl).
Defined.

Lemma exit_zero_means_png_written_witness :
  path_exists browser_works "in.excalidraw" = true
  /\ files (snd (main browser_works "in.excalidraw" "out.png" 1200 empty_world)) "out.png"
     <> None.
Proof.
  destruct (exit_zero_means_png_written browser_works "in.excalidraw" "out.png" 1200
              empty_world
              (snd (main browser_works "in.excalidraw" "out.png" 1200 empty_world))
              eq_refl) as (X & _ & data & png & _ & F & _).
  split; [exact X|]. rewrite F. discriminate.
Defined.



Lemma only_output_and_svg_are_written_witness :
  files (snd (main nothing_installed "in.excalidraw" "out.png" 1200 old_picture))
    "notes.txt"
  = files old_picture "notes.txt".
Proof.
  exact (proj1 (only_output_and_svg_are_written nothing_installed "in.excalidraw"
                  "out.png" 1200 old_picture "notes.txt"
                  ltac:(discriminate) ltac:(discriminate))).
Defined.


Lemma data_url_payload_is_written_witness :
  exists w' : world,
    excalidraw_to_png_playwright exporting_browser one_rectangle "out.png" 1200 old_picture
    = (Returns true, w')
    /\ files w' "out.png" = Some "PNG"
    /\ forall p : string, p <> "out.png" -> files w' p = files old_picture p.
Proof.
  exact (data_url_payload_is_written exporting_browser one_rectangle "out.png" 1200
           old_picture "data:image/png;base64" "iVBORw0KGgo=" "PNG"
           eq_refl eq_refl eq_refl eq_refl eq_refl).
Defined.

Lemma failed_decode_empties_the_output_witness :
  files old_picture "out.png" = Some "OLD"
  /\ exists w' : world,
       excalidraw_to_png_playwright garbled_browser one_rectangle "out.png" 1200 old_picture
       = (Raises RuntimeFailure, w')
       /\ files w' "out.png" = Some "".
Proof.
  split; [reflexivity|].
  exact (failed_decode_empties_the_output garbled_browser one_rectangle "out.png" 1200
           old_picture "data:image/png;base64" "iVBORw0KGgo="
           eq_refl eq_refl eq_refl eq_refl eq_refl).
Defined.

Lemma renderer_touches_only_the_output_witness :
  files (snd (excalidraw_to_png_playwright exporting_browser one_rectangle "out.png"
                1200 old_picture)) "notes.txt"
  = files old_picture "notes.txt".
Proof.
  destruct (renderer_touches_only_the_output exporting_browser one_rectangle "out.png"
              1200 old_picture
              (snd (excalidraw_to_png_playwright exporting_browser one_rectangle "out.png"
                      1200 old_picture))
              (Returns true) eq_refl)
    as [(_ & N) | (header & payload & _ & _ & _ & F & _)].
  - now destruct N.
  - apply F. discriminate.
Defined.
